(** * Client-side state and validation flows of the case-management screens

    A shallow embedding of the four screens of the repository
    (Dashboard, Register, Login, Payment).  Every React component is a
    record holding its [useState] cells together with what it reads from
    [useAuth]; every handler is a function from that record to the new
    record and the list of effects it performs (requests, notifications,
    navigation).  An [async] handler is cut at each [await]: the part
    before it issues the request, the part after it is run when the
    answer arrives. *)

From Stdlib Require Import List Bool Arith NArith ZArith Lia String Ascii.
Import ListNotations.

Set Implicit Arguments.

(* ------------------------------------------------------------------ *)
(** ** JavaScript strings *)

(** A JavaScript string is a sequence of UTF-16 code units. *)
Module JS.

Definition jsstring := list N.

(** Literals of the source are ASCII; [lit] reads them off a Rocq string. *)
Definition lit (s : string) : jsstring :=
  map N_of_ascii (list_ascii_of_string s).

Definition isEmpty (s : jsstring) : bool :=
  match s with [] => true | _ :: _ => false end.

(** A string used as a condition is true unless it is empty. *)
Definition truthy (s : jsstring) : bool := negb (isEmpty s).

Fixpoint eqb (s t : jsstring) : bool :=
  match s, t with
  | [], [] => true
  | c :: s', d :: t' => N.eqb c d && eqb s' t'
  | _, _ => false
  end.

(** WhiteSpace and LineTerminator code units: what [trim] strips and
    what [\s] matches. *)
Definition isWhiteSpace (c : N) : bool :=
  ((9 <=? c) && (c <=? 13) || (c =? 32) || (c =? 160) || (c =? 5760)
   || (8192 <=? c) && (c <=? 8202) || (c =? 8232) || (c =? 8233)
   || (c =? 8239) || (c =? 8287) || (c =? 12288) || (c =? 65279))%N.

Fixpoint trimStart (s : jsstring) : jsstring :=
  match s with
  | [] => []
  | c :: s' => if isWhiteSpace c then trimStart s' else s
  end.

Definition trimEnd (s : jsstring) : jsstring := rev (trimStart (rev s)).

Definition trim (s : jsstring) : jsstring := trimEnd (trimStart s).

Fixpoint startsWith (s q : jsstring) : bool :=
  match q, s with
  | [], _ => true
  | _ :: _, [] => false
  | c :: q', d :: s' => N.eqb c d && startsWith s' q'
  end.

(** [s.includes(q)]: [q] occurs in [s] at some position. *)
Fixpoint includes (s q : jsstring) : bool :=
  startsWith s q
  || match s with
     | [] => false
     | _ :: s' => includes s' q
     end.

End JS.

Import JS.

(* ------------------------------------------------------------------ *)
(** ** Regular expressions *)

(** The fragment of regular expressions the source uses, over code
    units, with a matcher by derivatives.  [test] is the anchored test
    [/^r$/.test(s)]. *)
Module Regex.

Inductive re : Type :=
| Void : re
| Eps : re
| Class : (N -> bool) -> re
| Cat : re -> re -> re
| Alt : re -> re -> re
| Star : re -> re.

Definition Plus (r : re) : re := Cat r (Star r).

Definition Chr (c : N) : re := Class (N.eqb c).

Fixpoint nullable (r : re) : bool :=
  match r with
  | Void => false
  | Eps => true
  | Class _ => false
  | Cat r1 r2 => nullable r1 && nullable r2
  | Alt r1 r2 => nullable r1 || nullable r2
  | Star _ => true
  end.

Fixpoint deriv (c : N) (r : re) : re :=
  match r with
  | Void => Void
  | Eps => Void
  | Class p => if p c then Eps else Void
  | Cat r1 r2 =>
      if nullable r1
      then Alt (Cat (deriv c r1) r2) (deriv c r2)
      else Cat (deriv c r1) r2
  | Alt r1 r2 => Alt (deriv c r1) (deriv c r2)
  | Star r1 => Cat (deriv c r1) (Star r1)
  end.

Fixpoint test (r : re) (s : jsstring) : bool :=
  match s with
  | [] => nullable r
  | c :: s' => test (deriv c r) s'
  end.

(** The language of an expression, as a relation. *)
Inductive matches : re -> jsstring -> Prop :=
| m_eps : matches Eps []
| m_class : forall (p : N -> bool) c, p c = true -> matches (Class p) [c]
| m_cat : forall r1 r2 s1 s2,
    matches r1 s1 -> matches r2 s2 -> matches (Cat r1 r2) (s1 ++ s2)
| m_alt_l : forall r1 r2 s, matches r1 s -> matches (Alt r1 r2) s
| m_alt_r : forall r1 r2 s, matches r2 s -> matches (Alt r1 r2) s
| m_star_nil : forall r, matches (Star r) []
| m_star_cons : forall r s1 s2,
    matches r s1 -> matches (Star r) s2 -> matches (Star r) (s1 ++ s2).

(** [[^\s@]]: a code unit that is neither white space nor [@]. *)
Definition notSpaceAt (c : N) : bool :=
  negb (isWhiteSpace c) && negb (N.eqb c 64).

(** [/^[^\s@]+@[^\s@]+\.[^\s@]+$/] *)
Definition emailRegex : re :=
  Cat (Plus (Class notSpaceAt))
      (Cat (Chr 64)
           (Cat (Plus (Class notSpaceAt))
                (Cat (Chr 46) (Plus (Class notSpaceAt))))).

End Regex.

(* ------------------------------------------------------------------ *)
(** ** Rows, answers of the row store, effects *)

Module User.
Record t := mk { id : jsstring; email : jsstring }.
End User.

Module Profile.
Record t := mk {
  id : jsstring;
  user_id : jsstring;
  first_name : jsstring;
  last_name : jsstring;
  is_pro : bool;
  created_at : jsstring
}.
End Profile.

Inductive CaseStatus := active | pending | closed.

Module Case.
Record t := mk {
  id : jsstring;
  user_id : jsstring;
  title : jsstring;
  description : option jsstring;   (* the column is nullable *)
  status : CaseStatus;
  file_count : Z;
  created_at : jsstring;
  updated_at : jsstring
}.
End Case.

(** The object passed to [insert] by the creation flow. *)
Module CaseInsert.
Record t := mk {
  user_id : jsstring;
  title : jsstring;
  description : option jsstring;
  status : CaseStatus;
  file_count : Z
}.
End CaseInsert.

Record PostgrestError := mkPostgrestError {
  code : jsstring;
  message : jsstring
}.

(** The client answers [{ data, error }] where exactly one of the two is
    non-null. *)
Inductive PostgrestResponse (A : Type) : Type :=
| Success (row : A)
| Failure (err : PostgrestError).

Arguments Failure {A} err.

Definition data {A} (r : PostgrestResponse A) : option A :=
  match r with Success d => Some d | Failure _ => None end.

Definition error {A} (r : PostgrestResponse A) : option PostgrestError :=
  match r with Success _ => None | Failure e => Some e end.

(** What the session provider answers to [signUp] and [signIn]: the
    promise resolves with an optional error or is rejected. *)
Inductive AuthOutcome :=
| Resolved (err : option jsstring)   (* [error.message] when there is one *)
| Rejected.

Inductive Effect :=
| Navigate (path : jsstring)
| ToastSuccess (msg : jsstring)
| ToastError (msg : jsstring)
| ConsoleError (msg : jsstring) (err : PostgrestError)
| SelectProfile (user_id : jsstring)
| SelectCases (user_id : jsstring)
| InsertCase (row : CaseInsert.t)
| UpdateIsPro (user_id : jsstring)
| SetTimeout (ms : Z)
| SignOut
| SignUp (email password firstName lastName : jsstring)
| SignIn (email password : jsstring).

(** A network request, as opposed to a notification, a log line, a
    timer or a route change. *)
Definition isRequest (e : Effect) : bool :=
  match e with
  | SelectProfile _ | SelectCases _ | InsertCase _ | UpdateIsPro _
  | SignOut | SignUp _ _ _ _ | SignIn _ _ => true
  | _ => false
  end.

(** Handlers are state transformers that also list their effects. *)
Section Act.
Variable St : Type.

Definition Act := St -> St * list Effect.

Definition skip : Act := fun s => (s, []).
Definition upd (f : St -> St) : Act := fun s => (f s, []).
Definition emit (e : Effect) : Act := fun s => (s, [e]).
Definition andThen (f g : Act) : Act :=
  fun s => let (s1, e1) := f s in let (s2, e2) := g s1 in (s2, e1 ++ e2).

(** Running a list of events through a step function, collecting the
    effects. *)
Fixpoint runWith (Ev : Type) (step : Ev -> Act) (evs : list Ev) : Act :=
  match evs with
  | [] => skip
  | ev :: evs' => andThen (step ev) (runWith step evs')
  end.

End Act.

Arguments skip {St}.
Arguments upd {St}.
Arguments emit {St}.
Arguments andThen {St}.

Declare Scope act_scope.
Delimit Scope act_scope with act.
Notation "f ;; g" := (andThen f g)
  (at level 61, right associativity) : act_scope.
Open Scope act_scope.

(* ------------------------------------------------------------------ *)
(** ** Dashboard *)

Module Dashboard.

(** The [useState] cells, then what [useAuth] provides, then the number
    of requests whose answer the component is still awaiting. *)
Record State := mkState {
  profile : option Profile.t;
  cases : list Case.t;
  filteredCases : list Case.t;
  searchQuery : jsstring;
  showCreateModal : bool;
  newCaseTitle : jsstring;
  newCaseDescription : jsstring;
  loading : bool;
  creating : bool;
  user : option User.t;
  authLoading : bool;
  profileSelects : nat;
  caseSelects : nat;
  caseInserts : nat;
  signOuts : nat
}.

Definition setProfile (v : option Profile.t) (s : State) : State :=
  mkState v (cases s) (filteredCases s) (searchQuery s) (showCreateModal s)
    (newCaseTitle s) (newCaseDescription s) (loading s) (creating s)
    (user s) (authLoading s)
    (profileSelects s) (caseSelects s) (caseInserts s) (signOuts s).

Definition setCases (v : list Case.t) (s : State) : State :=
  mkState (profile s) v (filteredCases s) (searchQuery s) (showCreateModal s)
    (newCaseTitle s) (newCaseDescription s) (loading s) (creating s)
    (user s) (authLoading s)
    (profileSelects s) (caseSelects s) (caseInserts s) (signOuts s).

Definition setFilteredCases (v : list Case.t) (s : State) : State :=
  mkState (profile s) (cases s) v (searchQuery s) (showCreateModal s)
    (newCaseTitle s) (newCaseDescription s) (loading s) (creating s)
    (user s) (authLoading s)
    (profileSelects s) (caseSelects s) (caseInserts s) (signOuts s).

Definition setSearchQuery (v : jsstring) (s : State) : State :=
  mkState (profile s) (cases s) (filteredCases s) v (showCreateModal s)
    (newCaseTitle s) (newCaseDescription s) (loading s) (creating s)
    (user s) (authLoading s)
    (profileSelects s) (caseSelects s) (caseInserts s) (signOuts s).

Definition setShowCreateModal (v : bool) (s : State) : State :=
  mkState (profile s) (cases s) (filteredCases s) (searchQuery s) v
    (newCaseTitle s) (newCaseDescription s) (loading s) (creating s)
    (user s) (authLoading s)
    (profileSelects s) (caseSelects s) (caseInserts s) (signOuts s).

Definition setNewCaseTitle (v : jsstring) (s : State) : State :=
  mkState (profile s) (cases s) (filteredCases s) (searchQuery s)
    (showCreateModal s) v (newCaseDescription s) (loading s) (creating s)
    (user s) (authLoading s)
    (profileSelects s) (caseSelects s) (caseInserts s) (signOuts s).

Definition setNewCaseDescription (v : jsstring) (s : State) : State :=
  mkState (profile s) (cases s) (filteredCases s) (searchQuery s)
    (showCreateModal s) (newCaseTitle s) v (loading s) (creating s)
    (user s) (authLoading s)
    (profileSelects s) (caseSelects s) (caseInserts s) (signOuts s).

Definition setLoading (v : bool) (s : State) : State :=
  mkState (profile s) (cases s) (filteredCases s) (searchQuery s)
    (showCreateModal s) (newCaseTitle s) (newCaseDescription s) v (creating s)
    (user s) (authLoading s)
    (profileSelects s) (caseSelects s) (caseInserts s) (signOuts s).

Definition setCreating (v : bool) (s : State) : State :=
  mkState (profile s) (cases s) (filteredCases s) (searchQuery s)
    (showCreateModal s) (newCaseTitle s) (newCaseDescription s) (loading s) v
    (user s) (authLoading s)
    (profileSelects s) (caseSelects s) (caseInserts s) (signOuts s).

(** The session provider replaces the user or its loading flag. *)
Definition withUser (v : option User.t) (s : State) : State :=
  mkState (profile s) (cases s) (filteredCases s) (searchQuery s)
    (showCreateModal s) (newCaseTitle s) (newCaseDescription s) (loading s)
    (creating s) v (authLoading s)
    (profileSelects s) (caseSelects s) (caseInserts s) (signOuts s).

Definition withAuthLoading (v : bool) (s : State) : State :=
  mkState (profile s) (cases s) (filteredCases s) (searchQuery s)
    (showCreateModal s) (newCaseTitle s) (newCaseDescription s) (loading s)
    (creating s) (user s) v
    (profileSelects s) (caseSelects s) (caseInserts s) (signOuts s).

(** Book-keeping of the awaited answers. *)
Definition withAwaiting (p c i o : nat) (s : State) : State :=
  mkState (profile s) (cases s) (filteredCases s) (searchQuery s)
    (showCreateModal s) (newCaseTitle s) (newCaseDescription s) (loading s)
    (creating s) (user s) (authLoading s) p c i o.

Definition awaitProfile (s : State) : State :=
  withAwaiting (S (profileSelects s)) (caseSelects s) (caseInserts s)
    (signOuts s) s.
Definition awaitCases (s : State) : State :=
  withAwaiting (profileSelects s) (S (caseSelects s)) (caseInserts s)
    (signOuts s) s.
Definition awaitInsert (s : State) : State :=
  withAwaiting (profileSelects s) (caseSelects s) (S (caseInserts s))
    (signOuts s) s.
Definition awaitSignOut (s : State) : State :=
  withAwaiting (profileSelects s) (caseSelects s) (caseInserts s)
    (S (signOuts s)) s.
Definition gotProfile (s : State) : State :=
  withAwaiting (pred (profileSelects s)) (caseSelects s) (caseInserts s)
    (signOuts s) s.
Definition gotCases (s : State) : State :=
  withAwaiting (profileSelects s) (pred (caseSelects s)) (caseInserts s)
    (signOuts s) s.
Definition gotInsert (s : State) : State :=
  withAwaiting (profileSelects s) (caseSelects s) (pred (caseInserts s))
    (signOuts s) s.
Definition gotSignOut (s : State) : State :=
  withAwaiting (profileSelects s) (caseSelects s) (caseInserts s)
    (pred (signOuts s)) s.

(** [useState] initial values. *)
Definition init (u : option User.t) (al : bool) : State :=
  mkState None [] [] [] false [] [] true false u al 0 0 0 0.

Definition isSome {A} (o : option A) : bool :=
  match o with Some _ => true | None => false end.

Definition PGRST116 : jsstring := lit "PGRST116".

(** [String.prototype.toLowerCase] is the built-in Unicode mapping; the
    component is described for any such function. *)
Section Component.
Variable toLowerCase : jsstring -> jsstring.

(** The predicate given to [cases.filter]. *)
Definition matchesQuery (searchQuery : jsstring) (case_ : Case.t) : bool :=
  includes (toLowerCase (Case.title case_)) (toLowerCase searchQuery)
  || match Case.description case_ with
     | Some d => includes (toLowerCase d) (toLowerCase searchQuery)
     | None => false          (* [?.] gives undefined *)
     end.

Definition filterCases (cases : list Case.t) (searchQuery : jsstring)
  : list Case.t :=
  if truthy searchQuery
  then filter (matchesQuery searchQuery) cases
  else cases.

(** [useEffect(..., [searchQuery, cases])] *)
Definition filterEffect : Act State :=
  upd (fun s => setFilteredCases (filterCases (cases s) (searchQuery s)) s).

(** [useEffect(..., [user, authLoading, navigate])] *)
Definition navEffect : Act State := fun s =>
  if negb (authLoading s) && negb (isSome (user s))
  then emit (Navigate (lit "/login")) s
  else skip s.

Definition fetchProfile : Act State := fun s =>
  match user s with
  | None => skip s
  | Some u => (emit (SelectProfile (User.id u)) ;; upd awaitProfile) s
  end.

(** [error && error.code !== 'PGRST116'] *)
Definition thrown {A} (r : PostgrestResponse A) : option PostgrestError :=
  match error r with
  | Some e => if negb (JS.eqb (code e) PGRST116) then Some e else None
  | None => None
  end.

Definition fetchProfile_resume (r : PostgrestResponse Profile.t)
  : Act State :=
  match thrown r with
  | Some e =>
      emit (ConsoleError (lit "Error fetching profile:") e) ;;
      emit (ToastError (lit "Failed to load profile"))
  | None =>
      match data r with
      | Some d => upd (setProfile (Some d))
      | None => skip
      end
  end.

Definition fetchCases : Act State := fun s =>
  match user s with
  | None => skip s
  | Some u => (emit (SelectCases (User.id u)) ;; upd awaitCases) s
  end.

Definition fetchCases_resume (r : PostgrestResponse (list Case.t))
  : Act State :=
  match r with
  | Failure e =>
      emit (ConsoleError (lit "Error fetching cases:") e) ;;
      emit (ToastError (lit "Failed to load cases"))
  | Success d => upd (setCases d)       (* [data || []], [data] an array *)
  end ;;
  upd (setLoading false).

(** [useEffect(..., [user])] *)
Definition userEffect : Act State := fun s =>
  if isSome (user s) then (fetchProfile ;; fetchCases) s else skip s.

Definition handleCreateCase : Act State := fun s =>
  match user s with
  | None => skip s
  | Some u =>
      if negb (truthy (trim (newCaseTitle s))) then skip s
      else
        (upd (setCreating true) ;;
         emit (InsertCase
                 (CaseInsert.mk
                    (User.id u)
                    (trim (newCaseTitle s))
                    (if truthy (trim (newCaseDescription s))
                     then Some (trim (newCaseDescription s))
                     else None)
                    active
                    0%Z)) ;;
         upd awaitInsert) s
  end.

Definition handleCreateCase_resume (r : PostgrestResponse Case.t)
  : Act State :=
  match r with
  | Failure e =>
      emit (ConsoleError (lit "Error creating case:") e) ;;
      emit (ToastError (lit "Failed to create case"))
  | Success d =>
      upd (fun s => setCases (d :: cases s) s) ;;
      upd (setNewCaseTitle []) ;;
      upd (setNewCaseDescription []) ;;
      upd (setShowCreateModal false) ;;
      emit (ToastSuccess (lit "Case created successfully!"))
  end ;;
  upd (setCreating false).

Definition handleLogout : Act State :=
  emit SignOut ;; upd awaitSignOut.

Definition handleLogout_resume (resolved : bool) : Act State :=
  if resolved
  then emit (Navigate (lit "/")) ;;
       emit (ToastSuccess (lit "Logged out successfully"))
  else emit (ToastError (lit "Failed to logout")).

Definition getStatusColor (status : CaseStatus) : jsstring :=
  match status with
  | active => lit "bg-green-100 text-green-800 border-green-200"
  | pending => lit "bg-yellow-100 text-yellow-800 border-yellow-200"
  | closed => lit "bg-gray-100 text-gray-800 border-gray-200"
  end.

(** *** What is rendered *)

Record Card := mkCard {
  card_title : jsstring;
  card_status : CaseStatus;
  card_badge : jsstring;         (* class of the status badge *)
  card_description : jsstring;
  card_files : Z;
  card_created_at : jsstring
}.

Inductive CaseArea :=
| NoCasesYet                 (* with the "Create Your First Case" button *)
| NoCasesFound
| Grid (cards : list Card).

Record MainView := mkMainView {
  view_name : jsstring * jsstring;
  view_email : jsstring;
  view_pro : bool;             (* Pro badge; otherwise the Upgrade button *)
  view_total : nat;
  view_member_since : jsstring;
  view_search : jsstring;
  view_area : CaseArea;
  view_dialog : bool;
  view_dialog_title : jsstring;
  view_dialog_description : jsstring;
  view_cancel_disabled : bool;
  view_create_disabled : bool;
  view_create_label : jsstring
}.

Inductive View :=
| Spinner
| Blank                        (* [return null] *)
| Main (v : MainView).

Definition card (case_ : Case.t) : Card :=
  mkCard (Case.title case_) (Case.status case_)
    (getStatusColor (Case.status case_))
    (match Case.description case_ with
     | Some d => if truthy d then d else lit "No description provided"
     | None => lit "No description provided"
     end)
    (Case.file_count case_) (Case.created_at case_).

Definition render (s : State) : View :=
  if authLoading s || loading s then Spinner
  else
    match user s, profile s with
    | Some u, Some p =>
        Main (mkMainView
                (Profile.first_name p, Profile.last_name p)
                (User.email u)
                (Profile.is_pro p)
                (List.length (cases s))
                (Profile.created_at p)
                (searchQuery s)
                (match filteredCases s with
                 | [] => match cases s with
                         | [] => NoCasesYet
                         | _ :: _ => NoCasesFound
                         end
                 | _ :: _ => Grid (map card (filteredCases s))
                 end)
                (showCreateModal s)
                (newCaseTitle s)
                (newCaseDescription s)
                (creating s)
                (negb (truthy (trim (newCaseTitle s))) || creating s)
                (if creating s then lit "Creating..." else lit "Create Case"))
    | _, _ => Blank
    end.

(** Controls can be used only where they are rendered and enabled. *)
Definition mainShown (s : State) : bool :=
  match render s with Main _ => true | _ => false end.

Definition dialogShown (s : State) : bool :=
  match render s with Main v => view_dialog v | _ => false end.

Definition cancelEnabled (s : State) : bool :=
  match render s with
  | Main v => view_dialog v && negb (view_cancel_disabled v)
  | _ => false
  end.

Definition createEnabled (s : State) : bool :=
  match render s with
  | Main v => view_dialog v && negb (view_create_disabled v)
  | _ => false
  end.

Definition upgradeShown (s : State) : bool :=
  match render s with Main v => negb (view_pro v) | _ => false end.

(** *** Events *)

Inductive Event :=
| AuthUser (u : option User.t)
| AuthLoading (b : bool)
| ProfileAnswer (r : PostgrestResponse Profile.t)
| CasesAnswer (r : PostgrestResponse (list Case.t))
| InsertAnswer (r : PostgrestResponse Case.t)
| SignOutAnswer (resolved : bool)
| TypeSearch (q : jsstring)
| ClickNewCase
| TypeTitle (t : jsstring)
| TypeDescription (d : jsstring)
| DialogOpenChange (b : bool)
| ClickCancel
| ClickCreate
| ClickLogout
| ClickUpgrade.

Definition when (b : bool) (a : Act State) : Act State :=
  fun s => if b then a s else skip s.

Definition step (ev : Event) : Act State := fun s =>
  match ev with
  | AuthUser u => (upd (withUser u) ;; navEffect ;; userEffect) s
  | AuthLoading b => (upd (withAuthLoading b) ;; navEffect) s
  | ProfileAnswer r =>
      when (0 <? profileSelects s)
        (upd gotProfile ;; fetchProfile_resume r) s
  | CasesAnswer r =>
      when (0 <? caseSelects s)
        (upd gotCases ;; fetchCases_resume r ;;
         match r with Success _ => filterEffect | Failure _ => skip end) s
  | InsertAnswer r =>
      when (0 <? caseInserts s)
        (upd gotInsert ;; handleCreateCase_resume r ;;
         match r with Success _ => filterEffect | Failure _ => skip end) s
  | SignOutAnswer ok =>
      when (0 <? signOuts s) (upd gotSignOut ;; handleLogout_resume ok) s
  | TypeSearch q =>
      when (mainShown s) (upd (setSearchQuery q) ;; filterEffect) s
  | ClickNewCase => when (mainShown s) (upd (setShowCreateModal true)) s
  | TypeTitle t => when (dialogShown s) (upd (setNewCaseTitle t)) s
  | TypeDescription d =>
      when (dialogShown s) (upd (setNewCaseDescription d)) s
  | DialogOpenChange b => when (dialogShown s) (upd (setShowCreateModal b)) s
  | ClickCancel => when (cancelEnabled s) (upd (setShowCreateModal false)) s
  | ClickCreate => when (createEnabled s) handleCreateCase s
  | ClickLogout => when (mainShown s) handleLogout s
  | ClickUpgrade =>
      when (upgradeShown s) (emit (Navigate (lit "/upgrade"))) s
  end.

(** First render and its effects, in the order they are declared. *)
Definition mount (u : option User.t) (al : bool) : State * list Effect :=
  (navEffect ;; userEffect ;; filterEffect) (init u al).

Definition run (evs : list Event) : Act State := runWith step evs.

End Component.

End Dashboard.

(* ------------------------------------------------------------------ *)
(** ** Register *)

Module Register.

Record State := mkState {
  firstName : jsstring;
  lastName : jsstring;
  email : jsstring;
  password : jsstring;
  confirmPassword : jsstring;
  showPassword : bool;
  showConfirmPassword : bool;
  loading : bool;
  error : jsstring;
  signUps : nat              (* calls of [signUp] not yet answered *)
}.

Definition setLoading (v : bool) (s : State) : State :=
  mkState (firstName s) (lastName s) (email s) (password s)
    (confirmPassword s) (showPassword s) (showConfirmPassword s) v
    (error s) (signUps s).

Definition setError (v : jsstring) (s : State) : State :=
  mkState (firstName s) (lastName s) (email s) (password s)
    (confirmPassword s) (showPassword s) (showConfirmPassword s)
    (loading s) v (signUps s).

Definition withSignUps (n : nat) (s : State) : State :=
  mkState (firstName s) (lastName s) (email s) (password s)
    (confirmPassword s) (showPassword s) (showConfirmPassword s)
    (loading s) (error s) n.

Definition init : State :=
  mkState [] [] [] [] [] false false false [] 0.

Definition validateForm (s : State) : option jsstring :=
  if negb (truthy (firstName s)) || negb (truthy (lastName s))
     || negb (truthy (email s)) || negb (truthy (password s))
     || negb (truthy (confirmPassword s))
  then Some (lit "Please fill in all fields")
  else if List.length (password s) <? 6
  then Some (lit "Password must be at least 6 characters long")
  else if negb (JS.eqb (password s) (confirmPassword s))
  then Some (lit "Passwords do not match")
  else if negb (Regex.test Regex.emailRegex (email s))
  then Some (lit "Please enter a valid email address")
  else None.

Definition handleSubmit : Act State :=
  upd (setLoading true) ;;
  upd (setError []) ;;
  fun s =>
    match validateForm s with
    | Some validationError =>
        (upd (setError validationError) ;; upd (setLoading false)) s
    | None =>
        (emit (SignUp (email s) (password s) (firstName s) (lastName s)) ;;
         upd (fun s => withSignUps (S (signUps s)) s)) s
    end.

Definition handleSubmit_resume (o : AuthOutcome) : Act State :=
  match o with
  | Resolved (Some msg) =>
      upd (setError msg) ;;
      emit (ToastError (lit "Registration failed: " ++ msg))
  | Resolved None =>
      emit (ToastSuccess
              (lit "Registration successful! Please check your email for verification.")) ;;
      emit (Navigate (lit "/dashboard"))
  | Rejected =>
      upd (setError (lit "An unexpected error occurred")) ;;
      emit (ToastError (lit "Registration failed"))
  end ;;
  upd (setLoading false).

End Register.

(* ------------------------------------------------------------------ *)
(** ** Login *)

Module Login.

Record State := mkState {
  email : jsstring;
  password : jsstring;
  showPassword : bool;
  loading : bool;
  error : jsstring;
  signIns : nat
}.

Definition setLoading (v : bool) (s : State) : State :=
  mkState (email s) (password s) (showPassword s) v (error s) (signIns s).

Definition setError (v : jsstring) (s : State) : State :=
  mkState (email s) (password s) (showPassword s) (loading s) v (signIns s).

Definition withSignIns (n : nat) (s : State) : State :=
  mkState (email s) (password s) (showPassword s) (loading s) (error s) n.

Definition init : State := mkState [] [] false false [] 0.

Definition handleSubmit : Act State :=
  upd (setLoading true) ;;
  upd (setError []) ;;
  fun s =>
    if negb (truthy (email s)) || negb (truthy (password s))
    then (upd (setError (lit "Please fill in all fields")) ;;
          upd (setLoading false)) s
    else (emit (SignIn (email s) (password s)) ;;
          upd (fun s => withSignIns (S (signIns s)) s)) s.

Definition handleSubmit_resume (o : AuthOutcome) : Act State :=
  match o with
  | Resolved (Some msg) =>
      upd (setError msg) ;;
      emit (ToastError (lit "Login failed: " ++ msg))
  | Resolved None =>
      emit (ToastSuccess (lit "Login successful!")) ;;
      emit (Navigate (lit "/dashboard"))
  | Rejected =>
      upd (setError (lit "An unexpected error occurred")) ;;
      emit (ToastError (lit "Login failed"))
  end ;;
  upd (setLoading false).

End Login.

(* ------------------------------------------------------------------ *)
(** ** Payment (the upgrade screen) *)

Module Payment.

(** [timers] holds, for every call of [handlePayment] still waiting for
    its two seconds, the user id that call closed over; [updates] counts
    the update requests not yet answered. *)
Record State := mkState {
  profile : option Profile.t;
  paymentStep : Z;
  loading : bool;
  processing : bool;
  user : option User.t;
  authLoading : bool;
  profileSelects : nat;
  timers : list jsstring;
  updates : nat
}.

Definition setProfile (v : option Profile.t) (s : State) : State :=
  mkState v (paymentStep s) (loading s) (processing s) (user s)
    (authLoading s) (profileSelects s) (timers s) (updates s).

Definition setPaymentStep (v : Z) (s : State) : State :=
  mkState (profile s) v (loading s) (processing s) (user s)
    (authLoading s) (profileSelects s) (timers s) (updates s).

Definition setLoading (v : bool) (s : State) : State :=
  mkState (profile s) (paymentStep s) v (processing s) (user s)
    (authLoading s) (profileSelects s) (timers s) (updates s).

Definition setProcessing (v : bool) (s : State) : State :=
  mkState (profile s) (paymentStep s) (loading s) v (user s)
    (authLoading s) (profileSelects s) (timers s) (updates s).

Definition withUser (v : option User.t) (s : State) : State :=
  mkState (profile s) (paymentStep s) (loading s) (processing s) v
    (authLoading s) (profileSelects s) (timers s) (updates s).

Definition withAuthLoading (v : bool) (s : State) : State :=
  mkState (profile s) (paymentStep s) (loading s) (processing s) (user s)
    v (profileSelects s) (timers s) (updates s).

Definition withAwaiting (p : nat) (t : list jsstring) (u : nat) (s : State)
  : State :=
  mkState (profile s) (paymentStep s) (loading s) (processing s) (user s)
    (authLoading s) p t u.

Definition init (u : option User.t) (al : bool) : State :=
  mkState None 1 true false u al 0 [] 0.

Definition navEffect : Act State := fun s =>
  if negb (authLoading s) && negb (Dashboard.isSome (user s))
  then emit (Navigate (lit "/login")) s
  else skip s.

Definition fetchProfile : Act State := fun s =>
  match user s with
  | None => skip s
  | Some u =>
      (emit (SelectProfile (User.id u)) ;;
       upd (fun s => withAwaiting (S (profileSelects s)) (timers s)
                       (updates s) s)) s
  end.

Definition fetchProfile_resume (r : PostgrestResponse Profile.t)
  : Act State :=
  match Dashboard.thrown r with
  | Some e =>
      emit (ConsoleError (lit "Error fetching profile:") e) ;;
      emit (ToastError (lit "Failed to load profile"))
  | None =>
      match data r with
      | Some d => upd (setProfile (Some d))
      | None => skip
      end
  end ;;
  upd (setLoading false).

Definition userEffect : Act State := fun s =>
  if Dashboard.isSome (user s) then fetchProfile s else skip s.

(** [{ ...prev, is_pro: true }] *)
Definition markPro (prev : Profile.t) : Profile.t :=
  Profile.mk (Profile.id prev) (Profile.user_id prev)
    (Profile.first_name prev) (Profile.last_name prev) true
    (Profile.created_at prev).

(** Up to the first [await]. *)
Definition handlePayment : Act State := fun s =>
  match user s, profile s with
  | Some u, Some _ =>
      (upd (setProcessing true) ;;
       emit (SetTimeout 2000) ;;
       upd (fun s => withAwaiting (profileSelects s)
                       (timers s ++ [User.id u]) (updates s) s)) s
  | _, _ => skip s
  end.

(** After the delay: the update request, for the user closed over. *)
Definition handlePayment_afterDelay (uid : jsstring) : Act State :=
  emit (UpdateIsPro uid) ;;
  upd (fun s => withAwaiting (profileSelects s) (timers s)
                  (S (updates s)) s).

(** After the answer of the update. *)
Definition handlePayment_resume (err : option PostgrestError) : Act State :=
  match err with
  | Some e =>
      emit (ConsoleError (lit "Error processing payment:") e) ;;
      emit (ToastError (lit "Payment failed. Please try again."))
  | None =>
      upd (fun s => setProfile
                      (match profile s with
                       | Some prev => Some (markPro prev)
                       | None => None
                       end) s) ;;
      upd (setPaymentStep 3) ;;
      emit (ToastSuccess (lit "Payment successful! Welcome to Pro!"))
  end ;;
  upd (setProcessing false).

(** *** What is rendered *)

Inductive StepView :=
| Offer                          (* [paymentStep === 1] *)
| MockPayment (busy : bool)      (* [paymentStep === 2] *)
| PaymentSuccessful.             (* [paymentStep === 3] *)

Inductive View :=
| Spinner
| Blank
| AlreadyPro
| Upgrade (body : option StepView).

Definition render (s : State) : View :=
  if authLoading s || loading s then Spinner
  else
    match user s, profile s with
    | Some _, Some p =>
        if Profile.is_pro p then AlreadyPro
        else Upgrade
               (if (paymentStep s =? 1)%Z then Some Offer
                else if (paymentStep s =? 2)%Z
                then Some (MockPayment (processing s))
                else if (paymentStep s =? 3)%Z then Some PaymentSuccessful
                else None)
    | _, _ => Blank
    end.

(** *** Events *)

Inductive Event :=
| AuthUser (u : option User.t)
| AuthLoading (b : bool)
| ProfileAnswer (r : PostgrestResponse Profile.t)
| TimerFired
| UpdateAnswer (err : option PostgrestError)
| ClickBackToDashboard
| ClickUpgradeNow
| ClickCompletePayment
| ClickBack
| ClickGoToDashboard.

Definition when (b : bool) (a : Act State) : Act State :=
  fun s => if b then a s else skip s.

Definition shows (v : View) (s : State) : bool :=
  match render s, v with
  | Spinner, Spinner => true
  | Blank, Blank => true
  | AlreadyPro, AlreadyPro => true
  | Upgrade None, Upgrade None => true
  | Upgrade (Some Offer), Upgrade (Some Offer) => true
  | Upgrade (Some (MockPayment b)), Upgrade (Some (MockPayment b')) =>
      Bool.eqb b b'
  | Upgrade (Some PaymentSuccessful), Upgrade (Some PaymentSuccessful) =>
      true
  | _, _ => false
  end.

Definition step (ev : Event) : Act State := fun s =>
  match ev with
  | AuthUser u => (upd (withUser u) ;; navEffect ;; userEffect) s
  | AuthLoading b => (upd (withAuthLoading b) ;; navEffect) s
  | ProfileAnswer r =>
      when (0 <? profileSelects s)
        (upd (fun s => withAwaiting (pred (profileSelects s)) (timers s)
                         (updates s) s) ;;
         fetchProfile_resume r) s
  | TimerFired =>
      match timers s with
      | [] => skip s
      | uid :: rest =>
          (upd (withAwaiting (profileSelects s) rest (updates s)) ;;
           handlePayment_afterDelay uid) s
      end
  | UpdateAnswer err =>
      when (0 <? updates s)
        (upd (fun s => withAwaiting (profileSelects s) (timers s)
                         (pred (updates s)) s) ;;
         handlePayment_resume err) s
  | ClickBackToDashboard =>
      match render s with
      | AlreadyPro | Upgrade _ => emit (Navigate (lit "/dashboard")) s
      | _ => skip s
      end
  | ClickUpgradeNow =>
      when (shows (Upgrade (Some Offer)) s) (upd (setPaymentStep 2)) s
  | ClickCompletePayment =>
      when (shows (Upgrade (Some (MockPayment false))) s) handlePayment s
  | ClickBack =>
      when (shows (Upgrade (Some (MockPayment false))) s)
        (upd (setPaymentStep 1)) s
  | ClickGoToDashboard =>
      when (shows (Upgrade (Some PaymentSuccessful)) s)
        (emit (Navigate (lit "/dashboard"))) s
  end.

Definition mount (u : option User.t) (al : bool) : State * list Effect :=
  (navEffect ;; userEffect) (init u al).

Definition run (evs : list Event) : Act State := runWith step evs.

End Payment.

(* ------------------------------------------------------------------ *)
(** ** Vocabulary of the statements *)

(** *** Forms *)

(** The shape [local@domain.tld]: three non-empty runs of code units
    that are neither white space nor [@], joined by [@] and by a dot. *)
Definition emailShaped (e : jsstring) : Prop :=
  exists l d t,
    e = l ++ [64%N] ++ d ++ [46%N] ++ t /\
    (l <> [] /\ forallb Regex.notSpaceAt l = true) /\
    (d <> [] /\ forallb Regex.notSpaceAt d = true) /\
    (t <> [] /\ forallb Regex.notSpaceAt t = true).

(** *** Filter *)

(** [text] contains [q] when case is ignored: the lower-cased query
    occurs in the lower-cased text. *)
Definition containsCI (toLowerCase : jsstring -> jsstring)
  (text q : jsstring) : Prop :=
  exists pre suf, toLowerCase text = pre ++ toLowerCase q ++ suf.

(** A case whose title or description contains [q]; a case without a
    description has only its title to offer. *)
Definition caseContains (toLowerCase : jsstring -> jsstring)
  (q : jsstring) (c : Case.t) : Prop :=
  containsCI toLowerCase (Case.title c) q \/
  exists d, Case.description c = Some d /\ containsCI toLowerCase d q.

(** Lower-casing restricted to the letters A-Z, for examples. *)
Definition asciiLower (s : jsstring) : jsstring :=
  map (fun c => if ((65 <=? c) && (c <=? 90))%N then (c + 32)%N else c) s.

Definition exampleCase (title : string) (description : option jsstring)
  : Case.t :=
  Case.mk (lit "c1") (lit "u1") (lit title) description
    active 0 (lit "2024-01-01") (lit "2024-01-01").

(** *** Rows and answers used in statements and examples *)

(** Insert-returning-row: the row the store answers with is the row that
    was submitted, completed with an id and timestamps of the server. *)
Definition returnsInserted (row : CaseInsert.t) (d : Case.t) : Prop :=
  Case.user_id d = CaseInsert.user_id row /\
  Case.title d = CaseInsert.title row /\
  Case.description d = CaseInsert.description row /\
  Case.status d = CaseInsert.status row /\
  Case.file_count d = CaseInsert.file_count row.

Definition exampleUser : User.t :=
  User.mk (lit "u1") (lit "demo@lawfirm.com").

Definition exampleProfile (is_pro : bool) : Profile.t :=
  Profile.mk (lit "p1") (lit "u1") (lit "Asha") (lit "Rao") is_pro
    (lit "2024-01-01").

Definition noRow : PostgrestError :=
  mkPostgrestError (lit "PGRST116") (lit "no rows returned").

Definition otherError : PostgrestError :=
  mkPostgrestError (lit "42501") (lit "permission denied").

(** *** Registration and login *)

(** All five fields of the registration form are filled in. *)
Definition allPresent (s : Register.State) : Prop :=
  Register.firstName s <> [] /\ Register.lastName s <> [] /\
  Register.email s <> [] /\ Register.password s <> [] /\
  Register.confirmPassword s <> [].

Definition registerForm (email password confirmPassword : string)
  : Register.State :=
  Register.mkState (lit "Asha") (lit "Rao") (lit email) (lit password)
    (lit confirmPassword) false false false [] 0.

Definition loginForm (email password : string) : Login.State :=
  Login.mkState (lit email) (lit password) false false [] 0.

(** *** Upgrade screen *)

(** States the upgrade screen can be in: those reached from its first
    render by some sequence of events. *)
Definition paymentReachable (s : Payment.State) : Prop :=
  exists u al evs, s = fst (Payment.run evs (fst (Payment.mount u al))).

(** The profile held locally has its Pro flag set. *)
Definition isProLocal (s : Payment.State) : bool :=
  match Payment.profile s with
  | Some p => Profile.is_pro p
  | None => false
  end.

(** An event that does not replace the profile by one that is not Pro. *)
Definition keepsPro (ev : Payment.Event) : Prop :=
  match ev with
  | Payment.ProfileAnswer (Success d) => Profile.is_pro d = true
  | _ => True
  end.

(** Number of calls of [handlePayment] that have not finished. *)
Definition paymentsInFlight (s : Payment.State) : nat :=
  List.length (Payment.timers s) + Payment.updates s.

(** While a payment is in flight the profile is set. *)
Definition paymentHoldsProfile (s : Payment.State) : Prop :=
  0 < paymentsInFlight s -> Payment.profile s <> None.

(** The [processing] flag is set exactly while one payment is in flight. *)
Definition paymentSingleFlight (s : Payment.State) : Prop :=
  paymentsInFlight s = if Payment.processing s then 1 else 0.

(** *** Dashboard *)

(** States the dashboard can be in: those reached from its first render
    by some sequence of events. *)
Definition dashboardReachable (toLowerCase : jsstring -> jsstring)
  (s : Dashboard.State) : Prop :=
  exists u al evs,
    s = fst (Dashboard.run toLowerCase evs
               (fst (Dashboard.mount toLowerCase u al))).

(** The [creating] flag is set exactly while one insert is awaited. *)
Definition creationSingleFlight (s : Dashboard.State) : Prop :=
  Dashboard.caseInserts s = if Dashboard.creating s then 1 else 0.

(** An event other than the arrival of a profile row. *)
Definition bringsNoProfile (ev : Dashboard.Event) : Prop :=
  match ev with
  | Dashboard.ProfileAnswer (Success _) => False
  | _ => True
  end.

(** The filtered list held in the state is the filter of the case list
    by the query. *)
Definition filterSettled (toLowerCase : jsstring -> jsstring)
  (s : Dashboard.State) : Prop :=
  Dashboard.filteredCases s =
  Dashboard.filterCases toLowerCase (Dashboard.cases s)
    (Dashboard.searchQuery s).

(** *** Further vocabulary *)

(** A string with no white space at either end. *)
Definition noOuterSpace (t : jsstring) : Prop :=
  (forall c r, t = c :: r -> isWhiteSpace c = false) /\
  (forall r c, t = r ++ [c] -> isWhiteSpace c = false).

(** The user a request of the dashboard is made for. *)
Definition requestUser (e : Effect) : option jsstring :=
  match e with
  | SelectProfile uid | SelectCases uid | UpdateIsPro uid => Some uid
  | InsertCase row => Some (CaseInsert.user_id row)
  | _ => None
  end.

(** What holds of an effect of the dashboard: a request is made for the
    user given, and it is none of the effects of the other screens. *)
Definition dashboardRequestFor (user : option User.t) (e : Effect) : Prop :=
  (forall uid, requestUser e = Some uid ->
     exists u, user = Some u /\ uid = User.id u) /\
  match e with
  | UpdateIsPro _ | SignUp _ _ _ _ | SignIn _ _ | SetTimeout _ => False
  | _ => True
  end.

(** The main view with the creation dialog open and a title typed. *)
Definition dialogWithTitle : Dashboard.State :=
  Dashboard.mkState (Some (exampleProfile false)) [] [] [] true
    (lit "Smith v. Jones") [] false false (Some exampleUser) false 0 0 0 0.

(** The step is one of the three views and is 2 while a payment is
    being processed. *)
Definition paymentStepInRange (s : Payment.State) : Prop :=
  (Payment.paymentStep s = 1 \/ Payment.paymentStep s = 2 \/
   Payment.paymentStep s = 3)%Z /\
  (Payment.processing s = true -> Payment.paymentStep s = 2%Z).

(** Events of the session and of the profile load: they may occur
    during the delay of a payment. *)
Definition sessionEvent (ev : Payment.Event) : Prop :=
  match ev with
  | Payment.AuthUser _ | Payment.AuthLoading _ | Payment.ProfileAnswer _ =>
      True
  | _ => False
  end.

(** An event other than the arrival of a profile row. *)
Definition bringsNoProfileRow (ev : Payment.Event) : Prop :=
  match ev with
  | Payment.ProfileAnswer (Success _) => False
  | _ => True
  end.

(** An effect that is part of a payment: the delay or the update. *)
Definition paymentEffect (e : Effect) : bool :=
  match e with
  | SetTimeout _ | UpdateIsPro _ => true
  | _ => false
  end.

(** The mock payment view, with the button enabled, for a user that is
    not Pro. *)
Definition mockPaymentOpen : Payment.State :=
  Payment.mkState (Some (exampleProfile false)) 2 false false
    (Some exampleUser) false 0 [] 0.

(* ------------------------------------------------------------------ *)
(** ** Gate of the sign-in and sign-up screens *)

(** Login and Register start with the same effect and the same guard:
    once the session is loaded, a visitor who is signed in is sent to
    the dashboard. *)
Module AuthScreen.

(** [useEffect(..., [user, authLoading, navigate])] *)
Definition navEffect (user : option User.t) (authLoading : bool)
  : list Effect :=
  if negb authLoading && Dashboard.isSome user
  then [Navigate (lit "/dashboard")]
  else [].

End AuthScreen.

(** What the user typed in the registration form, and in the login
    form. *)
Definition registerInput (s : Register.State)
  : jsstring * jsstring * jsstring * jsstring * jsstring * bool * bool :=
  (Register.firstName s, Register.lastName s, Register.email s,
   Register.password s, Register.confirmPassword s,
   Register.showPassword s, Register.showConfirmPassword s).

Definition loginInput (s : Login.State) : jsstring * jsstring * bool :=
  (Login.email s, Login.password s, Login.showPassword s).

(** The error banner after the answer of the session provider. *)
Definition bannerAfter (o : AuthOutcome) : jsstring :=
  match o with
  | Resolved (Some msg) => msg
  | Resolved None => []
  | Rejected => lit "An unexpected error occurred"
  end.

Definition countAt (e : jsstring) : nat := count_occ N.eq_dec e 64%N.

(* ------------------------------------------------------------------ *)
(** ** The login form as the browser submits it *)

(** [handleSubmit] is the [onSubmit] of a form without [noValidate]
    whose two inputs are [required], the first of [type="email"], and
    whose submit button is [disabled] while [loading]: the browser calls
    it only when both fields are filled in, the email field accepts its
    value and the button is enabled.  What an email field accepts is the
    browser's rule, not the repository's; it is a parameter here. *)
Module LoginForm.

Section Browser.
Variable emailFieldAccepts : jsstring -> bool.

Definition fieldsValid (s : Login.State) : bool :=
  truthy (Login.email s) && emailFieldAccepts (Login.email s)
  && truthy (Login.password s).

Definition submit : Act Login.State := fun s =>
  if fieldsValid s && negb (Login.loading s)
  then Login.handleSubmit s
  else skip s.

End Browser.

End LoginForm.

(* ------------------------------------------------------------------ *)
(** ** The dashboard between an event and its effects *)

(** [Dashboard.step] ends when the effects of the render have run.
    React commits a render in between: [commit] is what the event
    handler (or the continuation of an awaited call) does to the state,
    and the result is rendered; [effectsDue] are the [useEffect]s whose
    dependencies that render changed, run after it in the order they
    are declared.  Of these only the [searchQuery, cases] effect writes
    a state cell. *)
Module DashboardPhases.

Definition commit (ev : Dashboard.Event) : Act Dashboard.State := fun s =>
  match ev with
  | Dashboard.AuthUser u => upd (Dashboard.withUser u) s
  | Dashboard.AuthLoading b => upd (Dashboard.withAuthLoading b) s
  | Dashboard.ProfileAnswer r =>
      Dashboard.when (0 <? Dashboard.profileSelects s)
        (upd Dashboard.gotProfile ;; Dashboard.fetchProfile_resume r) s
  | Dashboard.CasesAnswer r =>
      Dashboard.when (0 <? Dashboard.caseSelects s)
        (upd Dashboard.gotCases ;; Dashboard.fetchCases_resume r) s
  | Dashboard.InsertAnswer r =>
      Dashboard.when (0 <? Dashboard.caseInserts s)
        (upd Dashboard.gotInsert ;; Dashboard.handleCreateCase_resume r) s
  | Dashboard.SignOutAnswer ok =>
      Dashboard.when (0 <? Dashboard.signOuts s)
        (upd Dashboard.gotSignOut ;; Dashboard.handleLogout_resume ok) s
  | Dashboard.TypeSearch q =>
      Dashboard.when (Dashboard.mainShown s)
        (upd (Dashboard.setSearchQuery q)) s
  | Dashboard.ClickNewCase =>
      Dashboard.when (Dashboard.mainShown s)
        (upd (Dashboard.setShowCreateModal true)) s
  | Dashboard.TypeTitle t =>
      Dashboard.when (Dashboard.dialogShown s)
        (upd (Dashboard.setNewCaseTitle t)) s
  | Dashboard.TypeDescription d =>
      Dashboard.when (Dashboard.dialogShown s)
        (upd (Dashboard.setNewCaseDescription d)) s
  | Dashboard.DialogOpenChange b =>
      Dashboard.when (Dashboard.dialogShown s)
        (upd (Dashboard.setShowCreateModal b)) s
  | Dashboard.ClickCancel =>
      Dashboard.when (Dashboard.cancelEnabled s)
        (upd (Dashboard.setShowCreateModal false)) s
  | Dashboard.ClickCreate =>
      Dashboard.when (Dashboard.createEnabled s) Dashboard.handleCreateCase s
  | Dashboard.ClickLogout =>
      Dashboard.when (Dashboard.mainShown s) Dashboard.handleLogout s
  | Dashboard.ClickUpgrade =>
      Dashboard.when (Dashboard.upgradeShown s)
        (emit (Navigate (lit "/upgrade"))) s
  end.

Section Effects.
Variable toLowerCase : jsstring -> jsstring.

(** The effects due after the render that [commit ev] causes from the
    state [before]. *)
Definition effectsDue (ev : Dashboard.Event) (before : Dashboard.State)
  : Act Dashboard.State :=
  match ev with
  | Dashboard.AuthUser _ => Dashboard.navEffect ;; Dashboard.userEffect
  | Dashboard.AuthLoading _ => Dashboard.navEffect
  | Dashboard.CasesAnswer (Success _) =>
      Dashboard.when (0 <? Dashboard.caseSelects before)
        (Dashboard.filterEffect toLowerCase)
  | Dashboard.InsertAnswer (Success _) =>
      Dashboard.when (0 <? Dashboard.caseInserts before)
        (Dashboard.filterEffect toLowerCase)
  | Dashboard.TypeSearch _ =>
      Dashboard.when (Dashboard.mainShown before)
        (Dashboard.filterEffect toLowerCase)
  | _ => skip
  end.

End Effects.

End DashboardPhases.

(** A case that the dashboard shows in the grid with an empty query. *)
Definition dashboardWithOneCase : Dashboard.State :=
  Dashboard.mkState (Some (exampleProfile false))
    [exampleCase "Smith v. Jones" None] [exampleCase "Smith v. Jones" None]
    [] false [] [] false false (Some exampleUser) false 0 0 0 0.

(* ================================================================== *)
(** * Properties *)

Unset Implicit Arguments.

(* ------------------------------------------------------------------ *)
(** ** Strings *)

Lemma startsWith_spec (s q : jsstring) :
  startsWith s q = true <-> exists suf, s = q ++ suf.
Proof.
  revert s; induction q as [|c q IH]; intros s; simpl.
  - split; [intros _; now exists s | now destruct s].
  - destruct s as [|d s]; simpl.
    + split; [discriminate | intros [suf H]; discriminate].
    + rewrite andb_true_iff, N.eqb_eq, IH. split.
      * intros [-> [suf ->]]. now exists suf.
      * intros [suf H]. injection H as -> ->. split; [reflexivity | now exists suf].
Qed.

Lemma includes_spec (s q : jsstring) :
  includes s q = true <-> exists pre suf, s = pre ++ q ++ suf.
Proof.
  induction s as [|a s IH]; cbn [includes].
  - rewrite orb_false_r, startsWith_spec. split.
    + intros [suf H]. now exists [], suf.
    + intros [pre [suf H]]. symmetry in H.
      apply app_eq_nil in H as [-> H]. now exists suf.
  - rewrite orb_true_iff, startsWith_spec, IH. split.
    + intros [[suf H] | [pre [suf H]]].
      * now exists [], suf.
      * exists (a :: pre), suf. simpl. now rewrite H.
    + intros [[|b pre] [suf H]]; simpl in H.
      * left. now exists suf.
      * right. injection H as _ H. now exists pre, suf.
Qed.

Lemma includes_empty (s : jsstring) : includes s [] = true.
Proof. apply includes_spec. now exists [], s. Qed.

Lemma eqb_spec (s t : jsstring) : JS.eqb s t = true <-> s = t.
Proof.
  revert t; induction s as [|c s IH]; intros [|d t]; simpl;
    try (split; [discriminate | discriminate]); try tauto.
  rewrite andb_true_iff, N.eqb_eq, IH. split.
  - now intros [-> ->].
  - intros H; injection H as -> ->. tauto.
Qed.

Lemma trimStart_nil_iff (s : jsstring) :
  trimStart s = [] <-> forallb isWhiteSpace s = true.
Proof.
  induction s as [|c s IH]; simpl; [tauto|].
  destruct (isWhiteSpace c); simpl; [exact IH|].
  split; discriminate.
Qed.

(** What [trimStart] leaves is empty or starts with a code unit that is
    not white space. *)
Lemma trimStart_head (s : jsstring) :
  trimStart s = [] \/
  exists c r, trimStart s = c :: r /\ isWhiteSpace c = false.
Proof.
  induction s as [|c s IH]; simpl; [now left|].
  destruct (isWhiteSpace c) eqn:E; [exact IH|].
  right. now exists c, s.
Qed.

Lemma forallb_reverse (p : N -> bool) (l : list N) :
  forallb p (rev l) = forallb p l.
Proof.
  induction l as [|a l IH]; simpl; [reflexivity|].
  rewrite forallb_app, IH. simpl. rewrite andb_true_r. apply andb_comm.
Qed.

Lemma trim_nil_iff (s : jsstring) :
  trim s = [] <-> forallb isWhiteSpace s = true.
Proof.
  unfold trim, trimEnd. rewrite <- trimStart_nil_iff. split.
  - intros H.
    apply (f_equal (@rev N)) in H. rewrite rev_involutive in H. simpl in H.
    apply trimStart_nil_iff in H. rewrite forallb_reverse in H.
    destruct (trimStart_head s) as [E | [c [r [E Hc]]]]; [exact E|].
    rewrite E in H. simpl in H. rewrite Hc in H. discriminate.
  - intros ->. reflexivity.
Qed.

Lemma truthy_false_iff (s : jsstring) : truthy s = false <-> s = [].
Proof. destruct s; unfold truthy; simpl; split; congruence. Qed.

Lemma truthy_true_iff (s : jsstring) : truthy s = true <-> s <> [].
Proof. destruct s; unfold truthy; simpl; split; congruence. Qed.

(* ------------------------------------------------------------------ *)
(** ** The matcher computes the language *)

Lemma matches_class (p : N -> bool) (s : jsstring) :
  Regex.matches (Regex.Class p) s <-> exists c, s = [c] /\ p c = true.
Proof.
  split.
  - intros H; inversion H; subst. eauto.
  - intros [c [-> H]]. now constructor.
Qed.

Lemma matches_cat (r1 r2 : Regex.re) (s : jsstring) :
  Regex.matches (Regex.Cat r1 r2) s <->
  exists s1 s2, s = s1 ++ s2 /\ Regex.matches r1 s1 /\ Regex.matches r2 s2.
Proof.
  split.
  - intros H; inversion H; subst. eauto.
  - intros [s1 [s2 [-> [H1 H2]]]]. now constructor.
Qed.

Lemma nullable_spec (r : Regex.re) :
  Regex.nullable r = true <-> Regex.matches r [].
Proof.
  induction r as [| |p|r1 IH1 r2 IH2|r1 IH1 r2 IH2|r IH]; simpl.
  - split; [discriminate | intros H; inversion H].
  - split; [intros _; constructor | reflexivity].
  - split; [discriminate | intros H; inversion H].
  - rewrite andb_true_iff, IH1, IH2. split.
    + intros [H1 H2]. exact (Regex.m_cat H1 H2).
    + intros H. apply matches_cat in H as [s1 [s2 [E [H1 H2]]]].
      symmetry in E. apply app_eq_nil in E as [-> ->]. now split.
  - rewrite orb_true_iff, IH1, IH2. split.
    + intros [H|H]; [now apply Regex.m_alt_l | now apply Regex.m_alt_r].
    + intros H. inversion H; subst; tauto.
  - split; [intros _; constructor | reflexivity].
Qed.

Lemma matches_star_uncons (r : Regex.re) (c : N) (s : jsstring) :
  Regex.matches (Regex.Star r) (c :: s) ->
  exists s1 s2,
    s = s1 ++ s2 /\ Regex.matches r (c :: s1) /\
    Regex.matches (Regex.Star r) s2.
Proof.
  intros H.
  remember (Regex.Star r) as r0 eqn:Er.
  remember (c :: s) as w eqn:Ew.
  revert s Ew.
  induction H as [| | | | | |r' s1 s2 H1 _ H2 IH2]; intros w' Ew;
    try discriminate.
  injection Er as ->.
  destruct s1 as [|d s1]; simpl in Ew.
  - now apply IH2.
  - injection Ew as -> <-. now exists s1, s2.
Qed.

Lemma deriv_spec (c : N) (r : Regex.re) (s : jsstring) :
  Regex.matches (Regex.deriv c r) s <-> Regex.matches r (c :: s).
Proof.
  revert s.
  induction r as [| |p|r1 IH1 r2 IH2|r1 IH1 r2 IH2|r IH]; intros s; simpl.
  - split; intros H; inversion H.
  - split; intros H; inversion H.
  - destruct (p c) eqn:Ep; split; intros H; inversion H; subst.
    + now constructor.
    + constructor.
    + congruence.
  - assert (L : forall w, Regex.matches (Regex.Cat (Regex.deriv c r1) r2) w ->
                          Regex.matches (Regex.Cat r1 r2) (c :: w)).
    { intros w H. apply matches_cat in H as [s1 [s2 [-> [H1 H2]]]].
      apply IH1 in H1. exact (Regex.m_cat H1 H2). }
    assert (R : Regex.matches (Regex.Cat r1 r2) (c :: s) ->
                Regex.matches (Regex.Cat (Regex.deriv c r1) r2) s \/
                (Regex.nullable r1 = true /\
                 Regex.matches (Regex.deriv c r2) s)).
    { intros H. apply matches_cat in H as [s1 [s2 [E [H1 H2]]]].
      destruct s1 as [|d s1]; simpl in E.
      - right. subst s2. split; [now apply nullable_spec | now apply IH2].
      - injection E as <- ->. left.
        apply Regex.m_cat; [now apply IH1 | exact H2]. }
    destruct (Regex.nullable r1) eqn:En; split.
    + intros H. inversion H; subst; [now apply L|].
      change (c :: s) with ([] ++ c :: s).
      apply Regex.m_cat; [now apply nullable_spec | now apply IH2].
    + intros H. destruct (R H) as [H'|[_ H']];
        [now apply Regex.m_alt_l | now apply Regex.m_alt_r].
    + apply L.
    + intros H. destruct (R H) as [H'|[H' _]]; [exact H' | discriminate].
  - split; intros H; inversion H; subst.
    + apply Regex.m_alt_l. now apply IH1.
    + apply Regex.m_alt_r. now apply IH2.
    + apply Regex.m_alt_l. now apply IH1.
    + apply Regex.m_alt_r. now apply IH2.
  - split; intros H.
    + apply matches_cat in H as [s1 [s2 [-> [H1 H2]]]].
      apply IH in H1.
      change (c :: s1 ++ s2) with ((c :: s1) ++ s2).
      now apply Regex.m_star_cons.
    + apply matches_star_uncons in H as [s1 [s2 [-> [H1 H2]]]].
      apply Regex.m_cat; [now apply IH | exact H2].
Qed.

Lemma test_spec (r : Regex.re) (s : jsstring) :
  Regex.test r s = true <-> Regex.matches r s.
Proof.
  revert r; induction s as [|c s IH]; intros r; simpl.
  - apply nullable_spec.
  - rewrite IH. apply deriv_spec.
Qed.

Lemma matches_star_class (p : N -> bool) (s : jsstring) :
  Regex.matches (Regex.Star (Regex.Class p)) s <-> forallb p s = true.
Proof.
  split.
  - intros H. remember (Regex.Star (Regex.Class p)) as r0 eqn:Er.
    induction H as [| | | | | |r' s1 s2 H1 _ H2 IH2]; try discriminate.
    + reflexivity.
    + injection Er as ->. apply matches_class in H1 as [c [-> Hc]].
      simpl. rewrite Hc. now apply IH2.
  - induction s as [|c s IH]; simpl; intros H.
    + constructor.
    + apply andb_true_iff in H as [Hc Hs].
      change (c :: s) with ([c] ++ s).
      apply Regex.m_star_cons; [now constructor | now apply IH].
Qed.

Lemma matches_plus_class (p : N -> bool) (s : jsstring) :
  Regex.matches (Regex.Plus (Regex.Class p)) s <->
  s <> [] /\ forallb p s = true.
Proof.
  unfold Regex.Plus. rewrite matches_cat. split.
  - intros [s1 [s2 [-> [H1 H2]]]].
    apply matches_class in H1 as [c [-> Hc]].
    apply matches_star_class in H2. simpl. rewrite Hc. split; [discriminate | exact H2].
  - intros [Hne H]. destruct s as [|c s]; [congruence|].
    simpl in H. apply andb_true_iff in H as [Hc Hs].
    exists [c], s. split; [reflexivity|]. split.
    + now constructor.
    + now apply matches_star_class.
Qed.

Lemma emailRegex_spec (e : jsstring) :
  Regex.test Regex.emailRegex e = true <-> emailShaped e.
Proof.
  rewrite test_spec. unfold Regex.emailRegex, emailShaped, Regex.Chr.
  split.
  - intros H.
    apply matches_cat in H as [l [x1 [-> [Hl H]]]].
    apply matches_cat in H as [a [x2 [-> [Ha H]]]].
    apply matches_cat in H as [d [x3 [-> [Hd H]]]].
    apply matches_cat in H as [b [t [-> [Hb Ht]]]].
    apply matches_class in Ha as [ca [-> Ea]]. apply N.eqb_eq in Ea. subst ca.
    apply matches_class in Hb as [cb [-> Eb]]. apply N.eqb_eq in Eb. subst cb.
    apply matches_plus_class in Hl, Hd, Ht.
    now exists l, d, t.
  - intros [l [d [t [-> [Hl [Hd Ht]]]]]].
    apply matches_plus_class in Hl, Hd, Ht.
    apply Regex.m_cat; [exact Hl|].
    apply Regex.m_cat; [now constructor|].
    apply Regex.m_cat; [exact Hd|].
    apply Regex.m_cat; [now constructor | exact Ht].
Qed.

(* ------------------------------------------------------------------ *)
(** ** Client-side filter *)

Section Filter.
Variable toLowerCase : jsstring -> jsstring.

Lemma matchesQuery_spec (q : jsstring) (c : Case.t) :
  Dashboard.matchesQuery toLowerCase q c = true <->
  caseContains toLowerCase q c.
Proof.
  unfold Dashboard.matchesQuery, caseContains, containsCI.
  rewrite orb_true_iff, includes_spec.
  destruct (Case.description c) as [d|].
  - rewrite includes_spec. split.
    + intros [H|H]; [now left | right; now exists d].
    + intros [H|[d' [E H]]]; [now left | right].
      now injection E as ->.
  - split.
    + intros [H|H]; [now left | discriminate].
    + intros [H|[d' [E _]]]; [now left | discriminate].
Qed.

Lemma filter_nil_iff (A : Type) (f : A -> bool) (l : list A) :
  filter f l = [] <-> forall x, In x l -> f x = false.
Proof.
  induction l as [|a l IH]; simpl.
  - split; [intros _ x [] | reflexivity].
  - destruct (f a) eqn:E.
    + split; [discriminate|]. intros H. specialize (H a (or_introl eq_refl)).
      congruence.
    + rewrite IH. split.
      * intros H x [<-|Hx]; [exact E | now apply H].
      * intros H x Hx. apply H. now right.
Qed.

Lemma filterCases_In (L : list Case.t) (q : jsstring) (c : Case.t) :
  toLowerCase [] = [] ->
  In c (Dashboard.filterCases toLowerCase L q) <->
  In c L /\ caseContains toLowerCase q c.
Proof.
  intros H0. unfold Dashboard.filterCases.
  destruct q as [|x q]; simpl.
  - split; [|tauto]. intros H. split; [exact H|].
    left. exists [], (toLowerCase (Case.title c)). now rewrite H0.
  - rewrite filter_In, matchesQuery_spec. reflexivity.
Qed.

End Filter.

(** C1.  Filtering a case list [L] by a query [q] gives the empty list
    exactly when no case of [L] has a title or a description that
    contains [q] with case ignored; filtering by the empty string gives
    [L] itself, in the same order; and a case without a description is
    kept exactly when its title contains [q].  Lower-casing is the
    built-in of the language, of which only [toLowerCase("") = ""] is
    used. *)
Theorem filter_empty_iff_no_case_contains
  (toLowerCase : jsstring -> jsstring)
  (Hempty : toLowerCase [] = [])
  (L : list Case.t) (q : jsstring) :
  (Dashboard.filterCases toLowerCase L q = [] <->
   forall c, In c L -> ~ caseContains toLowerCase q c)
  /\ Dashboard.filterCases toLowerCase L [] = L
  /\ (forall c, Case.description c = None ->
        (In c (Dashboard.filterCases toLowerCase L q) <->
         In c L /\ containsCI toLowerCase (Case.title c) q)).
Proof.
  split; [|split].
  - split.
    + intros E c Hc Hm.
      assert (Hin : In c (Dashboard.filterCases toLowerCase L q))
        by (apply filterCases_In; auto).
      rewrite E in Hin. exact Hin.
    + intros H. destruct (Dashboard.filterCases toLowerCase L q) as [|c r] eqn:E;
        [reflexivity|].
      assert (Hin : In c (Dashboard.filterCases toLowerCase L q))
        by (rewrite E; now left).
      apply filterCases_In in Hin as [Hc Hm]; [|exact Hempty].
      now destruct (H c Hc).
  - reflexivity.
  - intros c Hd. rewrite filterCases_In by exact Hempty.
    unfold caseContains. rewrite Hd. split.
    + intros [Hc [H|[d [E _]]]]; [tauto | discriminate].
    + intros [Hc H]. split; [exact Hc | now left].
Qed.

Lemma filter_empty_iff_no_case_contains_witness :
  asciiLower [] = [] /\
  Dashboard.filterCases asciiLower
    [exampleCase "Smith v. Jones" None;
     exampleCase "Estate of Roe" (Some (lit "Probate, SMITH family"))]
    (lit "smith")
  <> [] /\
  Dashboard.filterCases asciiLower
    [exampleCase "Smith v. Jones" None] [] =
  [exampleCase "Smith v. Jones" None].
Proof.
  split; [reflexivity|].
  pose proof (filter_empty_iff_no_case_contains asciiLower eq_refl
                [exampleCase "Smith v. Jones" None;
                 exampleCase "Estate of Roe" (Some (lit "Probate, SMITH family"))]
                (lit "smith")) as [H1 _].
  pose proof (filter_empty_iff_no_case_contains asciiLower eq_refl
                [exampleCase "Smith v. Jones" None] []) as [_ [H2 _]].
  split; [|exact H2].
  intros E. apply (proj1 H1 E (exampleCase "Smith v. Jones" None)).
  - left. reflexivity.
  - left. exists [], (lit " v. jones"). reflexivity.
Defined.

Example filter_ex_title :
  Dashboard.filterCases asciiLower
    [exampleCase "Smith v. Jones" None;
     exampleCase "Estate of Roe" (Some (lit "Probate, SMITH family"));
     exampleCase "Doe v. Acme" (Some (lit ""))]
    (lit "sMiTh")
  = [exampleCase "Smith v. Jones" None;
     exampleCase "Estate of Roe" (Some (lit "Probate, SMITH family"))].
Proof. reflexivity. Qed.

Example filter_ex_none :
  Dashboard.filterCases asciiLower
    [exampleCase "Smith v. Jones" None] (lit "probate") = [].
Proof. reflexivity. Qed.

(* ------------------------------------------------------------------ *)
(** ** Case creation *)

Ltac act :=
  unfold andThen, upd, emit, skip in *; cbn in *.

(** C2.  With a user present and a title that is not empty once
    trimmed, the creation flow submits a row carrying the trimmed title,
    status [active] and file count 0; when the store answers with a row
    [d], in whatever state [s'] the component then is, the case list
    becomes [d :: cases s'], both input fields are cleared and the
    dialog is closed; and [d], being the inserted row as returned by the
    store, carries the trimmed title, status [active] and file count 0. *)
Theorem create_case_success
  (s s' : Dashboard.State) (u : User.t) (d : Case.t)
  (Huser : Dashboard.user s = Some u)
  (Htitle : trim (Dashboard.newCaseTitle s) <> []) :
  exists row,
    Dashboard.handleCreateCase s =
      (Dashboard.awaitInsert (Dashboard.setCreating true s),
       [InsertCase row]) /\
    CaseInsert.user_id row = User.id u /\
    CaseInsert.title row = trim (Dashboard.newCaseTitle s) /\
    CaseInsert.status row = active /\
    CaseInsert.file_count row = 0%Z /\
    (let s2 := fst (Dashboard.handleCreateCase_resume (Success d) s') in
     Dashboard.cases s2 = d :: Dashboard.cases s' /\
     Dashboard.newCaseTitle s2 = [] /\
     Dashboard.newCaseDescription s2 = [] /\
     Dashboard.showCreateModal s2 = false /\
     Dashboard.creating s2 = false) /\
    snd (Dashboard.handleCreateCase_resume (Success d) s') =
      [ToastSuccess (lit "Case created successfully!")] /\
    (returnsInserted row d ->
     Case.title d = trim (Dashboard.newCaseTitle s) /\
     Case.status d = active /\
     Case.file_count d = 0%Z).
Proof.
  apply truthy_true_iff in Htitle.
  eexists. unfold Dashboard.handleCreateCase.
  rewrite Huser, Htitle. cbn [negb].
  split; [reflexivity|].
  repeat split; try reflexivity.
  - destruct H as [_ [H _]]. exact H.
  - destruct H as [_ [_ [_ [H _]]]]. exact H.
  - destruct H as [_ [_ [_ [_ H]]]]. exact H.
Qed.

Lemma create_case_success_witness :
  let s := Dashboard.setNewCaseTitle (lit "  Smith v. Jones ")
             (Dashboard.init (Some exampleUser) false) in
  let d := Case.mk (lit "c9") (lit "u1") (lit "Smith v. Jones") None active 0
             (lit "2024-05-01") (lit "2024-05-01") in
  Dashboard.user s = Some exampleUser /\
  trim (Dashboard.newCaseTitle s) <> [] /\
  snd (Dashboard.handleCreateCase s) =
    [InsertCase (CaseInsert.mk (lit "u1") (lit "Smith v. Jones") None active 0)]
  /\ Dashboard.cases
       (fst (Dashboard.handleCreateCase_resume (Success d)
               (fst (Dashboard.handleCreateCase s)))) = [d].
Proof.
  intros s d.
  assert (Hu : Dashboard.user s = Some exampleUser) by reflexivity.
  assert (Ht : trim (Dashboard.newCaseTitle s) <> []) by (vm_compute; discriminate).
  destruct (create_case_success s (fst (Dashboard.handleCreateCase s))
              exampleUser d Hu Ht)
    as [row [E [_ [_ [_ [_ [[Hc _] _]]]]]]].
  split; [exact Hu|]. split; [exact Ht|]. split; [reflexivity | exact Hc].
Defined.

(** C4.  When the title is empty once trimmed (that is, made of white
    space only), the creation flow changes nothing and performs no
    effect at all: no request, same case list, dialog as it was; the
    submit button is disabled as well.  When the store answers a
    submission with an error, the dialog, both input fields and the case
    list are as they were and no request is made: the error is logged and
    a notification shown. *)
Theorem create_case_rejected_or_failed
  (toLowerCase : jsstring -> jsstring)
  (s : Dashboard.State) (e : PostgrestError) :
  (forallb isWhiteSpace (Dashboard.newCaseTitle s) = true ->
   trim (Dashboard.newCaseTitle s) = [] /\
   Dashboard.handleCreateCase s = (s, []) /\
   Dashboard.step toLowerCase Dashboard.ClickCreate s = (s, []))
  /\
  (let s2 := fst (Dashboard.handleCreateCase_resume (Failure e) s) in
   Dashboard.showCreateModal s2 = Dashboard.showCreateModal s /\
   Dashboard.newCaseTitle s2 = Dashboard.newCaseTitle s /\
   Dashboard.newCaseDescription s2 = Dashboard.newCaseDescription s /\
   Dashboard.cases s2 = Dashboard.cases s /\
   Dashboard.creating s2 = false)
  /\
  snd (Dashboard.handleCreateCase_resume (Failure e) s) =
    [ConsoleError (lit "Error creating case:") e;
     ToastError (lit "Failed to create case")].
Proof.
  split; [|split; [repeat split | reflexivity]].
  intros Hws. apply trim_nil_iff in Hws.
  split; [exact Hws|]. split.
  - unfold Dashboard.handleCreateCase. rewrite Hws.
    destruct (Dashboard.user s); reflexivity.
  - unfold Dashboard.step, Dashboard.when, Dashboard.createEnabled,
      Dashboard.render.
    destruct (Dashboard.authLoading s || Dashboard.loading s); [reflexivity|].
    destruct (Dashboard.user s); [|reflexivity].
    destruct (Dashboard.profile s); [|reflexivity].
    cbn. rewrite Hws. cbn. rewrite andb_false_r. reflexivity.
Qed.

Lemma create_case_rejected_or_failed_witness :
  let s := Dashboard.setShowCreateModal true
             (Dashboard.setNewCaseTitle (lit "   ")
                (Dashboard.init (Some exampleUser) false)) in
  forallb isWhiteSpace (Dashboard.newCaseTitle s) = true /\
  Dashboard.handleCreateCase s = (s, []) /\
  Dashboard.showCreateModal (fst (Dashboard.handleCreateCase s)) = true.
Proof.
  intros s.
  assert (Hws : forallb isWhiteSpace (Dashboard.newCaseTitle s) = true)
    by reflexivity.
  destruct (create_case_rejected_or_failed asciiLower s noRow) as [H _].
  destruct (H Hws) as [_ [E _]].
  split; [exact Hws|]. split; [exact E|]. rewrite E. reflexivity.
Defined.

(* ------------------------------------------------------------------ *)
(** ** Profile loader *)

Lemma thrown_noRow (A : Type) (e : PostgrestError) :
  code e = Dashboard.PGRST116 ->
  Dashboard.thrown (@Failure A e) = None.
Proof.
  intros H. unfold Dashboard.thrown. cbv [error].
  apply eqb_spec in H. now rewrite H.
Qed.

Lemma thrown_other (A : Type) (e : PostgrestError) :
  code e <> Dashboard.PGRST116 ->
  Dashboard.thrown (@Failure A e) = Some e.
Proof.
  intros H. unfold Dashboard.thrown. cbv [error].
  destruct (JS.eqb (code e) Dashboard.PGRST116) eqn:E; [|reflexivity].
  apply eqb_spec in E. contradiction.
Qed.

(** C7.  On both screens the profile loader treats the answer "no
    matching row" (error code PGRST116) as an empty result: the profile
    cell keeps its value (so stays unset) and nothing is logged or
    notified.  For an error with any other code the error is logged, the
    notification "Failed to load profile" is shown, and the profile cell
    keeps its value as well. *)
Theorem profile_loader_no_row_is_not_an_error
  (s : Dashboard.State) (p : Payment.State) (e : PostgrestError) :
  (code e = lit "PGRST116" ->
   Dashboard.fetchProfile_resume (Failure e) s = (s, []) /\
   Payment.fetchProfile_resume (Failure e) p =
     (Payment.setLoading false p, []))
  /\
  (code e <> lit "PGRST116" ->
   Dashboard.fetchProfile_resume (Failure e) s =
     (s, [ConsoleError (lit "Error fetching profile:") e;
          ToastError (lit "Failed to load profile")]) /\
   Payment.fetchProfile_resume (Failure e) p =
     (Payment.setLoading false p,
      [ConsoleError (lit "Error fetching profile:") e;
       ToastError (lit "Failed to load profile")]))
  /\
  Dashboard.profile (fst (Dashboard.fetchProfile_resume (Failure e) s)) =
    Dashboard.profile s
  /\
  Payment.profile (fst (Payment.fetchProfile_resume (Failure e) p)) =
    Payment.profile p.
Proof.
  assert (A : code e = lit "PGRST116" ->
              Dashboard.fetchProfile_resume (Failure e) s = (s, []) /\
              Payment.fetchProfile_resume (Failure e) p =
                (Payment.setLoading false p, [])).
  { intros H. unfold Dashboard.fetchProfile_resume, Payment.fetchProfile_resume.
    rewrite (thrown_noRow _ e H). split; reflexivity. }
  assert (B : code e <> lit "PGRST116" ->
   Dashboard.fetchProfile_resume (Failure e) s =
     (s, [ConsoleError (lit "Error fetching profile:") e;
          ToastError (lit "Failed to load profile")]) /\
   Payment.fetchProfile_resume (Failure e) p =
     (Payment.setLoading false p,
      [ConsoleError (lit "Error fetching profile:") e;
       ToastError (lit "Failed to load profile")])).
  { intros H. unfold Dashboard.fetchProfile_resume, Payment.fetchProfile_resume.
    rewrite (thrown_other _ e H). split; reflexivity. }
  split; [exact A|]. split; [exact B|].
  destruct (JS.eqb (code e) (lit "PGRST116")) eqn:E.
  - apply eqb_spec in E. destruct (A E) as [-> ->]. split; reflexivity.
  - assert (N : code e <> lit "PGRST116")
      by (intros H; apply eqb_spec in H; congruence).
    destruct (B N) as [-> ->]. split; reflexivity.
Qed.

Lemma profile_loader_no_row_is_not_an_error_witness :
  (code noRow = lit "PGRST116" /\
   Dashboard.fetchProfile_resume (Failure noRow)
     (Dashboard.init (Some exampleUser) false) =
   (Dashboard.init (Some exampleUser) false, []))
  /\
  (code otherError <> lit "PGRST116" /\
   snd (Payment.fetchProfile_resume (Failure otherError)
          (Payment.init (Some exampleUser) false)) =
   [ConsoleError (lit "Error fetching profile:") otherError;
    ToastError (lit "Failed to load profile")]).
Proof.
  assert (H1 : code noRow = lit "PGRST116") by reflexivity.
  assert (H2 : code otherError <> lit "PGRST116") by (vm_compute; discriminate).
  destruct (profile_loader_no_row_is_not_an_error
              (Dashboard.init (Some exampleUser) false)
              (Payment.init (Some exampleUser) false) noRow) as [A _].
  destruct (profile_loader_no_row_is_not_an_error
              (Dashboard.init (Some exampleUser) false)
              (Payment.init (Some exampleUser) false) otherError)
    as [_ [B _]].
  split.
  - split; [exact H1 | exact (proj1 (A H1))].
  - split; [exact H2|]. rewrite (proj2 (B H2)). reflexivity.
Defined.

(* ------------------------------------------------------------------ *)
(** ** Payment *)

(** C8.  When the update succeeds, the profile cell is patched in place:
    [is_pro] becomes true and the id, user id, first name, last name and
    creation timestamp are those of the profile held before. *)
Theorem payment_success_patches_is_pro_only
  (s : Payment.State) (prev : Profile.t)
  (Hprofile : Payment.profile s = Some prev) :
  exists p',
    Payment.profile (fst (Payment.handlePayment_resume None s)) = Some p' /\
    Profile.is_pro p' = true /\
    Profile.id p' = Profile.id prev /\
    Profile.user_id p' = Profile.user_id prev /\
    Profile.first_name p' = Profile.first_name prev /\
    Profile.last_name p' = Profile.last_name prev /\
    Profile.created_at p' = Profile.created_at prev.
Proof.
  exists (Payment.markPro prev).
  unfold Payment.handlePayment_resume. act. rewrite Hprofile.
  repeat split.
Qed.

Lemma payment_success_patches_is_pro_only_witness :
  let s := Payment.setProfile (Some (exampleProfile false))
             (Payment.init (Some exampleUser) false) in
  Payment.profile s = Some (exampleProfile false) /\
  exists p',
    Payment.profile (fst (Payment.handlePayment_resume None s)) = Some p' /\
    Profile.is_pro p' = true /\
    Profile.first_name p' = lit "Asha".
Proof.
  intros s. split; [reflexivity|].
  destruct (payment_success_patches_is_pro_only s (exampleProfile false)
              eq_refl) as [p' [E [Hp [_ [_ [Hf _]]]]]].
  exists p'. split; [exact E|]. split; [exact Hp | exact Hf].
Defined.

(** C10.  Invoked while the user or the profile is unset, the payment
    action returns at once: the state is the same (step, flags, nothing
    awaited) and the list of effects is empty, so no timer is started, no
    update is requested and nothing is notified. *)
Theorem payment_without_user_or_profile_is_noop
  (s : Payment.State)
  (Hunset : Payment.user s = None \/ Payment.profile s = None) :
  Payment.handlePayment s = (s, []) /\
  Payment.step Payment.ClickCompletePayment s = (s, []).
Proof.
  unfold Payment.step, Payment.when, Payment.shows, Payment.render,
    Payment.handlePayment.
  destruct Hunset as [H|H]; rewrite H.
  - split; [reflexivity|].
    destruct (Payment.authLoading s || Payment.loading s); reflexivity.
  - split; [destruct (Payment.user s); reflexivity|].
    destruct (Payment.authLoading s || Payment.loading s); [reflexivity|].
    destruct (Payment.user s); reflexivity.
Qed.

Lemma payment_without_user_or_profile_is_noop_witness :
  let s := Payment.setPaymentStep 2 (Payment.init (Some exampleUser) false) in
  (Payment.user s = None \/ Payment.profile s = None) /\
  Payment.handlePayment s = (s, []).
Proof.
  intros s.
  assert (H : Payment.user s = None \/ Payment.profile s = None)
    by (right; reflexivity).
  split; [exact H|].
  exact (proj1 (payment_without_user_or_profile_is_noop s H)).
Defined.

(* ------------------------------------------------------------------ *)
(** ** Registration and login forms *)

Lemma allPresent_dec (s : Register.State) :
  (negb (truthy (Register.firstName s)) || negb (truthy (Register.lastName s))
   || negb (truthy (Register.email s)) || negb (truthy (Register.password s))
   || negb (truthy (Register.confirmPassword s))) = false <-> allPresent s.
Proof.
  unfold allPresent.
  rewrite !orb_false_iff, !negb_false_iff, !truthy_true_iff. tauto.
Qed.

(** The rules of [validateForm], one by one, each under the assumption
    that the rules before it pass. *)
Lemma validateForm_rules (s : Register.State) :
  (~ allPresent s ->
   Register.validateForm s = Some (lit "Please fill in all fields")) /\
  (allPresent s -> List.length (Register.password s) < 6 ->
   Register.validateForm s =
     Some (lit "Password must be at least 6 characters long")) /\
  (allPresent s -> 6 <= List.length (Register.password s) ->
   Register.password s <> Register.confirmPassword s ->
   Register.validateForm s = Some (lit "Passwords do not match")) /\
  (allPresent s -> 6 <= List.length (Register.password s) ->
   Register.password s = Register.confirmPassword s ->
   ~ emailShaped (Register.email s) ->
   Register.validateForm s =
     Some (lit "Please enter a valid email address")) /\
  (allPresent s -> 6 <= List.length (Register.password s) ->
   Register.password s = Register.confirmPassword s ->
   emailShaped (Register.email s) ->
   Register.validateForm s = None).
Proof.
  unfold Register.validateForm.
  destruct (negb (truthy (Register.firstName s)) || _ || _ || _ || _) eqn:E1.
  - assert (N : ~ allPresent s).
    { intros H. apply allPresent_dec in H. congruence. }
    repeat split; intros; try reflexivity; contradiction.
  - apply allPresent_dec in E1.
    split; [intros; contradiction|].
    destruct (List.length (Register.password s) <? 6) eqn:E2.
    + apply Nat.ltb_lt in E2. repeat split; intros; try reflexivity; lia.
    + apply Nat.ltb_ge in E2.
      split; [intros; lia|].
      destruct (JS.eqb (Register.password s) (Register.confirmPassword s))
        eqn:E3; cbn [negb].
      * apply eqb_spec in E3.
        split; [intros; contradiction|].
        destruct (Regex.test Regex.emailRegex (Register.email s)) eqn:E4;
          cbn [negb].
        -- apply emailRegex_spec in E4. split; intros; [contradiction|reflexivity].
        -- assert (N : ~ emailShaped (Register.email s)).
           { intros H. apply emailRegex_spec in H. congruence. }
           split; intros; [reflexivity | contradiction].
      * assert (N : Register.password s <> Register.confirmPassword s).
        { intros H. apply eqb_spec in H. congruence. }
        repeat split; intros; try reflexivity; contradiction.
Qed.

(** C5, as the code has it.  On the registration form the rules are
    tried in order and the first that fails gives the message: all five
    fields present; password of at least 6 code units; password equal to
    its confirmation; email of the shape [local@domain.tld].  A password
    of length 5 is rejected and one of length 6 accepted, a confirmation
    that differs is rejected, "not-an-email" is rejected and "a@b.co"
    accepted.  [signUp] is called exactly when no rule fails, and with a
    failing rule no effect is performed.  The submit handler of the
    login form has the first rule only: when email or password is
    missing nothing is sent, and whatever else it is handed it sends to
    [signIn]; it has no rule on the length of the password and none on
    the shape [local@domain.tld].  So the email "a@b" with the password
    "12345", which the registration rules refuse on both counts, is sent
    to [signIn].  Through the form, whatever rule the browser applies
    to its email field, [signIn] is called exactly when the fields pass
    the browser's checks and the button is enabled. *)
Theorem registration_validates_in_order_login_checks_presence
  (s : Register.State) (l : Login.State)
  (emailFieldAccepts : jsstring -> bool) :
  ((~ allPresent s ->
    Register.validateForm s = Some (lit "Please fill in all fields")) /\
   (allPresent s -> List.length (Register.password s) < 6 ->
    Register.validateForm s =
      Some (lit "Password must be at least 6 characters long")) /\
   (allPresent s -> 6 <= List.length (Register.password s) ->
    Register.password s <> Register.confirmPassword s ->
    Register.validateForm s = Some (lit "Passwords do not match")) /\
   (allPresent s -> 6 <= List.length (Register.password s) ->
    Register.password s = Register.confirmPassword s ->
    ~ emailShaped (Register.email s) ->
    Register.validateForm s =
      Some (lit "Please enter a valid email address")) /\
   (allPresent s -> 6 <= List.length (Register.password s) ->
    Register.password s = Register.confirmPassword s ->
    emailShaped (Register.email s) ->
    Register.validateForm s = None))
  /\
  (Register.validateForm (registerForm "a@b.co" "12345" "12345") =
     Some (lit "Password must be at least 6 characters long") /\
   Register.validateForm (registerForm "a@b.co" "123456" "123456") = None /\
   Register.validateForm (registerForm "a@b.co" "123456" "123457") =
     Some (lit "Passwords do not match") /\
   Register.validateForm (registerForm "not-an-email" "123456" "123456") =
     Some (lit "Please enter a valid email address"))
  /\
  ((forall msg, Register.validateForm s = Some msg ->
      snd (Register.handleSubmit s) = [] /\
      Register.error (fst (Register.handleSubmit s)) = msg /\
      Register.loading (fst (Register.handleSubmit s)) = false) /\
   (Register.validateForm s = None ->
      snd (Register.handleSubmit s) =
        [SignUp (Register.email s) (Register.password s)
           (Register.firstName s) (Register.lastName s)]))
  /\
  ((Login.email l = [] \/ Login.password l = [] ->
      snd (Login.handleSubmit l) = [] /\
      Login.error (fst (Login.handleSubmit l)) =
        lit "Please fill in all fields" /\
      Login.loading (fst (Login.handleSubmit l)) = false) /\
   (Login.email l <> [] -> Login.password l <> [] ->
      snd (Login.handleSubmit l) =
        [SignIn (Login.email l) (Login.password l)]))
  /\
  (snd (Login.handleSubmit (loginForm "a@b" "12345")) =
     [SignIn (lit "a@b") (lit "12345")] /\
   Register.validateForm (registerForm "a@b" "123456" "123456") =
     Some (lit "Please enter a valid email address") /\
   Register.validateForm (registerForm "a@b" "12345" "12345") =
     Some (lit "Password must be at least 6 characters long"))
  /\
  snd (LoginForm.submit emailFieldAccepts l) =
    (if LoginForm.fieldsValid emailFieldAccepts l && negb (Login.loading l)
     then [SignIn (Login.email l) (Login.password l)]
     else []).
Proof.
  assert (D : Login.email l <> [] -> Login.password l <> [] ->
              snd (Login.handleSubmit l) =
              [SignIn (Login.email l) (Login.password l)]).
  { intros H1 H2. unfold Login.handleSubmit, andThen, upd, emit. cbn.
    apply truthy_true_iff in H1, H2. rewrite H1, H2. reflexivity. }
  split; [apply validateForm_rules|].
  split; [repeat split|].
  split; [split|split; [split|split]].
  - intros msg H. unfold Register.handleSubmit, andThen, upd, emit. cbn.
    change (Register.validateForm
              (Register.setError [] (Register.setLoading true s)))
      with (Register.validateForm s).
    rewrite H. repeat split.
  - intros H. unfold Register.handleSubmit, andThen, upd, emit. cbn.
    change (Register.validateForm
              (Register.setError [] (Register.setLoading true s)))
      with (Register.validateForm s).
    rewrite H. reflexivity.
  - intros H. unfold Login.handleSubmit, andThen, upd, emit. cbn.
    destruct H as [H|H]; rewrite H; cbn.
    + repeat split.
    + rewrite orb_true_r. repeat split.
  - exact D.
  - repeat split.
  - unfold LoginForm.submit.
    destruct (LoginForm.fieldsValid emailFieldAccepts l) eqn:F;
      [|reflexivity].
    destruct (negb (Login.loading l)); [|reflexivity]. cbn [andb].
    unfold LoginForm.fieldsValid in F.
    apply andb_true_iff in F as [F Hp]. apply andb_true_iff in F as [He _].
    apply D; now apply truthy_true_iff.
Qed.

Lemma registration_validates_in_order_login_checks_presence_witness :
  let s := registerForm "a@b.co" "secret" "secret" in
  let l := loginForm "a@b" "12345" in
  (allPresent s /\ 6 <= List.length (Register.password s) /\
   Register.password s = Register.confirmPassword s /\
   emailShaped (Register.email s) /\
   Register.validateForm s = None) /\
  (Login.email l <> [] /\ Login.password l <> [] /\
   snd (Login.handleSubmit l) = [SignIn (lit "a@b") (lit "12345")]).
Proof.
  intros s l.
  destruct (registration_validates_in_order_login_checks_presence s l
              (fun _ => true))
    as [[_ [_ [_ [_ R]]]] [_ [_ [[_ L] _]]]].
  assert (Hp : allPresent s) by (repeat split; discriminate).
  assert (Hl : 6 <= List.length (Register.password s)) by (cbn; lia).
  assert (Hc : Register.password s = Register.confirmPassword s)
    by reflexivity.
  assert (He : emailShaped (Register.email s)).
  { exists (lit "a"), (lit "b"), (lit "co").
    repeat split; try discriminate; reflexivity. }
  assert (H1 : Login.email l <> []) by discriminate.
  assert (H2 : Login.password l <> []) by discriminate.
  split.
  - split; [exact Hp|]. split; [exact Hl|]. split; [exact Hc|].
    split; [exact He | exact (R Hp Hl Hc He)].
  - split; [exact H1|]. split; [exact H2 | exact (L H1 H2)].
Defined.

(** Handed the email "a@b" and the password "12345" (both fields filled
    in, an address an email field accepts, 5 code units), the submit
    handler of the login form calls [signIn] and sets no error: the
    rule on the length of the password and the rule on the shape
    [local@domain.tld], both of which refuse this input on the
    registration form, are not applied there. *)
Lemma login_delegates_short_password_and_email_without_tld :
  let l := loginForm "a@b" "12345" in
  List.length (Login.password l) = 5 /\
  Regex.test Regex.emailRegex (Login.email l) = false /\
  snd (Login.handleSubmit l) = [SignIn (lit "a@b") (lit "12345")] /\
  Login.error (fst (Login.handleSubmit l)) = [] /\
  Register.validateForm (registerForm "a@b" "12345" "12345") =
    Some (lit "Password must be at least 6 characters long") /\
  Register.validateForm (registerForm "a@b" "123456" "123456") =
    Some (lit "Please enter a valid email address").
Proof. repeat split. Qed.

(* ------------------------------------------------------------------ *)
(** ** Runs *)

Lemma runWith_app (St Ev : Type) (step : Ev -> Act St)
  (evs1 evs2 : list Ev) (s : St) :
  fst (runWith step (evs1 ++ evs2) s) =
  fst (runWith step evs2 (fst (runWith step evs1 s))).
Proof.
  revert s; induction evs1 as [|ev evs1 IH]; intros s; [reflexivity|].
  cbn [app runWith]. unfold andThen.
  destruct (step ev s) as [s1 e1]. specialize (IH s1).
  destruct (runWith step (evs1 ++ evs2) s1) as [s2 e2].
  destruct (runWith step evs1 s1) as [s3 e3]. exact IH.
Qed.

Lemma runWith_cons (St Ev : Type) (step : Ev -> Act St)
  (ev : Ev) (evs : list Ev) (s : St) :
  fst (runWith step (ev :: evs) s) =
  fst (runWith step evs (fst (step ev s))).
Proof.
  cbn [runWith]. unfold andThen.
  destruct (step ev s) as [s1 e1]. cbn [fst].
  destruct (runWith step evs s1) as [s2 e2]. reflexivity.
Qed.

(** A property that holds at the start and is kept by every step holds
    after any run. *)
Lemma runWith_invariant (St Ev : Type) (step : Ev -> Act St)
  (P : St -> Prop) :
  (forall ev s, P s -> P (fst (step ev s))) ->
  forall evs s, P s -> P (fst (runWith step evs s)).
Proof.
  intros Hstep evs; induction evs as [|ev evs IH]; intros s Hs.
  - exact Hs.
  - rewrite runWith_cons. apply IH, Hstep, Hs.
Qed.

(* ------------------------------------------------------------------ *)
(** ** Upgrade flow *)

Ltac payment_unfold :=
  unfold Payment.step, Payment.when, Payment.shows, Payment.render,
    Payment.handlePayment, Payment.handlePayment_afterDelay,
    Payment.handlePayment_resume, Payment.fetchProfile_resume,
    Payment.userEffect, Payment.fetchProfile, Payment.navEffect,
    Dashboard.thrown, Dashboard.isSome, error, data,
    andThen, upd, emit, skip, isProLocal, paymentsInFlight in *.

Ltac split_ifs :=
  repeat (cbn in *;
          match goal with
          | |- context [match ?x with _ => _ end] => is_var x; destruct x
          | |- context [if ?b then _ else _] => is_var b; destruct b
          | |- context [if ?b then _ else _] => destruct b eqn:?
          end);
  cbn in *.


Lemma paymentHoldsProfile_step (ev : Payment.Event) (s : Payment.State) :
  paymentHoldsProfile s -> paymentHoldsProfile (fst (Payment.step ev s)).
Proof.
  unfold paymentHoldsProfile. destruct s as [pr st ld pc us al ps tm up].
  destruct ev; payment_unfold; cbn in *; intros H; split_ifs;
    try (intros; congruence); try (intros K; apply H; lia);
    try (intros K; apply H; rewrite ?length_app in *; cbn in *; lia).
Qed.

Lemma paymentHoldsProfile_reachable (s : Payment.State) :
  paymentReachable s -> paymentHoldsProfile s.
Proof.
  intros [u [al [evs ->]]]. unfold Payment.run.
  apply (runWith_invariant _ _ Payment.step paymentHoldsProfile).
  - apply paymentHoldsProfile_step.
  - unfold paymentHoldsProfile, Payment.mount. payment_unfold.
    split_ifs; lia.
Qed.

(** A step that brings the flow to step 3 leaves a profile that is Pro. *)
Lemma step_to_success_sets_pro (ev : Payment.Event) (s : Payment.State) :
  paymentHoldsProfile s ->
  Payment.paymentStep s <> 3%Z ->
  Payment.paymentStep (fst (Payment.step ev s)) = 3%Z ->
  isProLocal (fst (Payment.step ev s)) = true.
Proof.
  unfold paymentHoldsProfile. destruct s as [pr st ld pc us al ps tm up].
  destruct ev; payment_unfold; cbn in *; intros H N; split_ifs;
    intros E; try congruence; try reflexivity.
  exfalso. apply H; [lia | reflexivity].
Qed.

(** With a Pro profile the three step views are not rendered. *)
Lemma pro_renders_no_step (s : Payment.State) :
  isProLocal s = true ->
  (forall body, Payment.render s <> Payment.Upgrade body) /\
  (Payment.authLoading s = false -> Payment.loading s = false ->
   Payment.user s <> None -> Payment.render s = Payment.AlreadyPro).
Proof.
  destruct s as [pr st ld pc us al ps tm up]. payment_unfold. cbn.
  intros H. split.
  - intros body. split_ifs; congruence.
  - intros -> -> Hu. split_ifs; congruence.
Qed.

(** A Pro profile with no payment in flight: kept by every event that
    does not bring a profile that is not Pro; the step does not move. *)
Lemma pro_is_kept (ev : Payment.Event) (s : Payment.State) :
  keepsPro ev ->
  isProLocal s = true -> paymentsInFlight s = 0 ->
  isProLocal (fst (Payment.step ev s)) = true /\
  paymentsInFlight (fst (Payment.step ev s)) = 0 /\
  Payment.paymentStep (fst (Payment.step ev s)) = Payment.paymentStep s.
Proof.
  destruct s as [pr st ld pc us al ps tm up].
  destruct ev; payment_unfold; cbn in *; intros K H Z; split_ifs;
    repeat split; try congruence; try (cbn in *; lia); try assumption.
  all: match goal with
       | Q : match (if ?c then _ else _) with _ => _ end = true |- _ =>
           rewrite ?H in Q; destruct c; discriminate Q
       end.
Qed.

Lemma pro_is_kept_run (evs : list Payment.Event) (s : Payment.State) :
  Forall keepsPro evs ->
  isProLocal s = true -> paymentsInFlight s = 0 ->
  isProLocal (fst (Payment.run evs s)) = true /\
  Payment.paymentStep (fst (Payment.run evs s)) = Payment.paymentStep s.
Proof.
  unfold Payment.run. revert s.
  induction evs as [|ev evs IH]; intros s HF Hp Hz; [now split|].
  inversion HF as [|? ? Hev HF']; subst.
  destruct (pro_is_kept ev s Hev Hp Hz) as [Hp' [Hz' Hs']].
  rewrite runWith_cons.
  destruct (IH _ HF' Hp' Hz') as [A B]. split; [exact A | congruence].
Qed.

Lemma mount_step_is_1 (u : option User.t) (al : bool) :
  Payment.paymentStep (fst (Payment.mount u al)) = 1%Z.
Proof.
  unfold Payment.mount. payment_unfold. split_ifs; reflexivity.
Qed.

(** C3.  In every run of the upgrade screen from its first render, a
    state whose step is 3 comes after (or is) a state in which the local
    profile is Pro, and the very step that sets the step to 3 leaves the
    local profile Pro.  With a Pro profile none of the three step views
    is rendered, and once the session and the profile are loaded the
    view is "already Pro"; this stays so, with the step where it was,
    for as long as no answer brings a profile that is not Pro. *)
Theorem upgrade_success_only_after_pro_and_pro_short_circuits :
  (forall u al evs,
     Payment.paymentStep
       (fst (Payment.run evs (fst (Payment.mount u al)))) = 3%Z ->
     exists evs1 evs2,
       evs = evs1 ++ evs2 /\
       isProLocal (fst (Payment.run evs1 (fst (Payment.mount u al)))) = true)
  /\
  (forall s ev,
     paymentReachable s ->
     Payment.paymentStep s <> 3%Z ->
     Payment.paymentStep (fst (Payment.step ev s)) = 3%Z ->
     isProLocal (fst (Payment.step ev s)) = true)
  /\
  (forall s,
     isProLocal s = true ->
     (forall body, Payment.render s <> Payment.Upgrade body) /\
     (Payment.authLoading s = false -> Payment.loading s = false ->
      Payment.user s <> None -> Payment.render s = Payment.AlreadyPro))
  /\
  (forall s evs,
     isProLocal s = true -> paymentsInFlight s = 0 ->
     Forall keepsPro evs ->
     isProLocal (fst (Payment.run evs s)) = true /\
     Payment.paymentStep (fst (Payment.run evs s)) = Payment.paymentStep s /\
     (forall body,
        Payment.render (fst (Payment.run evs s)) <> Payment.Upgrade body)).
Proof.
  split; [|split; [|split]].
  - intros u al evs. induction evs as [|ev evs IH] using rev_ind; intros H.
    + cbn in H. rewrite mount_step_is_1 in H. discriminate.
    + unfold Payment.run in *. rewrite runWith_app in H.
      set (s' := fst (runWith Payment.step evs (fst (Payment.mount u al))))
        in *.
      change (runWith Payment.step [ev] s') with
        (andThen (Payment.step ev) skip s') in H.
      assert (E : fst (andThen (Payment.step ev) skip s') =
                  fst (Payment.step ev s')).
      { unfold andThen, skip. destruct (Payment.step ev s'). reflexivity. }
      rewrite E in H.
      destruct (Z.eq_dec (Payment.paymentStep s') 3) as [E3|N3].
      * destruct (IH E3) as [evs1 [evs2 [-> Hpro]]].
        exists evs1, (evs2 ++ [ev]). split; [now rewrite app_assoc | exact Hpro].
      * exists (evs ++ [ev]), []. split; [now rewrite app_nil_r|].
        rewrite runWith_app. fold s'.
        change (runWith Payment.step [ev] s') with
          (andThen (Payment.step ev) skip s').
        rewrite E. apply step_to_success_sets_pro; try assumption.
        apply paymentHoldsProfile_reachable. now exists u, al, evs.
  - intros s ev Hr. apply step_to_success_sets_pro.
    now apply paymentHoldsProfile_reachable.
  - apply pro_renders_no_step.
  - intros s evs Hp Hz HF.
    destruct (pro_is_kept_run evs s HF Hp Hz) as [A B].
    split; [exact A|]. split; [exact B|].
    apply pro_renders_no_step, A.
Qed.

Lemma upgrade_success_only_after_pro_and_pro_short_circuits_witness :
  let evs := [Payment.ProfileAnswer (Success (exampleProfile false));
              Payment.ClickUpgradeNow; Payment.ClickCompletePayment;
              Payment.TimerFired; Payment.UpdateAnswer None] in
  let s0 := fst (Payment.mount (Some exampleUser) false) in
  Payment.paymentStep (fst (Payment.run evs s0)) = 3%Z /\
  (exists evs1 evs2,
     evs = evs1 ++ evs2 /\ isProLocal (fst (Payment.run evs1 s0)) = true) /\
  Payment.render (fst (Payment.run evs s0)) = Payment.AlreadyPro /\
  Payment.render
    (fst (Payment.run
            [Payment.ProfileAnswer (Success (exampleProfile true))] s0)) =
  Payment.AlreadyPro.
Proof.
  intros evs s0.
  destruct upgrade_success_only_after_pro_and_pro_short_circuits
    as [A [_ [C _]]].
  assert (H3 : Payment.paymentStep (fst (Payment.run evs s0)) = 3%Z)
    by reflexivity.
  split; [exact H3|]. split; [exact (A (Some exampleUser) false evs H3)|].
  split.
  - apply (C (fst (Payment.run evs s0)) eq_refl); [reflexivity | reflexivity |].
    discriminate.
  - apply (C (fst (Payment.run
            [Payment.ProfileAnswer (Success (exampleProfile true))] s0))
             eq_refl); [reflexivity | reflexivity | discriminate].
Defined.

(** The success view is what the last step view would show; after a
    payment that succeeded the profile is Pro, so the screen shows
    "already Pro". *)
Example payment_run_views :
  let s0 := fst (Payment.mount (Some exampleUser) false) in
  map (fun evs => Payment.render (fst (Payment.run evs s0)))
    [ [];
      [Payment.ProfileAnswer (Success (exampleProfile false))];
      [Payment.ProfileAnswer (Success (exampleProfile false));
       Payment.ClickUpgradeNow];
      [Payment.ProfileAnswer (Success (exampleProfile false));
       Payment.ClickUpgradeNow; Payment.ClickCompletePayment];
      [Payment.ProfileAnswer (Success (exampleProfile false));
       Payment.ClickUpgradeNow; Payment.ClickCompletePayment;
       Payment.TimerFired; Payment.UpdateAnswer (Some otherError)];
      [Payment.ProfileAnswer (Success (exampleProfile false));
       Payment.ClickUpgradeNow; Payment.ClickCompletePayment;
       Payment.TimerFired; Payment.UpdateAnswer None] ]
  = [ Payment.Spinner;
      Payment.Upgrade (Some Payment.Offer);
      Payment.Upgrade (Some (Payment.MockPayment false));
      Payment.Upgrade (Some (Payment.MockPayment true));
      Payment.Upgrade (Some (Payment.MockPayment false));
      Payment.AlreadyPro ].
Proof. reflexivity. Qed.


Lemma paymentSingleFlight_step (ev : Payment.Event) (s : Payment.State) :
  paymentSingleFlight s -> paymentSingleFlight (fst (Payment.step ev s)).
Proof.
  unfold paymentSingleFlight. destruct s as [pr st ld pc us al ps tm up].
  destruct ev; payment_unfold; cbn in *; intros H; split_ifs;
    rewrite ?length_app in *; cbn in *; try lia; try congruence.
  all: try match goal with
       | Q : match (if ?c then _ else _) with _ => _ end = true |- _ =>
           destruct c; try discriminate Q
       end.
  all: repeat match goal with
       | Q : context [if ?c then _ else _] |- _ =>
           destruct c eqn:?; cbn in Q; try discriminate Q
       end; try lia.
Qed.

Lemma paymentSingleFlight_reachable (s : Payment.State) :
  paymentReachable s -> paymentSingleFlight s.
Proof.
  intros [u [al [evs ->]]]. unfold Payment.run.
  apply (runWith_invariant _ _ Payment.step paymentSingleFlight).
  - apply paymentSingleFlight_step.
  - unfold paymentSingleFlight, Payment.mount. payment_unfold.
    split_ifs; reflexivity.
Qed.

(** While [processing] is set the payment button does nothing. *)
Lemma processing_blocks_payment (s : Payment.State) :
  Payment.processing s = true ->
  Payment.step Payment.ClickCompletePayment s = (s, []).
Proof.
  destruct s as [pr st ld pc us al ps tm up]. cbn. intros ->.
  unfold Payment.step, Payment.when, Payment.shows, Payment.render. cbn.
  destruct (al || ld); [reflexivity|].
  destruct us; [|reflexivity]. destruct pr as [p|]; [|reflexivity].
  destruct (Profile.is_pro p); [reflexivity|].
  destruct (st =? 1)%Z; [reflexivity|].
  destruct (st =? 2)%Z; [reflexivity|].
  destruct (st =? 3)%Z; reflexivity.
Qed.

(* ------------------------------------------------------------------ *)
(** ** Dashboard runs *)

Ltac dashboard_unfold :=
  unfold Dashboard.step, Dashboard.when, Dashboard.createEnabled,
    Dashboard.cancelEnabled, Dashboard.dialogShown, Dashboard.mainShown,
    Dashboard.upgradeShown, Dashboard.render,
    Dashboard.handleCreateCase, Dashboard.handleCreateCase_resume,
    Dashboard.handleLogout, Dashboard.handleLogout_resume,
    Dashboard.fetchProfile_resume, Dashboard.fetchCases_resume,
    Dashboard.userEffect, Dashboard.fetchProfile, Dashboard.fetchCases,
    Dashboard.navEffect, Dashboard.filterEffect,
    Dashboard.thrown, Dashboard.isSome, error, data,
    andThen, upd, emit, skip in *.

Section DashboardRuns.
Variable toLowerCase : jsstring -> jsstring.

Lemma creationSingleFlight_step (ev : Dashboard.Event) (s : Dashboard.State) :
  creationSingleFlight s ->
  creationSingleFlight (fst (Dashboard.step toLowerCase ev s)).
Proof.
  unfold creationSingleFlight.
  destruct s as [pr cs fc sq sm nt nd ld cr us al ps cn ci so].
  destruct ev; dashboard_unfold; cbn in *; intros H; split_ifs;
    try lia; try congruence.
  all: try destruct cr; cbn in *;
    rewrite ?orb_true_r, ?andb_false_r in *; cbn in *;
    try lia; try discriminate.
  all: match goal with
       | Q : match (if ?c then _ else _) with _ => _ end = true |- _ =>
           destruct c; cbn in Q; rewrite ?andb_false_r in Q; discriminate Q
       end.
Qed.

Lemma creationSingleFlight_reachable (s : Dashboard.State) :
  dashboardReachable toLowerCase s -> creationSingleFlight s.
Proof.
  intros [u [al [evs ->]]]. unfold Dashboard.run.
  apply (runWith_invariant _ _ (Dashboard.step toLowerCase)
           creationSingleFlight).
  - apply creationSingleFlight_step.
  - unfold creationSingleFlight, Dashboard.mount. dashboard_unfold.
    split_ifs; reflexivity.
Qed.

(** While [creating] is set the submit button does nothing. *)
Lemma creating_blocks_create (s : Dashboard.State) :
  Dashboard.creating s = true ->
  Dashboard.step toLowerCase Dashboard.ClickCreate s = (s, []).
Proof.
  destruct s as [pr cs fc sq sm nt nd ld cr us al ps cn ci so]. cbn.
  intros ->.
  unfold Dashboard.step, Dashboard.when, Dashboard.createEnabled,
    Dashboard.render. cbn.
  destruct (al || ld); [reflexivity|].
  destruct us; [|reflexivity]. destruct pr; [|reflexivity].
  cbn. rewrite orb_true_r, andb_false_r. reflexivity.
Qed.

Lemma filterSettled_step (ev : Dashboard.Event) (s : Dashboard.State) :
  filterSettled toLowerCase s ->
  filterSettled toLowerCase (fst (Dashboard.step toLowerCase ev s)).
Proof.
  unfold filterSettled.
  destruct s as [pr cs fc sq sm nt nd ld cr us al ps cn ci so].
  destruct ev; dashboard_unfold; cbn in *; intros H;
    repeat (cbn in *;
            match goal with
            | |- context [match ?x with _ => _ end] =>
                is_var x;
                lazymatch type of x with
                | list _ => fail
                | _ => destruct x
                end
            | |- context [if ?b then _ else _] =>
                lazymatch b with
                | truthy _ => fail
                | _ => destruct b eqn:?
                end
            end);
    cbn in *; try exact H; try reflexivity.
Qed.

Lemma filterSettled_reachable (s : Dashboard.State) :
  dashboardReachable toLowerCase s -> filterSettled toLowerCase s.
Proof.
  intros [u [al [evs ->]]]. unfold Dashboard.run.
  apply (runWith_invariant _ _ (Dashboard.step toLowerCase)
           (filterSettled toLowerCase)).
  - apply filterSettled_step.
  - unfold filterSettled, Dashboard.mount. dashboard_unfold.
    split_ifs; reflexivity.
Qed.

(** Without a profile row arriving, an unset profile stays unset. *)
Lemma profile_unset_step (ev : Dashboard.Event) (s : Dashboard.State) :
  bringsNoProfile ev ->
  Dashboard.profile s = None ->
  Dashboard.profile (fst (Dashboard.step toLowerCase ev s)) = None.
Proof.
  destruct s as [pr cs fc sq sm nt nd ld cr us al ps cn ci so].
  destruct ev; dashboard_unfold; cbn in *; intros K H; split_ifs;
    try congruence; try contradiction.
Qed.

(** Nothing sets [loading] again once it is cleared. *)
Lemma loading_cleared_step (ev : Dashboard.Event) (s : Dashboard.State) :
  Dashboard.loading s = false ->
  Dashboard.loading (fst (Dashboard.step toLowerCase ev s)) = false.
Proof.
  destruct s as [pr cs fc sq sm nt nd ld cr us al ps cn ci so].
  destruct ev; dashboard_unfold; cbn in *; intros H; split_ifs;
    try congruence.
Qed.

Lemma render_without_profile (s : Dashboard.State) :
  Dashboard.profile s = None ->
  Dashboard.render s =
  if Dashboard.authLoading s || Dashboard.loading s
  then Dashboard.Spinner else Dashboard.Blank.
Proof.
  unfold Dashboard.render. intros ->.
  destruct (Dashboard.authLoading s || Dashboard.loading s); [reflexivity|].
  destruct (Dashboard.user s); reflexivity.
Qed.

Lemma profile_unset_run (evs : list Dashboard.Event) (s : Dashboard.State) :
  Forall bringsNoProfile evs ->
  Dashboard.profile s = None ->
  Dashboard.profile (fst (Dashboard.run toLowerCase evs s)) = None /\
  (Dashboard.loading s = false ->
   Dashboard.loading (fst (Dashboard.run toLowerCase evs s)) = false).
Proof.
  unfold Dashboard.run. revert s.
  induction evs as [|ev evs IH]; intros s HF Hp; [now split|].
  inversion HF as [|? ? Hev HF']; subst.
  rewrite runWith_cons.
  destruct (IH _ HF' (profile_unset_step ev s Hev Hp)) as [A B].
  split; [exact A|]. intros Hl. apply B. now apply loading_cleared_step.
Qed.

End DashboardRuns.

(* ------------------------------------------------------------------ *)
(** ** Dashboard without a profile *)

(** C6, as the code has it.  When the profile load answers "no matching
    row", nothing is logged or notified and the profile stays unset; for
    as long as no profile row arrives it stays unset, and the dashboard
    renders the loading indicator while the session or the case load is
    pending and nothing at all ([null]) otherwise, never the main view.
    The [loading] flag is cleared by the answer to the case load and is
    not set again. *)
Theorem dashboard_without_profile_renders_nothing
  (toLowerCase : jsstring -> jsstring)
  (s : Dashboard.State) (e : PostgrestError) (evs : list Dashboard.Event)
  (Hunset : Dashboard.profile s = None)
  (Hcode : code e = lit "PGRST116")
  (Hevs : Forall bringsNoProfile evs) :
  let s1 :=
    fst (Dashboard.step toLowerCase (Dashboard.ProfileAnswer (Failure e)) s) in
  let s2 := fst (Dashboard.run toLowerCase evs s1) in
  snd (Dashboard.step toLowerCase (Dashboard.ProfileAnswer (Failure e)) s)
    = [] /\
  Dashboard.profile s2 = None /\
  Dashboard.render s2 =
    (if Dashboard.authLoading s2 || Dashboard.loading s2
     then Dashboard.Spinner else Dashboard.Blank) /\
  (Dashboard.loading s = false -> Dashboard.loading s2 = false) /\
  (forall r, 0 < Dashboard.caseSelects s2 ->
     Dashboard.loading
       (fst (Dashboard.step toLowerCase (Dashboard.CasesAnswer r) s2))
     = false).
Proof.
  intros s1 s2.
  assert (E1 : Dashboard.step toLowerCase
                 (Dashboard.ProfileAnswer (Failure e)) s =
               (if 0 <? Dashboard.profileSelects s
                then Dashboard.gotProfile s else s, [])).
  { unfold Dashboard.step, Dashboard.when.
    destruct (0 <? Dashboard.profileSelects s); [|reflexivity].
    unfold andThen, upd, Dashboard.fetchProfile_resume.
    rewrite (thrown_noRow _ e Hcode). reflexivity. }
  assert (H1 : Dashboard.profile s1 = None).
  { subst s1. rewrite E1. cbn [fst].
    destruct (0 <? Dashboard.profileSelects s); exact Hunset. }
  assert (L1 : Dashboard.loading s1 = Dashboard.loading s).
  { subst s1. rewrite E1. cbn [fst].
    destruct (0 <? Dashboard.profileSelects s); reflexivity. }
  destruct (profile_unset_run toLowerCase evs s1 Hevs H1) as [H2 L2].
  fold s2 in H2, L2.
  split; [rewrite E1; reflexivity|].
  split; [exact H2|].
  split; [now apply render_without_profile|].
  split; [intros Hl; apply L2; congruence|].
  intros r Hc. unfold Dashboard.step, Dashboard.when.
  apply Nat.ltb_lt in Hc. rewrite Hc.
  destruct r; reflexivity.
Qed.

Lemma dashboard_without_profile_renders_nothing_witness :
  let s := fst (Dashboard.mount asciiLower (Some exampleUser) false) in
  let evs := [Dashboard.CasesAnswer (Success [])] in
  let s2 :=
    fst (Dashboard.run asciiLower evs
           (fst (Dashboard.step asciiLower
                   (Dashboard.ProfileAnswer (Failure noRow)) s))) in
  Dashboard.profile s = None /\ code noRow = lit "PGRST116" /\
  Forall bringsNoProfile evs /\
  Dashboard.profile s2 = None /\
  Dashboard.render s2 =
    (if Dashboard.authLoading s2 || Dashboard.loading s2
     then Dashboard.Spinner else Dashboard.Blank).
Proof.
  intros s evs s2.
  assert (H1 : Dashboard.profile s = None) by reflexivity.
  assert (H2 : code noRow = lit "PGRST116") by reflexivity.
  assert (H3 : Forall bringsNoProfile evs)
    by (constructor; [exact I | constructor]).
  destruct (dashboard_without_profile_renders_nothing
              asciiLower s noRow evs H1 H2 H3) as [_ [A [B _]]].
  split; [exact H1|]. split; [exact H2|]. split; [exact H3|].
  split; [exact A | exact B].
Defined.

(** After the "no matching row" answer and the answer of the case load
    the dashboard shows a blank screen, not the loading indicator. *)
Lemma dashboard_without_profile_is_not_spinner :
  let s :=
    fst (Dashboard.run asciiLower
           [Dashboard.ProfileAnswer (Failure noRow);
            Dashboard.CasesAnswer (Success [])]
           (fst (Dashboard.mount asciiLower (Some exampleUser) false))) in
  Dashboard.profile s = None /\
  Dashboard.loading s = false /\
  Dashboard.render s = Dashboard.Blank /\
  Dashboard.render s <> Dashboard.Spinner.
Proof. repeat split. discriminate. Qed.

(* ------------------------------------------------------------------ *)
(** ** Re-entrant invocation *)

(** C9, as the code has it.  The creation flow and the payment step are
    single-flight: in every reachable state the [creating] (resp.
    [processing]) flag is set exactly while one submission is in flight,
    and while it is set the submit button performs nothing.  The two
    loaders of the dashboard and the loader of the upgrade screen have
    no such guard: with a user present each call issues its request and
    adds one to the awaited answers, whatever the [loading] flag. *)
Theorem creation_and_payment_single_flight_loaders_unguarded
  (toLowerCase : jsstring -> jsstring) :
  (forall s, dashboardReachable toLowerCase s ->
     Dashboard.caseInserts s = (if Dashboard.creating s then 1 else 0) /\
     (Dashboard.creating s = true ->
      Dashboard.step toLowerCase Dashboard.ClickCreate s = (s, [])))
  /\
  (forall p, paymentReachable p ->
     paymentsInFlight p = (if Payment.processing p then 1 else 0) /\
     (Payment.processing p = true ->
      Payment.step Payment.ClickCompletePayment p = (p, [])))
  /\
  (forall s u, Dashboard.user s = Some u ->
     Dashboard.fetchProfile s =
       (Dashboard.awaitProfile s, [SelectProfile (User.id u)]) /\
     Dashboard.fetchCases s =
       (Dashboard.awaitCases s, [SelectCases (User.id u)]))
  /\
  (forall p u, Payment.user p = Some u ->
     snd (Payment.fetchProfile p) = [SelectProfile (User.id u)] /\
     Payment.profileSelects (fst (Payment.fetchProfile p)) =
       S (Payment.profileSelects p)).
Proof.
  split; [|split; [|split]].
  - intros s Hr. split.
    + now apply (creationSingleFlight_reachable toLowerCase).
    + apply creating_blocks_create.
  - intros p Hr. split.
    + now apply paymentSingleFlight_reachable.
    + apply processing_blocks_payment.
  - intros s u H. unfold Dashboard.fetchProfile, Dashboard.fetchCases.
    rewrite H. split; reflexivity.
  - intros p u H. unfold Payment.fetchProfile. rewrite H. split; reflexivity.
Qed.

Lemma creation_and_payment_single_flight_loaders_unguarded_witness :
  let s :=
    fst (Dashboard.run asciiLower
           [Dashboard.ProfileAnswer (Success (exampleProfile false));
            Dashboard.CasesAnswer (Success []);
            Dashboard.ClickNewCase;
            Dashboard.TypeTitle (lit "Smith v. Jones");
            Dashboard.ClickCreate]
           (fst (Dashboard.mount asciiLower (Some exampleUser) false))) in
  dashboardReachable asciiLower s /\
  Dashboard.creating s = true /\
  Dashboard.caseInserts s = 1 /\
  Dashboard.step asciiLower Dashboard.ClickCreate s = (s, []).
Proof.
  intros s.
  assert (Hr : dashboardReachable asciiLower s).
  { exists (Some exampleUser), false,
      [Dashboard.ProfileAnswer (Success (exampleProfile false));
       Dashboard.CasesAnswer (Success []);
       Dashboard.ClickNewCase;
       Dashboard.TypeTitle (lit "Smith v. Jones");
       Dashboard.ClickCreate]. reflexivity. }
  assert (Hc : Dashboard.creating s = true) by reflexivity.
  destruct (creation_and_payment_single_flight_loaders_unguarded asciiLower)
    as [A _].
  destruct (A s Hr) as [E B].
  split; [exact Hr|]. split; [exact Hc|].
  split; [rewrite E, Hc; reflexivity | exact (B Hc)].
Defined.

(** While [loading] is set and both loads are awaited, running the
    loaders again issues both requests a second time. *)
Lemma loaders_issue_second_request_while_loading :
  let s := fst (Dashboard.mount asciiLower (Some exampleUser) false) in
  let again := Dashboard.step asciiLower
                 (Dashboard.AuthUser (Some exampleUser)) s in
  Dashboard.loading s = true /\
  Dashboard.profileSelects s = 1 /\ Dashboard.caseSelects s = 1 /\
  snd (Dashboard.fetchProfile s) = [SelectProfile (lit "u1")] /\
  snd (Dashboard.fetchCases s) = [SelectCases (lit "u1")] /\
  snd again = [SelectProfile (lit "u1"); SelectCases (lit "u1")] /\
  Dashboard.profileSelects (fst again) = 2 /\
  Dashboard.caseSelects (fst again) = 2.
Proof. repeat split. Qed.

(* ------------------------------------------------------------------ *)
(** ** Scenarios *)

(** Clicking the enabled submit button and receiving the inserted row:
    the row is put in front of the list held at the click, the filtered
    list follows, and exactly one request has been made. *)
Lemma create_case_click_then_answer
  (toLowerCase : jsstring -> jsstring) (s : Dashboard.State) (d : Case.t) :
  Dashboard.createEnabled s = true ->
  let click := Dashboard.step toLowerCase Dashboard.ClickCreate s in
  let answer :=
    Dashboard.step toLowerCase (Dashboard.InsertAnswer (Success d))
      (fst click) in
  (exists row, snd click = [InsertCase row]) /\
  Dashboard.creating (fst click) = true /\
  Dashboard.cases (fst answer) = d :: Dashboard.cases s /\
  Dashboard.filteredCases (fst answer) =
    Dashboard.filterCases toLowerCase (d :: Dashboard.cases s)
      (Dashboard.searchQuery s) /\
  Dashboard.showCreateModal (fst answer) = false /\
  Dashboard.creating (fst answer) = false /\
  snd answer = [ToastSuccess (lit "Case created successfully!")].
Proof.
  destruct s as [pr cs fc sq sm nt nd ld cr us al ps cn ci so].
  unfold Dashboard.step, Dashboard.when, Dashboard.createEnabled,
    Dashboard.render. cbn.
  destruct (al || ld); [discriminate|].
  destruct us as [u|]; [|discriminate].
  destruct pr as [p|]; [|discriminate]. cbn.
  intros H. rewrite H.
  apply andb_true_iff in H as [_ H]. apply negb_true_iff in H.
  apply orb_false_iff in H as [Ht _]. apply negb_false_iff in Ht.
  unfold Dashboard.handleCreateCase. cbn.
  unfold trim, trimEnd in Ht. rewrite Ht. cbn.
  split; [eexists; reflexivity|]. repeat split.
Qed.

(** A user without cases creates "Smith v. Jones" with an empty
    description: one card, status active, no files, shown with the
    text "No description provided". *)
Example first_case_scenario :
  let d := Case.mk (lit "c1") (lit "u1") (lit "Smith v. Jones") None active 0
             (lit "2024-05-01") (lit "2024-05-01") in
  let r :=
    Dashboard.run asciiLower
      [Dashboard.ProfileAnswer (Success (exampleProfile false));
       Dashboard.CasesAnswer (Success []);
       Dashboard.ClickNewCase;
       Dashboard.TypeTitle (lit "Smith v. Jones");
       Dashboard.ClickCreate;
       Dashboard.InsertAnswer (Success d)]
      (fst (Dashboard.mount asciiLower (Some exampleUser) false)) in
  filter isRequest (snd r) =
    [InsertCase (CaseInsert.mk (lit "u1") (lit "Smith v. Jones") None
                   active 0)] /\
  Dashboard.cases (fst r) = [d] /\
  match Dashboard.render (fst r) with
  | Dashboard.Main v =>
      Dashboard.view_area v =
        Dashboard.Grid
          [Dashboard.mkCard (lit "Smith v. Jones") active
             (lit "bg-green-100 text-green-800 border-green-200")
             (lit "No description provided") 0 (lit "2024-05-01")] /\
      Dashboard.view_dialog v = false
  | _ => False
  end.
Proof. vm_compute. repeat split. Qed.

Example trim_strips_both_ends :
  trim (lit "  Smith v. Jones  ") = lit "Smith v. Jones".
Proof. reflexivity. Qed.

Example email_accepts_several_dots :
  Regex.test Regex.emailRegex (lit "a.b@mail.example.org") = true /\
  Regex.test Regex.emailRegex (lit "a@b") = false /\
  Regex.test Regex.emailRegex (lit "a b@c.d") = false /\
  Regex.test Regex.emailRegex (lit "a@@c.d") = false.
Proof. repeat split. Qed.

(* ================================================================== *)
(** * Further properties of the screens *)

(* ------------------------------------------------------------------ *)
(** ** Trimming *)

Lemma trimStart_suffix (s : jsstring) :
  exists pre, s = pre ++ trimStart s.
Proof.
  induction s as [|c s [pre IH]]; simpl.
  - now exists [].
  - destruct (isWhiteSpace c).
    + exists (c :: pre). simpl. now rewrite <- IH.
    + now exists [].
Qed.

Lemma trimStart_fixed (s : jsstring) :
  (forall c r, s = c :: r -> isWhiteSpace c = false) -> trimStart s = s.
Proof.
  destruct s as [|c s]; [reflexivity|]. intros H. simpl.
  now rewrite (H c s eq_refl).
Qed.

Lemma trim_noOuterSpace (s : jsstring) : noOuterSpace (trim s).
Proof.
  unfold trim, trimEnd.
  set (a := trimStart s).
  set (b := trimStart (rev a)).
  assert (Hb : b = [] \/ exists c r, b = c :: r /\ isWhiteSpace c = false)
    by apply trimStart_head.
  assert (Ha : a = [] \/ exists c r, a = c :: r /\ isWhiteSpace c = false)
    by apply trimStart_head.
  destruct (trimStart_suffix (rev a)) as [pre Hpre]. fold b in Hpre.
  split.
  - intros c r E.
    (* the first unit of [rev b] is the last of [b], the last of [rev a],
       the first of [a] *)
    destruct Ha as [Ea | [c0 [r0 [Ea Hc0]]]].
    + rewrite Ea in Hpre. simpl in Hpre.
      symmetry in Hpre. apply app_eq_nil in Hpre as [_ Hb0].
      rewrite Hb0 in E. discriminate.
    + apply (f_equal (@rev N)) in Hpre. rewrite rev_involutive in Hpre.
      rewrite rev_app_distr, E, Ea in Hpre. simpl in Hpre.
      injection Hpre as <- _. exact Hc0.
  - intros r c E.
    destruct Hb as [Eb | [c0 [r0 [Eb Hc0]]]].
    + rewrite Eb in E. simpl in E. symmetry in E.
      apply app_eq_nil in E as [_ E]. discriminate.
    + rewrite Eb in E. simpl in E.
      apply app_inj_tail in E as [_ <-]. exact Hc0.
Qed.

Lemma trim_idempotent (s : jsstring) : trim (trim s) = trim s.
Proof.
  destruct (trim_noOuterSpace s) as [Hh Hl].
  unfold trim at 1, trimEnd.
  rewrite (trimStart_fixed (trim s) Hh).
  rewrite trimStart_fixed; [apply rev_involutive|].
  intros c r E. apply (Hl (rev r) c).
  apply (f_equal (@rev N)) in E. rewrite rev_involutive in E. exact E.
Qed.

(* ------------------------------------------------------------------ *)
(** ** Dashboard: what is submitted *)

(** X4.  The row the creation flow submits is well formed: its title is
    the trimmed input, not empty and without white space at either end;
    its description is either null or a non-empty string without white
    space at either end (an empty or blank description is sent as null,
    never as an empty string); its status is [active] and its file count
    0; and it is owned by the user present. *)
Theorem submitted_case_is_well_formed
  (s : Dashboard.State) (row : CaseInsert.t)
  (Hsub : In (InsertCase row) (snd (Dashboard.handleCreateCase s))) :
  CaseInsert.title row = trim (Dashboard.newCaseTitle s) /\
  CaseInsert.title row <> [] /\
  noOuterSpace (CaseInsert.title row) /\
  (CaseInsert.description row = None /\
   forallb isWhiteSpace (Dashboard.newCaseDescription s) = true
   \/
   exists d, CaseInsert.description row = Some d /\
             d = trim (Dashboard.newCaseDescription s) /\
             d <> [] /\ noOuterSpace d) /\
  CaseInsert.status row = active /\
  CaseInsert.file_count row = 0%Z /\
  exists u, Dashboard.user s = Some u /\
            CaseInsert.user_id row = User.id u.
Proof.
  unfold Dashboard.handleCreateCase in Hsub.
  destruct (Dashboard.user s) as [u|]; [|destruct Hsub].
  destruct (truthy (trim (Dashboard.newCaseTitle s))) eqn:Et;
    cbn in Hsub; [|destruct Hsub].
  destruct Hsub as [E|[]]. injection E as <-. cbn.
  split; [reflexivity|].
  split; [now apply truthy_true_iff|].
  split; [apply trim_noOuterSpace|].
  split.
  - destruct (truthy (trim (Dashboard.newCaseDescription s))) eqn:Ed.
    + right. eexists. split; [reflexivity|]. split; [reflexivity|].
      split; [now apply truthy_true_iff | apply trim_noOuterSpace].
    + left. split; [reflexivity|].
      apply trim_nil_iff. now apply truthy_false_iff.
  - split; [reflexivity|]. split; [reflexivity|]. now exists u.
Qed.

Lemma submitted_case_is_well_formed_witness :
  let s := Dashboard.setNewCaseDescription (lit "   ")
             (Dashboard.setNewCaseTitle (lit "  Smith v. Jones ")
                (Dashboard.init (Some exampleUser) false)) in
  let row := CaseInsert.mk (lit "u1") (lit "Smith v. Jones") None active 0 in
  In (InsertCase row) (snd (Dashboard.handleCreateCase s)) /\
  CaseInsert.title row <> [] /\ noOuterSpace (CaseInsert.title row).
Proof.
  intros s row.
  assert (H : In (InsertCase row) (snd (Dashboard.handleCreateCase s)))
    by (left; reflexivity).
  destruct (submitted_case_is_well_formed s row H) as [_ [A [B _]]].
  split; [exact H|]. split; [exact A | exact B].
Defined.

(* ------------------------------------------------------------------ *)
(** ** Dashboard: runs *)

Ltac in_cases :=
  repeat match goal with
    | H : In _ _ |- _ => destruct H as [<-|H]
    | H : False |- _ => destruct H
    end.

(** X2.  The answer to the case load always clears [loading], and
    [loading] stays cleared whatever happens next.  A successful answer
    replaces the whole case list by the rows received (a second load
    supersedes the first) and refilters it, without any notification; a
    failed answer leaves the case list and the filtered list as they
    were, logs the error and shows "Failed to load cases".  The profile
    is not touched either way. *)
Theorem case_load_answer_replaces_list_and_clears_loading
  (toLowerCase : jsstring -> jsstring)
  (s : Dashboard.State) (r : PostgrestResponse (list Case.t))
  (evs : list Dashboard.Event)
  (Hawait : 0 < Dashboard.caseSelects s) :
  let a := Dashboard.step toLowerCase (Dashboard.CasesAnswer r) s in
  Dashboard.loading (fst a) = false /\
  Dashboard.loading (fst (Dashboard.run toLowerCase evs (fst a))) = false /\
  Dashboard.profile (fst a) = Dashboard.profile s /\
  match r with
  | Success d =>
      Dashboard.cases (fst a) = d /\
      Dashboard.filteredCases (fst a) =
        Dashboard.filterCases toLowerCase d (Dashboard.searchQuery s) /\
      snd a = []
  | Failure e =>
      Dashboard.cases (fst a) = Dashboard.cases s /\
      Dashboard.filteredCases (fst a) = Dashboard.filteredCases s /\
      snd a = [ConsoleError (lit "Error fetching cases:") e;
               ToastError (lit "Failed to load cases")]
  end.
Proof.
  intros a.
  assert (L : Dashboard.loading (fst a) = false).
  { subst a. unfold Dashboard.step, Dashboard.when.
    apply Nat.ltb_lt in Hawait. rewrite Hawait. destruct r; reflexivity. }
  split; [exact L|]. split.
  - unfold Dashboard.run.
    apply (runWith_invariant _ _ (Dashboard.step toLowerCase)
             (fun x => Dashboard.loading x = false)); [|exact L].
    intros ev x. apply loading_cleared_step.
  - subst a. unfold Dashboard.step, Dashboard.when.
    apply Nat.ltb_lt in Hawait. rewrite Hawait.
    destruct r; repeat split.
Qed.

Lemma case_load_answer_replaces_list_and_clears_loading_witness :
  let s := fst (Dashboard.mount asciiLower (Some exampleUser) false) in
  let rows := [exampleCase "Smith v. Jones" None] in
  0 < Dashboard.caseSelects s /\
  Dashboard.loading s = true /\
  Dashboard.loading
    (fst (Dashboard.step asciiLower (Dashboard.CasesAnswer (Success rows)) s))
    = false /\
  Dashboard.cases
    (fst (Dashboard.step asciiLower (Dashboard.CasesAnswer (Success rows)) s))
    = rows.
Proof.
  intros s rows.
  assert (H : 0 < Dashboard.caseSelects s) by (cbn; lia).
  destruct (case_load_answer_replaces_list_and_clears_loading
              asciiLower s (Success rows) [] H) as [A [_ [_ [B _]]]].
  split; [exact H|]. split; [reflexivity|]. split; [exact A | exact B].
Defined.

Lemma dashboard_step_requests
  (toLowerCase : jsstring -> jsstring)
  (ev : Dashboard.Event) (s : Dashboard.State) :
  Forall
    (dashboardRequestFor
       (Dashboard.user (fst (Dashboard.step toLowerCase ev s))))
    (snd (Dashboard.step toLowerCase ev s)).
Proof.
  destruct s as [pr cs fc sq sm nt nd ld cr us al ps cn ci so].
  destruct ev; dashboard_unfold; cbn; split_ifs;
    repeat constructor; intros uid Hu; try discriminate;
    injection Hu as <-; eexists; split; reflexivity.
Qed.

(** X3.  Every request the dashboard makes is made for the user
    present: whatever the event and the state, a profile select, a case
    select or an insert among the effects of the step carries the id of
    the user held after the step; and the dashboard never issues a
    profile update, a sign-up or a sign-in. *)
Theorem dashboard_requests_are_for_the_user_present
  (toLowerCase : jsstring -> jsstring)
  (ev : Dashboard.Event) (s : Dashboard.State) (e : Effect)
  (Hin : In e (snd (Dashboard.step toLowerCase ev s))) :
  (forall uid, requestUser e = Some uid ->
     exists u,
       Dashboard.user (fst (Dashboard.step toLowerCase ev s)) = Some u /\
       uid = User.id u) /\
  match e with
  | UpdateIsPro _ | SignUp _ _ _ _ | SignIn _ _ | SetTimeout _ => False
  | _ => True
  end.
Proof.
  pose proof (dashboard_step_requests toLowerCase ev s) as F.
  rewrite Forall_forall in F. exact (F e Hin).
Qed.

Lemma dashboard_requests_are_for_the_user_present_witness :
  let s := Dashboard.init None true in
  let ev := Dashboard.AuthUser (Some exampleUser) in
  In (SelectCases (lit "u1")) (snd (Dashboard.step asciiLower ev s)) /\
  exists u,
    Dashboard.user (fst (Dashboard.step asciiLower ev s)) = Some u /\
    lit "u1" = User.id u.
Proof.
  intros s ev.
  assert (H : In (SelectCases (lit "u1"))
                (snd (Dashboard.step asciiLower ev s)))
    by (right; left; reflexivity).
  split; [exact H|].
  exact (proj1 (dashboard_requests_are_for_the_user_present
                  asciiLower ev s _ H) (lit "u1") eq_refl).
Defined.

Lemma runWith_two (St Ev : Type) (step : Ev -> Act St)
  (a b : Ev) (s : St) :
  runWith step [a; b] s =
  (fst (step b (fst (step a s))),
   snd (step a s) ++ snd (step b (fst (step a s)))).
Proof.
  cbn [runWith]. unfold andThen, skip.
  destruct (step a s) as [s1 e1]. cbn [fst snd].
  destruct (step b s1) as [s2 e2]. cbn [fst snd].
  now rewrite app_nil_r.
Qed.

Lemma runWith_three (St Ev : Type) (step : Ev -> Act St)
  (a b c : Ev) (s : St) :
  let s1 := fst (step a s) in
  let s2 := fst (step b s1) in
  runWith step [a; b; c] s =
  (fst (step c s2),
   snd (step a s) ++ snd (step b s1) ++ snd (step c s2)).
Proof.
  cbn [runWith]. unfold andThen, skip.
  destruct (step a s) as [s1 e1]. cbn [fst snd].
  destruct (step b s1) as [s2 e2]. cbn [fst snd].
  destruct (step c s2) as [s3 e3]. cbn [fst snd].
  now rewrite app_nil_r.
Qed.

(** What an enabled submit button tells about the state. *)
Lemma createEnabled_inv (s : Dashboard.State) :
  Dashboard.createEnabled s = true ->
  exists u p,
    Dashboard.user s = Some u /\ Dashboard.profile s = Some p /\
    Dashboard.showCreateModal s = true /\
    truthy (trim (Dashboard.newCaseTitle s)) = true /\
    Dashboard.creating s = false /\
    Dashboard.authLoading s || Dashboard.loading s = false.
Proof.
  unfold Dashboard.createEnabled, Dashboard.render.
  destruct (Dashboard.authLoading s || Dashboard.loading s); [discriminate|].
  destruct (Dashboard.user s) as [u|]; [|discriminate].
  destruct (Dashboard.profile s) as [p|]; [|discriminate]. cbn.
  intros H. apply andb_true_iff in H as [Hm H]. apply negb_true_iff in H.
  apply orb_false_iff in H as [Ht Hc]. apply negb_false_iff in Ht.
  exists u, p. repeat split; assumption.
Qed.

(** X5.  A creation that the store refuses leaves the dashboard exactly
    in the state it had before the click on the enabled submit button
    (same list, same inputs, dialog still open, flag cleared, nothing
    awaited), having made one insert request, logged the error and shown
    "Failed to create case". *)
Theorem refused_creation_restores_the_state
  (toLowerCase : jsstring -> jsstring)
  (s : Dashboard.State) (e : PostgrestError)
  (Henabled : Dashboard.createEnabled s = true) :
  exists row,
    Dashboard.run toLowerCase
      [Dashboard.ClickCreate; Dashboard.InsertAnswer (Failure e)] s =
    (s, [InsertCase row;
         ConsoleError (lit "Error creating case:") e;
         ToastError (lit "Failed to create case")]) /\
    Dashboard.showCreateModal s = true.
Proof.
  destruct (createEnabled_inv s Henabled) as [u [p [Hu [Hp [Hm [Ht [Hc Hl]]]]]]].
  unfold Dashboard.run. rewrite runWith_two.
  assert (E1 : Dashboard.step toLowerCase Dashboard.ClickCreate s =
               Dashboard.handleCreateCase s).
  { unfold Dashboard.step, Dashboard.when. now rewrite Henabled. }
  rewrite E1. unfold Dashboard.handleCreateCase. rewrite Hu, Ht.
  clear E1 Henabled.
  destruct s as [pr cs fc sq sm nt nd ld cr us al ps cn ci so].
  cbn in Hm, Hc. subst sm cr.
  eexists. split; reflexivity.
Qed.

Lemma refused_creation_restores_the_state_witness :
  Dashboard.createEnabled dialogWithTitle = true /\
  fst (Dashboard.run asciiLower
         [Dashboard.ClickCreate; Dashboard.InsertAnswer (Failure otherError)]
         dialogWithTitle) = dialogWithTitle.
Proof.
  assert (H : Dashboard.createEnabled dialogWithTitle = true)
    by (vm_compute; reflexivity).
  destruct (refused_creation_restores_the_state asciiLower dialogWithTitle
              otherError H) as [row [E _]].
  split; [exact H|]. rewrite E. reflexivity.
Defined.

Lemma filterCases_nil_iff
  (toLowerCase : jsstring -> jsstring) (L : list Case.t) (q : jsstring) :
  toLowerCase [] = [] ->
  Dashboard.filterCases toLowerCase L q = [] <->
  forall c, In c L -> ~ caseContains toLowerCase q c.
Proof.
  intros H0. split.
  - intros E c Hc Hm.
    assert (Hin : In c (Dashboard.filterCases toLowerCase L q))
      by (apply filterCases_In; auto).
    rewrite E in Hin. exact Hin.
  - intros H.
    destruct (Dashboard.filterCases toLowerCase L q) as [|c r] eqn:E;
      [reflexivity|].
    assert (Hin : In c (Dashboard.filterCases toLowerCase L q))
      by (rewrite E; now left).
    apply filterCases_In in Hin as [Hc Hm]; [|exact H0].
    now destruct (H c Hc).
Qed.

(** X13.  Logging out from the main view asks the session provider to
    sign out and, when the answer comes, leaves every cell of the
    dashboard as it was: on success it navigates to the home page and
    shows "Logged out successfully", on failure it only shows "Failed to
    logout" and stays.  The button has no in-progress guard: pressed
    twice, it asks to sign out twice. *)
Theorem logout_keeps_state_and_is_not_guarded
  (toLowerCase : jsstring -> jsstring)
  (s : Dashboard.State) (resolved : bool)
  (Hmain : Dashboard.mainShown s = true) :
  Dashboard.run toLowerCase
    [Dashboard.ClickLogout; Dashboard.SignOutAnswer resolved] s =
  (s, SignOut ::
      (if resolved
       then [Navigate (lit "/"); ToastSuccess (lit "Logged out successfully")]
       else [ToastError (lit "Failed to logout")])) /\
  snd (Dashboard.run toLowerCase
         [Dashboard.ClickLogout; Dashboard.ClickLogout] s) =
  [SignOut; SignOut].
Proof.
  assert (M : forall x, Dashboard.mainShown (Dashboard.awaitSignOut x) =
                        Dashboard.mainShown x) by reflexivity.
  assert (E1 : Dashboard.step toLowerCase Dashboard.ClickLogout s =
               (Dashboard.awaitSignOut s, [SignOut])).
  { unfold Dashboard.step, Dashboard.when. now rewrite Hmain. }
  unfold Dashboard.run. rewrite !runWith_two, E1. cbn [fst snd].
  split.
  - unfold Dashboard.step, Dashboard.when.
    destruct s as [pr cs fc sq sm nt nd ld cr us al ps cn ci so].
    destruct resolved; reflexivity.
  - unfold Dashboard.step, Dashboard.when. rewrite M, Hmain. reflexivity.
Qed.

Lemma logout_keeps_state_and_is_not_guarded_witness :
  Dashboard.mainShown dialogWithTitle = true /\
  Dashboard.run asciiLower
    [Dashboard.ClickLogout; Dashboard.SignOutAnswer false] dialogWithTitle =
  (dialogWithTitle, [SignOut; ToastError (lit "Failed to logout")]).
Proof.
  assert (H : Dashboard.mainShown dialogWithTitle = true)
    by (vm_compute; reflexivity).
  split; [exact H|].
  exact (proj1 (logout_keeps_state_and_is_not_guarded asciiLower
                  dialogWithTitle false H)).
Defined.

(** X15.  Neither screen ever unsets the profile it holds.  On the
    dashboard the profile after an event is the profile before it, or
    the row brought by a profile answer that was awaited; on the upgrade
    screen it is the profile before, the row brought by an awaited
    profile answer, or the profile before with its Pro flag set.  Hence
    in any run a profile that is set stays set, also when the session
    user is replaced or signs out. *)
Theorem profile_is_replaced_or_patched_never_unset
  (toLowerCase : jsstring -> jsstring) :
  (forall ev s,
     Dashboard.profile (fst (Dashboard.step toLowerCase ev s)) =
     match ev with
     | Dashboard.ProfileAnswer (Success d) =>
         if 0 <? Dashboard.profileSelects s then Some d
         else Dashboard.profile s
     | _ => Dashboard.profile s
     end) /\
  (forall ev p,
     Payment.profile (fst (Payment.step ev p)) =
     match ev with
     | Payment.ProfileAnswer (Success d) =>
         if 0 <? Payment.profileSelects p then Some d
         else Payment.profile p
     | Payment.UpdateAnswer None =>
         if 0 <? Payment.updates p
         then option_map Payment.markPro (Payment.profile p)
         else Payment.profile p
     | _ => Payment.profile p
     end) /\
  (forall evs s,
     Dashboard.profile s <> None ->
     Dashboard.profile (fst (Dashboard.run toLowerCase evs s)) <> None) /\
  (forall evs p,
     Payment.profile p <> None ->
     Payment.profile (fst (Payment.run evs p)) <> None).
Proof.
  assert (A : forall ev s,
     Dashboard.profile (fst (Dashboard.step toLowerCase ev s)) =
     match ev with
     | Dashboard.ProfileAnswer (Success d) =>
         if 0 <? Dashboard.profileSelects s then Some d
         else Dashboard.profile s
     | _ => Dashboard.profile s
     end).
  { intros ev s.
    destruct s as [pr cs fc sq sm nt nd ld cr us al ps cn ci so].
    destruct ev; dashboard_unfold; cbn; split_ifs; reflexivity. }
  assert (B : forall ev p,
     Payment.profile (fst (Payment.step ev p)) =
     match ev with
     | Payment.ProfileAnswer (Success d) =>
         if 0 <? Payment.profileSelects p then Some d
         else Payment.profile p
     | Payment.UpdateAnswer None =>
         if 0 <? Payment.updates p
         then option_map Payment.markPro (Payment.profile p)
         else Payment.profile p
     | _ => Payment.profile p
     end).
  { intros ev p.
    destruct p as [pr st ld pc us al ps tm up].
    destruct ev; payment_unfold; cbn; split_ifs; reflexivity. }
  split; [exact A|]. split; [exact B|]. split.
  - intros evs s. unfold Dashboard.run.
    apply (runWith_invariant _ _ (Dashboard.step toLowerCase)
             (fun x => Dashboard.profile x <> None)).
    intros ev x Hx. rewrite A.
    destruct ev; try exact Hx.
    destruct r; [|exact Hx].
    destruct (0 <? Dashboard.profileSelects x); [discriminate | exact Hx].
  - intros evs p. unfold Payment.run.
    apply (runWith_invariant _ _ Payment.step
             (fun x => Payment.profile x <> None)).
    intros ev x Hx. rewrite B.
    destruct ev; try exact Hx.
    + destruct r; [|exact Hx].
      destruct (0 <? Payment.profileSelects x); [discriminate | exact Hx].
    + destruct err; [exact Hx|].
      destruct (0 <? Payment.updates x); [|exact Hx].
      destruct (Payment.profile x); [discriminate | exact Hx].
Qed.

Lemma profile_is_replaced_or_patched_never_unset_witness :
  Dashboard.profile dialogWithTitle <> None /\
  Dashboard.profile
    (fst (Dashboard.run asciiLower
            [Dashboard.AuthUser None;
             Dashboard.ProfileAnswer (Failure otherError);
             Dashboard.ClickLogout] dialogWithTitle)) <> None.
Proof.
  assert (H : Dashboard.profile dialogWithTitle <> None) by discriminate.
  split; [exact H|].
  destruct (profile_is_replaced_or_patched_never_unset asciiLower)
    as [_ [_ [C _]]].
  exact (C _ dialogWithTitle H).
Defined.

(* ------------------------------------------------------------------ *)
(** ** Upgrade screen: runs *)

Lemma runWith_effects (St Ev : Type) (step : Ev -> Act St)
  (P : St -> Prop) (A : Ev -> Prop) (Q : Effect -> Prop) :
  (forall ev s, A ev -> P s ->
     P (fst (step ev s)) /\ Forall Q (snd (step ev s))) ->
  forall evs s, Forall A evs -> P s ->
    P (fst (runWith step evs s)) /\ Forall Q (snd (runWith step evs s)).
Proof.
  intros Hstep evs; induction evs as [|ev evs IH]; intros s HA Hs.
  - split; [exact Hs | constructor].
  - inversion HA as [|? ? Ha HA']; subst.
    destruct (Hstep ev s Ha Hs) as [H1 Q1].
    cbn [runWith]. unfold andThen.
    destruct (step ev s) as [s1 e1]. cbn [fst snd] in *.
    destruct (IH s1 HA' H1) as [H2 Q2].
    destruct (runWith step evs s1) as [s2 e2]. cbn [fst snd] in *.
    split; [exact H2 | now apply Forall_app].
Qed.

Lemma paymentStepInRange_step (ev : Payment.Event) (s : Payment.State) :
  paymentStepInRange s -> paymentStepInRange (fst (Payment.step ev s)).
Proof.
  unfold paymentStepInRange. destruct s as [pr st ld pc us al ps tm up].
  destruct ev; payment_unfold; cbn in *; intros [R H]; split_ifs;
    try (split; [lia | intros; try discriminate; auto]).
  all: try match goal with
       | Q : match (if ?c then _ else _) with _ => _ end = true |- _ =>
           destruct c; try discriminate Q
       end.
  all: repeat match goal with
       | Q : context [if ?c then _ else _] |- _ =>
           destruct c eqn:?; cbn in Q; try discriminate Q
       end.
  all: try match goal with
       | Q : (_ =? 2)%Z = true |- _ => apply Z.eqb_eq in Q; subst; reflexivity
       end.
  all: subst; cbn in *; discriminate.
Qed.

Lemma paymentStepInRange_reachable (s : Payment.State) :
  paymentReachable s -> paymentStepInRange s.
Proof.
  intros [u [al [evs ->]]]. unfold Payment.run.
  apply (runWith_invariant _ _ Payment.step paymentStepInRange).
  - apply paymentStepInRange_step.
  - unfold paymentStepInRange, Payment.mount. payment_unfold.
    split_ifs; (split; [lia | discriminate]).
Qed.

(** What the views of the upgrade screen tell about the state. *)
Lemma shows_offer_inv (s : Payment.State) :
  Payment.shows (Payment.Upgrade (Some Payment.Offer)) s = true ->
  Payment.paymentStep s = 1%Z.
Proof.
  unfold Payment.shows, Payment.render.
  destruct (Payment.authLoading s || Payment.loading s); [discriminate|].
  destruct (Payment.user s); [|discriminate].
  destruct (Payment.profile s) as [p|]; [|discriminate].
  destruct (Profile.is_pro p); [discriminate|].
  destruct (Payment.paymentStep s =? 1)%Z eqn:E; [now apply Z.eqb_eq in E|].
  destruct (Payment.paymentStep s =? 2)%Z; [discriminate|].
  destruct (Payment.paymentStep s =? 3)%Z; discriminate.
Qed.

Lemma shows_mock_inv (s : Payment.State) :
  Payment.shows (Payment.Upgrade (Some (Payment.MockPayment false))) s
    = true ->
  exists u p,
    Payment.user s = Some u /\ Payment.profile s = Some p /\
    Profile.is_pro p = false /\
    Payment.paymentStep s = 2%Z /\ Payment.processing s = false /\
    Payment.authLoading s || Payment.loading s = false.
Proof.
  unfold Payment.shows, Payment.render.
  destruct (Payment.authLoading s || Payment.loading s); [discriminate|].
  destruct (Payment.user s) as [u|]; [|discriminate].
  destruct (Payment.profile s) as [p|]; [|discriminate].
  destruct (Profile.is_pro p) eqn:Ep; [discriminate|].
  destruct (Payment.paymentStep s =? 1)%Z eqn:E1; [discriminate|].
  destruct (Payment.paymentStep s =? 2)%Z eqn:E2.
  - apply Z.eqb_eq in E2. intros H.
    destruct (Payment.processing s); [discriminate|].
    exists u, p. repeat split; assumption.
  - destruct (Payment.paymentStep s =? 3)%Z; discriminate.
Qed.

(** X8.  In every state the upgrade screen reaches from its first
    render the step is 1, 2 or 3, so one of the three step views is
    always there to render; and while a payment is being processed the
    step is 2: neither button can move the flow away during a payment. *)
Theorem upgrade_step_stays_in_range
  (u : option User.t) (al : bool) (evs : list Payment.Event) :
  let s := fst (Payment.run evs (fst (Payment.mount u al))) in
  (Payment.paymentStep s = 1 \/ Payment.paymentStep s = 2 \/
   Payment.paymentStep s = 3)%Z /\
  (Payment.processing s = true -> Payment.paymentStep s = 2%Z) /\
  Payment.render s <> Payment.Upgrade None.
Proof.
  intros s.
  assert (I : paymentStepInRange s).
  { apply paymentStepInRange_reachable. now exists u, al, evs. }
  destruct I as [R H]. split; [exact R|]. split; [exact H|].
  unfold Payment.render.
  destruct (Payment.authLoading s || Payment.loading s); [discriminate|].
  destruct (Payment.user s); [|discriminate].
  destruct (Payment.profile s) as [p|]; [|discriminate].
  destruct (Profile.is_pro p); [discriminate|].
  destruct R as [E|[E|E]]; rewrite E; discriminate.
Qed.

Lemma upgrade_step_stays_in_range_witness :
  let evs := [Payment.ProfileAnswer (Success (exampleProfile false));
              Payment.ClickUpgradeNow; Payment.ClickCompletePayment;
              Payment.ClickBack; Payment.ClickUpgradeNow] in
  let s := fst (Payment.run evs (fst (Payment.mount (Some exampleUser) false)))
  in
  Payment.processing s = true /\ Payment.paymentStep s = 2%Z.
Proof.
  intros evs s.
  assert (H : Payment.processing s = true) by (vm_compute; reflexivity).
  split; [exact H|].
  exact (proj1 (proj2 (upgrade_step_stays_in_range (Some exampleUser) false
                         evs)) H).
Defined.

(** X9.  From the offer, "Upgrade Now" followed by "Back" brings the
    upgrade screen back to exactly the state it was in, without any
    effect. *)
Theorem upgrade_then_back_restores_the_offer
  (s : Payment.State)
  (Hreach : paymentReachable s)
  (Hoffer : Payment.shows (Payment.Upgrade (Some Payment.Offer)) s = true) :
  Payment.run [Payment.ClickUpgradeNow; Payment.ClickBack] s = (s, []) /\
  Payment.render (fst (Payment.step Payment.ClickUpgradeNow s)) =
    Payment.Upgrade (Some (Payment.MockPayment false)).
Proof.
  pose proof (shows_offer_inv s Hoffer) as E1.
  destruct (paymentStepInRange_reachable s Hreach) as [_ Hp].
  assert (Pf : Payment.processing s = false).
  { destruct (Payment.processing s); [|reflexivity].
    specialize (Hp eq_refl). rewrite E1 in Hp. discriminate. }
  unfold Payment.run. rewrite runWith_two.
  assert (S1 : Payment.step Payment.ClickUpgradeNow s =
               (Payment.setPaymentStep 2 s, [])).
  { unfold Payment.step, Payment.when. now rewrite Hoffer. }
  rewrite S1. cbn [fst snd].
  revert Hoffer.
  destruct s as [pr st ld pc us al ps tm up]. cbn in E1, Pf. subst st pc.
  unfold Payment.step, Payment.when, Payment.shows, Payment.render. cbn.
  destruct (al || ld); [discriminate|].
  destruct us; [|discriminate]. destruct pr as [p|]; [|discriminate].
  destruct (Profile.is_pro p); [discriminate|]. intros _. split; reflexivity.
Qed.

Lemma upgrade_then_back_restores_the_offer_witness :
  let s := Payment.setPaymentStep 1 mockPaymentOpen in
  paymentReachable s /\
  Payment.shows (Payment.Upgrade (Some Payment.Offer)) s = true /\
  Payment.run [Payment.ClickUpgradeNow; Payment.ClickBack] s = (s, []).
Proof.
  intros s.
  assert (R : paymentReachable s).
  { exists (Some exampleUser), false,
      [Payment.ProfileAnswer (Success (exampleProfile false))].
    vm_compute. reflexivity. }
  assert (H : Payment.shows (Payment.Upgrade (Some Payment.Offer)) s = true)
    by (vm_compute; reflexivity).
  split; [exact R|]. split; [exact H|].
  exact (proj1 (upgrade_then_back_restores_the_offer s R H)).
Defined.

Lemma idle_when_not_processing (s : Payment.State) :
  paymentReachable s -> Payment.processing s = false ->
  Payment.timers s = [] /\ Payment.updates s = 0.
Proof.
  intros Hr Hp. pose proof (paymentSingleFlight_reachable s Hr) as F.
  unfold paymentSingleFlight, paymentsInFlight in F. rewrite Hp in F.
  destruct (Payment.timers s); [split; [reflexivity | cbn in F; lia]|].
  cbn in F. lia.
Qed.

(** X7.  A payment whose update the store refuses leaves the upgrade
    screen exactly in the state it had before the click on "Complete
    Payment" (step 2, profile not Pro, button enabled again), having
    started the delay, requested the update for the user present, logged
    the error and shown "Payment failed. Please try again.". *)
Theorem refused_payment_restores_the_state
  (s : Payment.State) (e : PostgrestError)
  (Hreach : paymentReachable s)
  (Hshown : Payment.shows
              (Payment.Upgrade (Some (Payment.MockPayment false))) s = true) :
  exists u,
    Payment.user s = Some u /\
    Payment.run
      [Payment.ClickCompletePayment; Payment.TimerFired;
       Payment.UpdateAnswer (Some e)] s =
    (s, [SetTimeout 2000; UpdateIsPro (User.id u);
         ConsoleError (lit "Error processing payment:") e;
         ToastError (lit "Payment failed. Please try again.")]).
Proof.
  destruct (shows_mock_inv s Hshown) as [u [p [Hu [Hp [Hn [Hs [Hpc Hl]]]]]]].
  destruct (idle_when_not_processing s Hreach Hpc) as [Ht Hup].
  exists u. split; [exact Hu|].
  unfold Payment.run. rewrite runWith_three.
  assert (S1 : Payment.step Payment.ClickCompletePayment s =
               Payment.handlePayment s).
  { unfold Payment.step, Payment.when. now rewrite Hshown. }
  rewrite S1. unfold Payment.handlePayment. rewrite Hu, Hp.
  clear S1 Hshown Hreach.
  destruct s as [pr st ld pc us al ps tm up]. cbn in *. subst.
  reflexivity.
Qed.

Lemma refused_payment_restores_the_state_witness :
  paymentReachable mockPaymentOpen /\
  Payment.shows (Payment.Upgrade (Some (Payment.MockPayment false)))
    mockPaymentOpen = true /\
  fst (Payment.run
         [Payment.ClickCompletePayment; Payment.TimerFired;
          Payment.UpdateAnswer (Some otherError)] mockPaymentOpen)
  = mockPaymentOpen.
Proof.
  assert (R : paymentReachable mockPaymentOpen).
  { exists (Some exampleUser), false,
      [Payment.ProfileAnswer (Success (exampleProfile false));
       Payment.ClickUpgradeNow].
    vm_compute. reflexivity. }
  assert (H : Payment.shows
                (Payment.Upgrade (Some (Payment.MockPayment false)))
                mockPaymentOpen = true) by (vm_compute; reflexivity).
  destruct (refused_payment_restores_the_state mockPaymentOpen otherError R H)
    as [u [_ E]].
  split; [exact R|]. split; [exact H|]. rewrite E. reflexivity.
Defined.

Lemma session_events_keep_payment (ev : Payment.Event) (s : Payment.State) :
  sessionEvent ev ->
  Payment.timers (fst (Payment.step ev s)) = Payment.timers s /\
  Payment.updates (fst (Payment.step ev s)) = Payment.updates s /\
  Payment.processing (fst (Payment.step ev s)) = Payment.processing s /\
  Payment.paymentStep (fst (Payment.step ev s)) = Payment.paymentStep s.
Proof.
  destruct s as [pr st ld pc us al ps tm up].
  destruct ev; cbn; try contradiction; intros _;
    payment_unfold; cbn; split_ifs; repeat split.
Qed.

Lemma session_events_keep_timers (evs : list Payment.Event)
  (s : Payment.State) :
  Forall sessionEvent evs ->
  Payment.timers (fst (Payment.run evs s)) = Payment.timers s.
Proof.
  unfold Payment.run. revert s.
  induction evs as [|ev evs IH]; intros s HF; [reflexivity|].
  inversion HF as [|? ? Hev HF']; subst.
  rewrite runWith_cons, IH by exact HF'.
  now apply session_events_keep_payment.
Qed.

Lemma timer_fired_effects (s : Payment.State) :
  snd (Payment.step Payment.TimerFired s) =
  match Payment.timers s with
  | [] => []
  | uid :: _ => [UpdateIsPro uid]
  end.
Proof.
  unfold Payment.step. destruct (Payment.timers s); reflexivity.
Qed.

(** X6.  The update of a payment is requested for the user who pressed
    "Complete Payment": whatever the session provider and the profile
    load do during the delay (the user may be replaced or signed out),
    when the delay ends the request carries the id of the user that was
    present at the click. *)
Theorem payment_update_is_for_the_user_who_clicked
  (s : Payment.State) (u : User.t) (evs : list Payment.Event)
  (Hreach : paymentReachable s)
  (Hshown : Payment.shows
              (Payment.Upgrade (Some (Payment.MockPayment false))) s = true)
  (Huser : Payment.user s = Some u)
  (Hevs : Forall sessionEvent evs) :
  snd (Payment.step Payment.TimerFired
         (fst (Payment.run (Payment.ClickCompletePayment :: evs) s))) =
  [UpdateIsPro (User.id u)].
Proof.
  destruct (shows_mock_inv s Hshown) as [u' [p [Hu [Hp [_ [_ [Hpc _]]]]]]].
  rewrite Huser in Hu. injection Hu as <-.
  destruct (idle_when_not_processing s Hreach Hpc) as [Ht _].
  unfold Payment.run. rewrite runWith_cons.
  assert (S1 : Payment.step Payment.ClickCompletePayment s =
               Payment.handlePayment s).
  { unfold Payment.step, Payment.when. now rewrite Hshown. }
  rewrite S1.
  set (s1 := fst (Payment.handlePayment s)).
  assert (T1 : Payment.timers s1 = [User.id u]).
  { subst s1. unfold Payment.handlePayment. rewrite Huser, Hp. cbn.
    now rewrite Ht. }
  pose proof (session_events_keep_timers evs s1 Hevs) as K.
  unfold Payment.run in K. rewrite T1 in K.
  rewrite timer_fired_effects, K. reflexivity.
Qed.

Lemma payment_update_is_for_the_user_who_clicked_witness :
  let evs := [Payment.AuthUser (Some (User.mk (lit "u2") (lit "b@c.de")));
              Payment.AuthUser None] in
  paymentReachable mockPaymentOpen /\
  Forall sessionEvent evs /\
  Payment.user
    (fst (Payment.run (Payment.ClickCompletePayment :: evs) mockPaymentOpen))
    = None /\
  snd (Payment.step Payment.TimerFired
         (fst (Payment.run (Payment.ClickCompletePayment :: evs)
                 mockPaymentOpen))) =
  [UpdateIsPro (lit "u1")].
Proof.
  intros evs.
  assert (R : paymentReachable mockPaymentOpen).
  { exists (Some exampleUser), false,
      [Payment.ProfileAnswer (Success (exampleProfile false));
       Payment.ClickUpgradeNow].
    vm_compute. reflexivity. }
  assert (F : Forall sessionEvent evs) by (repeat constructor).
  split; [exact R|]. split; [exact F|]. split; [vm_compute; reflexivity|].
  exact (payment_update_is_for_the_user_who_clicked mockPaymentOpen
           exampleUser evs R eq_refl eq_refl F).
Defined.

(** X14.  Without a profile row the upgrade screen never starts a
    payment: in any run from the first render in which no profile row
    arrives, no delay is started and no update is requested, the
    profile stays unset, the step stays 1, and the screen shows the
    loading indicator or nothing. *)
Theorem no_profile_row_no_payment
  (u : option User.t) (al : bool) (evs : list Payment.Event)
  (Hevs : Forall bringsNoProfileRow evs) :
  let r := Payment.run evs (fst (Payment.mount u al)) in
  Forall (fun e => paymentEffect e = false) (snd r) /\
  Payment.profile (fst r) = None /\
  Payment.paymentStep (fst r) = 1%Z /\
  (Payment.render (fst r) = Payment.Spinner \/
   Payment.render (fst r) = Payment.Blank).
Proof.
  intros r.
  set (P := fun s : Payment.State =>
              Payment.profile s = None /\ Payment.paymentStep s = 1%Z /\
              Payment.timers s = [] /\ Payment.updates s = 0).
  assert (Hstep : forall ev s, bringsNoProfileRow ev -> P s ->
            P (fst (Payment.step ev s)) /\
            Forall (fun e => paymentEffect e = false)
              (snd (Payment.step ev s))).
  { intros ev s Hev [Hp [Hs [Ht Hu]]].
    destruct s as [pr st ld pc us al' ps tm up]. cbn in Hp, Hs, Ht, Hu.
    subst pr st tm up. unfold P.
    destruct ev; payment_unfold; cbn in *; try contradiction; split_ifs;
      try contradiction;
      (split; [repeat split | repeat constructor]).
    all: match goal with
         | Q : match (if ?c then _ else _) with _ => _ end = true |- _ =>
             destruct c; discriminate Q
         end. }
  assert (P0 : P (fst (Payment.mount u al))).
  { unfold P, Payment.mount. payment_unfold. split_ifs; repeat split. }
  destruct (runWith_effects _ _ Payment.step P bringsNoProfileRow _
              Hstep evs _ Hevs P0) as [[Hp [Hs _]] Q].
  fold (Payment.run evs (fst (Payment.mount u al))) in Hp, Hs, Q.
  fold r in Hp, Hs, Q.
  split; [exact Q|]. split; [exact Hp|]. split; [exact Hs|].
  unfold Payment.render. rewrite Hp.
  destruct (Payment.authLoading (fst r) || Payment.loading (fst r));
    [now left|].
  right. destruct (Payment.user (fst r)); reflexivity.
Qed.

Lemma no_profile_row_no_payment_witness :
  let evs := [Payment.ProfileAnswer (Failure noRow);
              Payment.ClickUpgradeNow; Payment.ClickCompletePayment;
              Payment.TimerFired] in
  Forall bringsNoProfileRow evs /\
  Payment.paymentStep
    (fst (Payment.run evs (fst (Payment.mount (Some exampleUser) false))))
  = 1%Z.
Proof.
  intros evs.
  assert (F : Forall bringsNoProfileRow evs) by (repeat constructor).
  split; [exact F|].
  exact (proj1 (proj2 (proj2 (no_profile_row_no_payment
                                (Some exampleUser) false evs F)))).
Defined.

(* ------------------------------------------------------------------ *)
(** ** Forms: what is sent to the session provider *)

Lemma notSpaceAt_count (l : jsstring) :
  forallb Regex.notSpaceAt l = true ->
  countAt l = 0 /\ forallb (fun c => negb (isWhiteSpace c)) l = true.
Proof.
  unfold countAt.
  induction l as [|c l IH]; [now split|]. cbn [forallb count_occ].
  intros H. apply andb_true_iff in H as [Hc Hl].
  destruct (IH Hl) as [A B].
  unfold Regex.notSpaceAt in Hc. apply andb_true_iff in Hc as [Hw Ha].
  apply negb_true_iff, N.eqb_neq in Ha.
  split.
  - destruct (N.eq_dec c 64); [contradiction | exact A].
  - now rewrite Hw, B.
Qed.

Lemma emailShaped_facts (e : jsstring) :
  emailShaped e ->
  countAt e = 1 /\
  forallb (fun c => negb (isWhiteSpace c)) e = true /\
  5 <= List.length e /\
  exists l rest, e = l ++ 64%N :: rest /\ l <> [] /\ In 46%N rest.
Proof.
  intros [l [d [t [-> [[Hl Fl] [[Hd Fd] [Ht Ft]]]]]]].
  destruct (notSpaceAt_count l Fl) as [Cl Wl].
  destruct (notSpaceAt_count d Fd) as [Cd Wd].
  destruct (notSpaceAt_count t Ft) as [Ct Wt].
  unfold countAt in *.
  split; [|split; [|split]].
  - rewrite !count_occ_app, Cl, Cd, Ct. reflexivity.
  - rewrite !forallb_app, Wl, Wd, Wt. reflexivity.
  - rewrite !length_app. cbn.
    destruct l; [congruence|]. destruct d; [congruence|].
    destruct t; [congruence|]. cbn. lia.
  - exists l, (d ++ [46%N] ++ t). split; [reflexivity|].
    split; [exact Hl|]. apply in_or_app. right. now left.
Qed.

Lemma validateForm_accepts (s : Register.State) :
  Register.validateForm s = None ->
  allPresent s /\ 6 <= List.length (Register.password s) /\
  Register.password s = Register.confirmPassword s /\
  emailShaped (Register.email s).
Proof.
  unfold Register.validateForm.
  destruct (negb (truthy (Register.firstName s)) || _ || _ || _ || _) eqn:E1;
    [discriminate|].
  destruct (List.length (Register.password s) <? 6) eqn:E2; [discriminate|].
  destruct (JS.eqb (Register.password s) (Register.confirmPassword s)) eqn:E3;
    [|discriminate].
  destruct (Regex.test Regex.emailRegex (Register.email s)) eqn:E4;
    [|discriminate].
  intros _. split; [now apply allPresent_dec|].
  split; [now apply Nat.ltb_ge|].
  split; [now apply eqb_spec | now apply emailRegex_spec].
Qed.

(** X11.  Whatever the registration form sends to [signUp] has passed
    every rule: the four values sent are the ones typed; first and last
    name are not empty; the password has at least 6 code units and is
    equal to its confirmation; the email contains exactly one [@], no
    white space, at least five code units, a non-empty part before the
    [@] and a dot after it. *)
Theorem sign_up_receives_only_validated_input
  (s : Register.State) (em pw fn ln : jsstring)
  (Hsent : In (SignUp em pw fn ln) (snd (Register.handleSubmit s))) :
  (em = Register.email s /\ pw = Register.password s /\
   fn = Register.firstName s /\ ln = Register.lastName s) /\
  fn <> [] /\ ln <> [] /\
  6 <= List.length pw /\ pw = Register.confirmPassword s /\
  countAt em = 1 /\
  forallb (fun c => negb (isWhiteSpace c)) em = true /\
  5 <= List.length em /\
  exists l rest, em = l ++ 64%N :: rest /\ l <> [] /\ In 46%N rest.
Proof.
  unfold Register.handleSubmit, andThen, upd, emit in Hsent. cbn in Hsent.
  change (Register.validateForm
            (Register.setError [] (Register.setLoading true s)))
    with (Register.validateForm s) in Hsent.
  destruct (Register.validateForm s) eqn:V; cbn in Hsent; [destruct Hsent|].
  destruct Hsent as [E|[]]. injection E as <- <- <- <-.
  destruct (validateForm_accepts s V) as [[Hf [Hl _]] [Hp [Hc He]]].
  split; [repeat split|].
  split; [exact Hf|]. split; [exact Hl|]. split; [exact Hp|].
  split; [exact Hc|]. now apply emailShaped_facts.
Qed.

Lemma sign_up_receives_only_validated_input_witness :
  let s := registerForm "asha@lawfirm.com" "secret1" "secret1" in
  In (SignUp (lit "asha@lawfirm.com") (lit "secret1") (lit "Asha")
        (lit "Rao"))
     (snd (Register.handleSubmit s)) /\
  countAt (lit "asha@lawfirm.com") = 1.
Proof.
  intros s.
  assert (H : In (SignUp (lit "asha@lawfirm.com") (lit "secret1")
                    (lit "Asha") (lit "Rao"))
                (snd (Register.handleSubmit s))) by (left; reflexivity).
  split; [exact H|].
  destruct (sign_up_receives_only_validated_input s _ _ _ _ H)
    as [_ [_ [_ [_ [_ [C _]]]]]].
  exact C.
Defined.

(** X16.  A submit and the answer of the session provider never change
    what the user typed, on either form.  After a submit that passes
    validation the form is [loading] with an empty error banner; after
    the answer [loading] is cleared and the banner holds the provider's
    message, or "An unexpected error occurred" when the call was
    rejected, or nothing on success; the only answer that navigates (to
    the dashboard) is success, and an answer never calls the provider
    again. *)
Theorem submit_cycle_keeps_input_and_reports_outcome
  (r : Register.State) (l : Login.State) (o : AuthOutcome) :
  let r1 := fst (Register.handleSubmit r) in
  let r2 := Register.handleSubmit_resume o r1 in
  let l1 := fst (Login.handleSubmit l) in
  let l2 := Login.handleSubmit_resume o l1 in
  (registerInput r1 = registerInput r /\
   registerInput (fst r2) = registerInput r /\
   Register.loading (fst r2) = false /\
   (Register.validateForm r = None ->
    Register.loading r1 = true /\ Register.error r1 = [] /\
    Register.error (fst r2) = bannerAfter o) /\
   (In (Navigate (lit "/dashboard")) (snd r2) <-> o = Resolved None) /\
   existsb isRequest (snd r2) = false)
  /\
  (loginInput l1 = loginInput l /\
   loginInput (fst l2) = loginInput l /\
   Login.loading (fst l2) = false /\
   (Login.email l <> [] -> Login.password l <> [] ->
    Login.loading l1 = true /\ Login.error l1 = [] /\
    Login.error (fst l2) = bannerAfter o) /\
   (In (Navigate (lit "/dashboard")) (snd l2) <-> o = Resolved None) /\
   existsb isRequest (snd l2) = false).
Proof.
  intros r1 r2 l1 l2. split.
  - assert (V : Register.validateForm
                  (Register.setError [] (Register.setLoading true r)) =
                Register.validateForm r) by reflexivity.
    subst r2 r1.
    unfold Register.handleSubmit, Register.handleSubmit_resume,
      andThen, upd, emit. cbn. rewrite V.
    destruct (Register.validateForm r) eqn:E; cbn.
    + destruct o as [[m|]|]; cbn; repeat split; try discriminate;
        try (intros [K|[K|K]]; try discriminate; try contradiction);
        try (intros [K|K]; try discriminate; try contradiction);
        try (intros; right; left; reflexivity).
    + destruct o as [[m|]|]; cbn; repeat split; try discriminate;
        try (intros [K|[K|K]]; try discriminate; try contradiction);
        try (intros [K|K]; try discriminate; try contradiction);
        try (intros; right; left; reflexivity).
  - subst l2 l1.
    unfold Login.handleSubmit, Login.handleSubmit_resume,
      andThen, upd, emit. cbn.
    destruct (Login.email l) as [|c e], (Login.password l) as [|d p]; cbn;
      destruct o as [[m|]|]; cbn; repeat split; try discriminate;
        try congruence;
        try (intros [K|[K|K]]; try discriminate; try contradiction);
        try (intros [K|K]; try discriminate; try contradiction);
        try (intros; right; left; reflexivity).
Qed.

Lemma submit_cycle_keeps_input_and_reports_outcome_witness :
  let r := registerForm "a@b.co" "secret" "secret" in
  let o := Resolved (Some (lit "User already registered")) in
  Register.validateForm r = None /\
  Register.error
    (fst (Register.handleSubmit_resume o (fst (Register.handleSubmit r)))) =
  lit "User already registered".
Proof.
  intros r o.
  assert (V : Register.validateForm r = None) by reflexivity.
  split; [exact V|].
  destruct (submit_cycle_keeps_input_and_reports_outcome r Login.init o)
    as [[_ [_ [_ [H _]]]] _].
  exact (proj2 (proj2 (H V))).
Defined.

(** X12.  The gates do not send a visitor back and forth.  The
    dashboard and the upgrade screen have the same gate; it changes no
    state.  While the session is loading no screen navigates.  Once it
    is loaded exactly one of the two kinds of screen navigates: the
    protected screens send a visitor without a user to the sign-in
    screen, where the gate of the sign-in and sign-up screens does
    nothing, and the latter sends a signed-in visitor to the dashboard,
    where the gate does nothing. *)
Theorem gates_are_complementary
  (s : Dashboard.State) (p : Payment.State)
  (Huser : Payment.user p = Dashboard.user s)
  (Hload : Payment.authLoading p = Dashboard.authLoading s) :
  let protected := snd (Dashboard.navEffect s) in
  let public :=
    AuthScreen.navEffect (Dashboard.user s) (Dashboard.authLoading s) in
  fst (Dashboard.navEffect s) = s /\ fst (Payment.navEffect p) = p /\
  snd (Payment.navEffect p) = protected /\
  (Dashboard.authLoading s = true -> protected = [] /\ public = []) /\
  (Dashboard.authLoading s = false -> Dashboard.user s = None ->
   protected = [Navigate (lit "/login")] /\ public = []) /\
  (Dashboard.authLoading s = false -> Dashboard.user s <> None ->
   protected = [] /\ public = [Navigate (lit "/dashboard")]).
Proof.
  unfold Dashboard.navEffect, Payment.navEffect, AuthScreen.navEffect,
    emit, skip. rewrite Huser, Hload. cbn.
  destruct (Dashboard.authLoading s), (Dashboard.user s); cbn;
    repeat split; try discriminate; try congruence.
Qed.

Lemma gates_are_complementary_witness :
  let s := Dashboard.init None false in
  let p := Payment.init None false in
  Payment.user p = Dashboard.user s /\
  Payment.authLoading p = Dashboard.authLoading s /\
  snd (Dashboard.navEffect s) = [Navigate (lit "/login")] /\
  AuthScreen.navEffect (Dashboard.user s) (Dashboard.authLoading s) = [].
Proof.
  intros s p.
  destruct (gates_are_complementary s p eq_refl eq_refl)
    as [_ [_ [_ [_ [H _]]]]].
  split; [reflexivity|]. split; [reflexivity|].
  exact (H eq_refl eq_refl).
Defined.

(* ------------------------------------------------------------------ *)
(** ** Across functions *)

(** X17.  A case created with a blank description is shown with the
    text "No description provided", and one created with a description
    is shown with that description trimmed: the creation flow submits
    null for a blank description, and the card replaces a null or empty
    description by the fixed text.  (The row shown is the inserted row
    as the store returns it.) *)
Theorem created_case_card_description
  (s : Dashboard.State) (row : CaseInsert.t) (d : Case.t)
  (Hsub : In (InsertCase row) (snd (Dashboard.handleCreateCase s)))
  (Hret : returnsInserted row d) :
  Dashboard.card_title (Dashboard.card d) =
    trim (Dashboard.newCaseTitle s) /\
  Dashboard.card_description (Dashboard.card d) =
    (if forallb isWhiteSpace (Dashboard.newCaseDescription s)
     then lit "No description provided"
     else trim (Dashboard.newCaseDescription s)) /\
  Dashboard.card_description (Dashboard.card d) <> [] /\
  Dashboard.card_files (Dashboard.card d) = 0%Z /\
  Dashboard.card_badge (Dashboard.card d) =
    lit "bg-green-100 text-green-800 border-green-200".
Proof.
  destruct Hret as [_ [Rt [Rd [Rs Rf]]]].
  unfold Dashboard.handleCreateCase in Hsub.
  destruct (Dashboard.user s) as [u|]; [|destruct Hsub].
  destruct (truthy (trim (Dashboard.newCaseTitle s))) eqn:Et;
    cbn in Hsub; [|destruct Hsub].
  destruct Hsub as [E|[]]. injection E as <-. cbn in Rt, Rd, Rs, Rf.
  unfold Dashboard.card. cbn.
  rewrite Rt, Rd, Rs, Rf.
  split; [reflexivity|].
  destruct (truthy (trim (Dashboard.newCaseDescription s))) eqn:Ed.
  - assert (W : forallb isWhiteSpace (Dashboard.newCaseDescription s)
                = false).
    { destruct (forallb isWhiteSpace (Dashboard.newCaseDescription s)) eqn:W;
        [|reflexivity].
      apply trim_nil_iff in W. apply truthy_true_iff in Ed. contradiction. }
    rewrite W, Ed. split; [reflexivity|].
    split; [now apply truthy_true_iff | split; reflexivity].
  - assert (W : forallb isWhiteSpace (Dashboard.newCaseDescription s)
                = true)
      by (apply trim_nil_iff; now apply truthy_false_iff).
    rewrite W. split; [reflexivity|].
    split; [discriminate | split; reflexivity].
Qed.

Lemma created_case_card_description_witness :
  let s := Dashboard.setNewCaseDescription (lit "  ") dialogWithTitle in
  let row := CaseInsert.mk (lit "u1") (lit "Smith v. Jones") None active 0 in
  let d := Case.mk (lit "c9") (lit "u1") (lit "Smith v. Jones") None active 0
             (lit "2024-05-01") (lit "2024-05-01") in
  In (InsertCase row) (snd (Dashboard.handleCreateCase s)) /\
  returnsInserted row d /\
  Dashboard.card_description (Dashboard.card d) =
    lit "No description provided".
Proof.
  intros s row d.
  assert (H : In (InsertCase row) (snd (Dashboard.handleCreateCase s)))
    by (left; reflexivity).
  assert (R : returnsInserted row d) by (repeat split).
  split; [exact H|]. split; [exact R|].
  exact (proj1 (proj2 (created_case_card_description s row d H R))).
Defined.

(** X18.  A payment that succeeds, from the mock payment view of a
    reachable state: the delay is started, the update is requested for
    the user present and "Payment successful! Welcome to Pro!" is shown;
    afterwards the step is 3, the profile is the same profile with its
    Pro flag set, nothing is awaited and [processing] is cleared.  The
    screen then renders the "already Pro" view, not the "Payment
    Successful!" view of step 3, whose button cannot be used; the way
    out is "Back to Dashboard". *)
Theorem successful_payment_ends_on_already_pro
  (s : Payment.State)
  (Hreach : paymentReachable s)
  (Hshown : Payment.shows
              (Payment.Upgrade (Some (Payment.MockPayment false))) s = true) :
  exists u p,
    Payment.user s = Some u /\ Payment.profile s = Some p /\
    let r := Payment.run
               [Payment.ClickCompletePayment; Payment.TimerFired;
                Payment.UpdateAnswer None] s in
    r = (Payment.setPaymentStep 3
           (Payment.setProfile (Some (Payment.markPro p)) s),
         [SetTimeout 2000; UpdateIsPro (User.id u);
          ToastSuccess (lit "Payment successful! Welcome to Pro!")]) /\
    Payment.render (fst r) = Payment.AlreadyPro /\
    Payment.step Payment.ClickGoToDashboard (fst r) = (fst r, []) /\
    Payment.step Payment.ClickBackToDashboard (fst r) =
      (fst r, [Navigate (lit "/dashboard")]).
Proof.
  destruct (shows_mock_inv s Hshown) as [u [p [Hu [Hp [Hn [Hs [Hpc Hl]]]]]]].
  destruct (idle_when_not_processing s Hreach Hpc) as [Ht Hup].
  exists u, p. split; [exact Hu|]. split; [exact Hp|].
  assert (E : Payment.run
                [Payment.ClickCompletePayment; Payment.TimerFired;
                 Payment.UpdateAnswer None] s =
              (Payment.setPaymentStep 3
                 (Payment.setProfile (Some (Payment.markPro p)) s),
               [SetTimeout 2000; UpdateIsPro (User.id u);
                ToastSuccess (lit "Payment successful! Welcome to Pro!")])).
  { unfold Payment.run. rewrite runWith_three.
    assert (S1 : Payment.step Payment.ClickCompletePayment s =
                 Payment.handlePayment s).
    { unfold Payment.step, Payment.when. now rewrite Hshown. }
    rewrite S1. unfold Payment.handlePayment. rewrite Hu, Hp.
    clear S1 Hshown Hreach.
    destruct s as [pr st ld pc us al ps tm up]. cbn in *. subst.
    reflexivity. }
  cbv zeta. rewrite E. cbn [fst].
  split; [reflexivity|].
  clear E Hshown Hreach.
  destruct s as [pr st ld pc us al ps tm up]. cbn in *. subst.
  unfold Payment.step, Payment.when, Payment.shows, Payment.render. cbn.
  rewrite Hl. cbn. repeat split.
Qed.

Lemma successful_payment_ends_on_already_pro_witness :
  paymentReachable mockPaymentOpen /\
  Payment.shows (Payment.Upgrade (Some (Payment.MockPayment false)))
    mockPaymentOpen = true /\
  Payment.render
    (fst (Payment.run
            [Payment.ClickCompletePayment; Payment.TimerFired;
             Payment.UpdateAnswer None] mockPaymentOpen))
  = Payment.AlreadyPro.
Proof.
  assert (R : paymentReachable mockPaymentOpen).
  { exists (Some exampleUser), false,
      [Payment.ProfileAnswer (Success (exampleProfile false));
       Payment.ClickUpgradeNow].
    vm_compute. reflexivity. }
  assert (H : Payment.shows
                (Payment.Upgrade (Some (Payment.MockPayment false)))
                mockPaymentOpen = true) by (vm_compute; reflexivity).
  destruct (successful_payment_ends_on_already_pro mockPaymentOpen R H)
    as [u [p [_ [_ [_ [V _]]]]]].
  split; [exact R|]. split; [exact H | exact V].
Defined.

(** X19.  Typing a query and then clearing it brings the filtered list
    back to the full case list, in order, whatever the query was; the
    case list itself is never changed by searching. *)
Theorem clearing_the_search_restores_the_list
  (toLowerCase : jsstring -> jsstring)
  (s : Dashboard.State) (q : jsstring)
  (Hmain : Dashboard.mainShown s = true) :
  let s1 := fst (Dashboard.step toLowerCase (Dashboard.TypeSearch q) s) in
  let s2 := fst (Dashboard.step toLowerCase (Dashboard.TypeSearch []) s1) in
  Dashboard.cases s1 = Dashboard.cases s /\
  Dashboard.filteredCases s1 =
    Dashboard.filterCases toLowerCase (Dashboard.cases s) q /\
  Dashboard.cases s2 = Dashboard.cases s /\
  Dashboard.filteredCases s2 = Dashboard.cases s /\
  Dashboard.searchQuery s2 = [] /\
  snd (Dashboard.run toLowerCase
         [Dashboard.TypeSearch q; Dashboard.TypeSearch []] s) = [].
Proof.
  assert (S1 : Dashboard.step toLowerCase (Dashboard.TypeSearch q) s =
               (Dashboard.setFilteredCases
                  (Dashboard.filterCases toLowerCase (Dashboard.cases s) q)
                  (Dashboard.setSearchQuery q s), [])).
  { unfold Dashboard.step, Dashboard.when. now rewrite Hmain. }
  assert (M : Dashboard.mainShown
                (Dashboard.setFilteredCases
                   (Dashboard.filterCases toLowerCase (Dashboard.cases s) q)
                   (Dashboard.setSearchQuery q s)) = true).
  { revert Hmain. unfold Dashboard.mainShown, Dashboard.render. cbn.
    destruct (Dashboard.authLoading s || Dashboard.loading s);
      [discriminate|].
    destruct (Dashboard.user s); [|discriminate].
    destruct (Dashboard.profile s); [reflexivity | discriminate]. }
  assert (S2 : forall x, Dashboard.mainShown x = true ->
             Dashboard.step toLowerCase (Dashboard.TypeSearch []) x =
             (Dashboard.setFilteredCases (Dashboard.cases x)
                (Dashboard.setSearchQuery [] x), [])).
  { intros x Hx. unfold Dashboard.step, Dashboard.when. now rewrite Hx. }
  unfold Dashboard.run. rewrite runWith_two, S1. cbn [fst snd].
  rewrite (S2 _ M). repeat split.
Qed.

Lemma clearing_the_search_restores_the_list_witness :
  let s := Dashboard.setCases [exampleCase "Smith v. Jones" None]
             dialogWithTitle in
  Dashboard.mainShown s = true /\
  Dashboard.filteredCases
    (fst (Dashboard.step asciiLower (Dashboard.TypeSearch (lit "probate")) s))
  = [] /\
  Dashboard.filteredCases
    (fst (Dashboard.step asciiLower (Dashboard.TypeSearch [])
            (fst (Dashboard.step asciiLower
                    (Dashboard.TypeSearch (lit "probate")) s))))
  = [exampleCase "Smith v. Jones" None].
Proof.
  intros s.
  assert (H : Dashboard.mainShown s = true) by (vm_compute; reflexivity).
  destruct (clearing_the_search_restores_the_list asciiLower s
              (lit "probate") H) as [_ [A [_ [B _]]]].
  split; [exact H|]. split; [rewrite A; reflexivity | exact B].
Defined.

(* ------------------------------------------------------------------ *)
(** ** Dashboard: the render before the filter effect *)

Lemma step_is_commit_then_effects
  (toLowerCase : jsstring -> jsstring)
  (ev : Dashboard.Event) (s : Dashboard.State) :
  Dashboard.step toLowerCase ev s =
  andThen (DashboardPhases.commit ev)
    (DashboardPhases.effectsDue toLowerCase ev s) s.
Proof.
  destruct s as [pr cs fc sq sm nt nd ld cr us al ps cn ci so].
  destruct ev;
    unfold DashboardPhases.commit, DashboardPhases.effectsDue;
    dashboard_unfold; cbn;
    repeat (cbn;
            match goal with
            | |- context [match ?x with _ => _ end] =>
                is_var x;
                lazymatch type of x with
                | list _ => fail
                | _ => destruct x
                end
            | |- context [if ?b then _ else _] => destruct b eqn:?
            end);
    cbn; try reflexivity.
Qed.

Lemma commit_insert (s : Dashboard.State) (d : Case.t) :
  0 < Dashboard.caseInserts s ->
  let c := fst (DashboardPhases.commit
                  (Dashboard.InsertAnswer (Success d)) s) in
  Dashboard.cases c = d :: Dashboard.cases s /\
  Dashboard.filteredCases c = Dashboard.filteredCases s /\
  Dashboard.searchQuery c = Dashboard.searchQuery s /\
  Dashboard.mainShown c = Dashboard.mainShown s.
Proof.
  intros H. apply Nat.ltb_lt in H.
  unfold DashboardPhases.commit, Dashboard.when. rewrite H.
  destruct s as [pr cs fc sq sm nt nd ld cr us al ps cn ci so].
  cbn. repeat split.
  unfold Dashboard.mainShown, Dashboard.render. cbn.
  destruct (al || ld); [reflexivity|].
  destruct us; [|reflexivity]. destruct pr; reflexivity.
Qed.

(** X1.  The filtered list is brought in step by the effect of lines
    72-81, not by the handlers.  A step of the dashboard is the commit
    of the handler followed by the effects due; the filter effect, from
    any state, makes the filtered list the filter of the case list by
    the query and changes nothing else.  So each time the effects of an
    event have run (at mount and at the end of every step), the filtered
    list is that filter: its cases are cases of the full list, in the
    order of the full list, and it is never longer.  In the render
    committed between a handler and the effect it can be stale: right
    after a case is inserted under an empty query the filtered list
    lacks the new case. *)
Theorem filtered_view_settles_once_the_effect_has_run
  (toLowerCase : jsstring -> jsstring) :
  (forall ev s,
     Dashboard.step toLowerCase ev s =
     andThen (DashboardPhases.commit ev)
       (DashboardPhases.effectsDue toLowerCase ev s) s)
  /\
  (forall s,
     let s' := fst (Dashboard.filterEffect toLowerCase s) in
     filterSettled toLowerCase s' /\
     s' = Dashboard.setFilteredCases (Dashboard.filteredCases s') s /\
     snd (Dashboard.filterEffect toLowerCase s) = [])
  /\
  (forall ev s,
     filterSettled toLowerCase s ->
     filterSettled toLowerCase (fst (Dashboard.step toLowerCase ev s)))
  /\
  (forall u al evs,
     let s := fst (Dashboard.run toLowerCase evs
                     (fst (Dashboard.mount toLowerCase u al))) in
     filterSettled toLowerCase s /\
     (exists keep,
        Dashboard.filteredCases s = filter keep (Dashboard.cases s)) /\
     (forall c, In c (Dashboard.filteredCases s) ->
                In c (Dashboard.cases s)) /\
     List.length (Dashboard.filteredCases s) <=
       List.length (Dashboard.cases s))
  /\
  (forall s d,
     0 < Dashboard.caseInserts s ->
     filterSettled toLowerCase s ->
     Dashboard.searchQuery s = [] ->
     let c := fst (DashboardPhases.commit
                     (Dashboard.InsertAnswer (Success d)) s) in
     Dashboard.cases c = d :: Dashboard.cases s /\
     Dashboard.filteredCases c = Dashboard.cases s /\
     ~ filterSettled toLowerCase c).
Proof.
  split; [apply step_is_commit_then_effects|].
  split; [intros s; destruct s; repeat split|].
  split; [intros ev s; apply filterSettled_step|].
  split.
  - intros u al evs s.
    assert (E : filterSettled toLowerCase s).
    { apply filterSettled_reachable. now exists u, al, evs. }
    split; [exact E|]. unfold filterSettled in E.
    assert (K : exists keep,
               Dashboard.filteredCases s = filter keep (Dashboard.cases s)).
    { rewrite E. unfold Dashboard.filterCases.
      destruct (truthy (Dashboard.searchQuery s)).
      - eexists. reflexivity.
      - exists (fun _ => true). clear E.
        induction (Dashboard.cases s) as [|c l IH];
          [reflexivity | simpl; f_equal; exact IH]. }
    split; [exact K|]. destruct K as [keep K]. rewrite K. split.
    + intros c Hc. now apply filter_In in Hc.
    + apply filter_length_le.
  - intros s d Hi Hs Hq c.
    destruct (commit_insert s d Hi) as [Ec [Ef [Eq _]]]. fold c in Ec, Ef, Eq.
    unfold filterSettled in *.
    rewrite Hq in Hs. unfold Dashboard.filterCases in Hs. cbn in Hs.
    split; [exact Ec|]. split; [now rewrite Ef|].
    rewrite Ef, Ec, Eq, Hq, Hs. unfold Dashboard.filterCases. cbn.
    intros K. apply (f_equal (@List.length Case.t)) in K. cbn in K. lia.
Qed.

Lemma filtered_view_settles_once_the_effect_has_run_witness :
  let s := Dashboard.awaitInsert (Dashboard.setCreating true dialogWithTitle) in
  let d := exampleCase "Smith v. Jones" None in
  let c := fst (DashboardPhases.commit
                  (Dashboard.InsertAnswer (Success d)) s) in
  0 < Dashboard.caseInserts s /\
  filterSettled asciiLower s /\
  Dashboard.searchQuery s = [] /\
  Dashboard.cases c = [d] /\
  Dashboard.filteredCases c = [] /\
  Dashboard.filteredCases
    (fst (Dashboard.step asciiLower (Dashboard.InsertAnswer (Success d)) s))
  = [d].
Proof.
  intros s d c.
  assert (H1 : 0 < Dashboard.caseInserts s) by (cbn; lia).
  assert (H2 : filterSettled asciiLower s) by reflexivity.
  assert (H3 : Dashboard.searchQuery s = []) by reflexivity.
  destruct (filtered_view_settles_once_the_effect_has_run asciiLower)
    as [_ [_ [_ [_ K]]]].
  destruct (K s d H1 H2 H3) as [A [B _]].
  split; [exact H1|]. split; [exact H2|]. split; [exact H3|].
  split; [exact A|]. split; [exact B | reflexivity].
Defined.

(** X10.  What the case area of the main view shows in a state where
    the filter effect has run (the filtered list is in step with the
    list and the query), as is the case after every event once its
    effects have run: "No cases yet" exactly when the case list is
    empty; "No cases found" exactly when the list is not empty and no
    case contains the query; otherwise the grid, with one card per case
    of the filtered list, in order.  The total shown is the length of
    the full list.  The render committed before the effect runs can
    differ: right after the insert of a case while the filtered list is
    empty, the main view counts the new case in its total and shows "No
    cases found", whatever the query. *)
Theorem case_area_once_the_filter_effect_has_run
  (toLowerCase : jsstring -> jsstring)
  (Hempty : toLowerCase [] = []) :
  (forall s v,
     filterSettled toLowerCase s ->
     Dashboard.render s = Dashboard.Main v ->
     (Dashboard.view_area v = Dashboard.NoCasesYet <->
      Dashboard.cases s = []) /\
     (Dashboard.view_area v = Dashboard.NoCasesFound <->
      Dashboard.cases s <> [] /\
      forall c, In c (Dashboard.cases s) ->
                ~ caseContains toLowerCase (Dashboard.searchQuery s) c) /\
     (forall cards, Dashboard.view_area v = Dashboard.Grid cards ->
        cards = map Dashboard.card
                  (Dashboard.filterCases toLowerCase (Dashboard.cases s)
                     (Dashboard.searchQuery s)) /\
        exists c, In c (Dashboard.cases s) /\
                  caseContains toLowerCase (Dashboard.searchQuery s) c) /\
     Dashboard.view_total v = List.length (Dashboard.cases s))
  /\
  (forall u al evs,
     filterSettled toLowerCase
       (fst (Dashboard.run toLowerCase evs
               (fst (Dashboard.mount toLowerCase u al)))))
  /\
  (forall s d,
     Dashboard.mainShown s = true ->
     0 < Dashboard.caseInserts s ->
     Dashboard.filteredCases s = [] ->
     exists v,
       Dashboard.render
         (fst (DashboardPhases.commit
                 (Dashboard.InsertAnswer (Success d)) s)) =
       Dashboard.Main v /\
       Dashboard.view_area v = Dashboard.NoCasesFound /\
       Dashboard.view_total v = S (List.length (Dashboard.cases s))).
Proof.
  split; [|split].
  - intros s v E Hr.
    unfold filterSettled in E.
    pose proof (filterCases_nil_iff toLowerCase (Dashboard.cases s)
                  (Dashboard.searchQuery s) Hempty) as N.
    rewrite <- E in N.
    unfold Dashboard.render in Hr.
    destruct (Dashboard.authLoading s || Dashboard.loading s);
      [discriminate|].
    destruct (Dashboard.user s) as [usr|]; [|discriminate].
    destruct (Dashboard.profile s) as [p|]; [|discriminate].
    injection Hr as <-. cbn.
    destruct (Dashboard.filteredCases s) as [|f fs] eqn:Ef.
    + assert (Hnone : forall c, In c (Dashboard.cases s) ->
                ~ caseContains toLowerCase (Dashboard.searchQuery s) c)
        by (now apply N).
      destruct (Dashboard.cases s) as [|c cs] eqn:Ec.
      * split; [tauto|]. split; [|split; [discriminate | reflexivity]].
        split; [discriminate | intros [K _]; congruence].
      * split; [split; discriminate|].
        split; [|split; [discriminate | reflexivity]].
        split; [intros _; split; [discriminate | exact Hnone]
               | reflexivity].
    + assert (Hne : Dashboard.cases s <> []).
      { intros K. rewrite K in E. unfold Dashboard.filterCases in E.
        destruct (truthy (Dashboard.searchQuery s)); discriminate. }
      split; [split; [discriminate | intros K; contradiction]|].
      split.
      * split; [discriminate|]. intros [_ K]. apply N in K. discriminate.
      * split; [|reflexivity].
        intros cards Hc. injection Hc as <-. split; [now rewrite <- E|].
        assert (Hin : In f (Dashboard.filterCases toLowerCase
                              (Dashboard.cases s) (Dashboard.searchQuery s)))
          by (rewrite <- E; now left).
        apply filterCases_In in Hin; [|exact Hempty]. now exists f.
  - intros u al evs. apply filterSettled_reachable. now exists u, al, evs.
  - intros s d Hm Hi Hf.
    destruct (commit_insert s d Hi) as [Ec [Ef [_ Em]]].
    set (c := fst (DashboardPhases.commit
                     (Dashboard.InsertAnswer (Success d)) s)) in *.
    rewrite Hm in Em. rewrite Hf in Ef.
    unfold Dashboard.mainShown in Em. unfold Dashboard.render in *.
    destruct (Dashboard.authLoading c || Dashboard.loading c);
      [discriminate|].
    destruct (Dashboard.user c); [|discriminate].
    destruct (Dashboard.profile c); [|discriminate].
    eexists. split; [reflexivity|]. cbn. rewrite Ef, Ec. split; reflexivity.
Qed.

Lemma case_area_once_the_filter_effect_has_run_witness :
  asciiLower [] = [] /\
  filterSettled asciiLower dashboardWithOneCase /\
  exists v, Dashboard.render dashboardWithOneCase = Dashboard.Main v /\
            Dashboard.view_total v = 1 /\
            Dashboard.view_area v <> Dashboard.NoCasesYet.
Proof.
  assert (H0 : asciiLower [] = []) by reflexivity.
  assert (H1 : filterSettled asciiLower dashboardWithOneCase) by reflexivity.
  split; [exact H0|]. split; [exact H1|].
  destruct (Dashboard.render dashboardWithOneCase) as [| |v] eqn:Er;
    [vm_compute in Er; discriminate | vm_compute in Er; discriminate |].
  exists v. split; [reflexivity|].
  destruct (case_area_once_the_filter_effect_has_run asciiLower H0)
    as [A _].
  destruct (A dashboardWithOneCase v H1 Er) as [B [_ [_ D]]].
  split; [exact D|].
  intros K. apply B in K. discriminate.
Defined.
